(** * The captcha-token and phone-approval code of the DKB fetcher

    A shallow embedding of [server/dkb_fetch.py] and
    [server/get_captcha_token.py], and the properties of their retry,
    wait and poll loops.

    Both files are glue around the outside world: a child process, a
    browser driven through SeleniumBase, two HTTP endpoints.  A function
    of the source becomes a computation in the monad [M] below, which
    records every call that leaves the process (the trace) and carries
    Python's exceptions.  What the outside world answers at a call site
    is an argument of the function (an oracle), indexed by the loop
    counter the source keeps at that site ([attempt], [cnt], [retries],
    the round of [range(50)]).

    The [json] module and [dkb_robo]'s [APPAuthentication._check] are
    libraries, not code of the repository: they are variables of the
    sections that use them. *)

From Stdlib Require Import ZArith List String Ascii Bool Lia DecimalString.
Import ListNotations.
Local Open Scope list_scope.
Local Open Scope string_scope.
Local Open Scope Z_scope.

(** ** Python values

    The values that cross the functions under study all come out of
    [json.loads] or are literals of the source: [None], booleans,
    integers, strings, lists and dicts with string keys.  A JSON number
    with a fraction behaves, under every operation used here (truth
    value, [len], [in], subscript, [.get]), like a non-zero integer, or
    like [0] when it is [0.0]. *)

#[local] Set Warnings "-register-all".

Inductive value : Type :=
| VNone
| VBool (b : bool)
| VInt (z : Z)
| VStr (s : string)
| VList (items : list value)
| VDict (entries : list (string * value)).

(** Exceptions.  Every class below derives from [Exception], the class
    the handlers of the source name; [KeyboardInterrupt] and [SystemExit]
    are not exceptions in that sense and are outside the model. *)

Inductive exn_class : Type :=
| TimeoutExpired      (* subprocess.TimeoutExpired *)
| JSONDecodeError
| TypeError
| KeyError
| AttributeError
| IndexError
| DKBRoboError        (* dkb_robo.utilities.DKBRoboError *)
| OtherError.         (* any other subclass of Exception *)

Record exn : Type := Exn { exn_cls : exn_class; exn_msg : string }.

(** A step of Python either yields a value or raises.  The outside
    world's answers and Python's own operations have this type. *)

Inductive Res (A : Type) : Type :=
| Ret (a : A)
| Raise (e : exn).

Arguments Ret {A} a.
Arguments Raise {A} e.

(** The outcome of a computation of the model: what Python does, or the
    counter of one of the model's two [while] loops running out, which
    the theorems show never happens. *)

Inductive Outcome (A : Type) : Type :=
| Done (r : Res A)
| OutOfFuel.

Arguments Done {A} r.
Arguments OutOfFuel {A}.

(** ** Calls that leave the process *)

Inductive Channel : Type := Stdout | Stderr.

Inductive LogLevel : Type := DEBUG | INFO | ERROR.

Inductive BrowserOp : Type :=
| SBEnter (headless : bool)               (* with SB(uc=True, ...) as sb *)
| SBExit                                  (* leaving the with block *)
| ActivateCdpMode (url : string)
| AddHandler                              (* page.add_handler(ResponseReceived, handler) *)
| CdpOpen (url : string)
| SwitchToDefaultContent
| FindElementClick (selector : string)    (* sb.find_element(selector).click() *)
| SwitchToFrame (selector : string)
| CdpRefresh
| GetEventLoop.

Inductive Call : Type :=
| Print (ch : Channel) (line : string)    (* print(line, file=...) *)
| Log (lvl : LogLevel) (msg : string)     (* logger.debug / info / error *)
| Sleep (seconds : Z)                     (* time.sleep, asyncio.sleep *)
| SubprocessRun (argv : list string) (timeout : Z)
| HttpPost (url : string) (data : list (string * value))
| HttpGet (url : string)
| Browser (op : BrowserOp)
| GetResponseBody (request_id : string).  (* page.send(get_response_body(id)) *)

(** ** The monad: a trace of calls and an outcome *)

Definition M (A : Type) : Type := list Call * Outcome A.

Definition ret {A} (a : A) : M A := ([], Done (Ret a)).

Definition raise {A} (e : exn) : M A := ([], Done (Raise e)).

Definition bind {A B} (m : M A) (f : A -> M B) : M B :=
  match m with
  | (t, Done (Ret a)) => let (t', r) := f a in ((t ++ t')%list, r)
  | (t, Done (Raise e)) => (t, Done (Raise e))
  | (t, OutOfFuel) => (t, OutOfFuel)
  end.

(** [try: m] followed by [except Exception as e: h e].  A bare
    [except:] is the same here, every [exn] being an [Exception]. *)
Definition try_except {A} (m : M A) (h : exn -> M A) : M A :=
  match m with
  | (t, Done (Raise e)) => let (t', r) := h e in ((t ++ t')%list, r)
  | other => other
  end.

(** [with ... :] around [body]: [leave] runs on the way out, whether
    [body] returned or raised; what [leave] raises replaces what [body]
    did. *)
Definition with_exit {A} (body : M A) (leave : M unit) : M A :=
  match body with
  | (t, Done r) =>
      match leave with
      | (t', Done (Ret _)) => ((t ++ t')%list, Done r)
      | (t', Done (Raise e')) => ((t ++ t')%list, Done (Raise e'))
      | (t', OutOfFuel) => ((t ++ t')%list, OutOfFuel)
      end
  | (t, OutOfFuel) => (t, OutOfFuel)
  end.

(** A pure step that may raise. *)
Definition lift {A} (r : Res A) : M A := ([], Done r).

(** The call [c], to which the outside world answers [r]. *)
Definition call {A} (c : Call) (r : Res A) : M A := ([c], Done r).

Definition out_of_fuel {A} : M A := ([], OutOfFuel).

Definition emit (c : Call) : M unit := ([c], Done (Ret tt)).

Definition print (ch : Channel) (line : string) : M unit := emit (Print ch line).

Definition log (lvl : LogLevel) (msg : string) : M unit := emit (Log lvl msg).

Definition sleep (seconds : Z) : M unit := emit (Sleep seconds).

Declare Scope py_scope.
Delimit Scope py_scope with py.
Notation "x <- m ;; k" := (bind m (fun x => k))
  (at level 100, m at next level, right associativity) : py_scope.
Notation "m ;; k" := (bind m (fun _ => k))
  (at level 100, right associativity) : py_scope.
Local Open Scope py_scope.

Definition trace_of {A} (m : M A) : list Call := fst m.

Definition result_of {A} (m : M A) : Outcome A := snd m.

(** ** Python's operations on values *)

Definition nl : string := String "010"%char EmptyString.

Definition dq : string := String "034"%char EmptyString.

(** [str(z)] for an int *)
Definition str_Z (z : Z) : string := NilZero.string_of_int (Z.to_int z).

(** [bool(v)]: what [if v:] and [not v] test *)
Definition truthy (v : value) : bool :=
  match v with
  | VNone => false
  | VBool b => b
  | VInt z => negb (z =? 0)
  | VStr s => negb (s =? "")%string
  | VList items => match items with [] => false | _ :: _ => true end
  | VDict entries => match entries with [] => false | _ :: _ => true end
  end.

Fixpoint lookup (key : string) (entries : list (string * value)) : option value :=
  match entries with
  | [] => None
  | (k, v) :: rest => if (k =? key)%string then Some v else lookup key rest
  end.

(** [needle in hay] for two strings *)
Fixpoint is_infix (needle hay : string) : bool :=
  String.prefix needle hay
  || match hay with
     | EmptyString => false
     | String _ rest => is_infix needle rest
     end.

Definition is_str (key : string) (v : value) : bool :=
  match v with
  | VStr s => (s =? key)%string
  | _ => false
  end.

(** [v.get(key)] *)
Definition py_get (v : value) (key : string) : Res value :=
  match v with
  | VDict entries =>
      Ret (match lookup key entries with Some x => x | None => VNone end)
  | _ => Raise (Exn AttributeError "object has no attribute 'get'")
  end.

(** [v[key]] for a string [key] *)
Definition py_getitem (v : value) (key : string) : Res value :=
  match v with
  | VDict entries =>
      match lookup key entries with
      | Some x => Ret x
      | None => Raise (Exn KeyError key)
      end
  | VList _ | VStr _ => Raise (Exn TypeError "indices must be integers")
  | _ => Raise (Exn TypeError "object is not subscriptable")
  end.

(** [key in v] for a string [key] *)
Definition py_contains (key : string) (v : value) : Res bool :=
  match v with
  | VDict entries =>
      Ret (match lookup key entries with Some _ => true | None => false end)
  | VList items => Ret (existsb (is_str key) items)
  | VStr s => Ret (is_infix key s)
  | _ => Raise (Exn TypeError "argument is not iterable")
  end.

(** [len(v)] *)
Definition py_len (v : value) : Res Z :=
  match v with
  | VStr s => Ret (Z.of_nat (String.length s))
  | VList items => Ret (Z.of_nat (List.length items))
  | VDict entries => Ret (Z.of_nat (List.length entries))
  | _ => Raise (Exn TypeError "object has no len()")
  end.

(** [range(a, b)] *)
Definition py_range (a b : Z) : list Z :=
  map (fun i => a + Z.of_nat i) (seq 0 (Z.to_nat (b - a))).

(** ** The [json] module

    [json.loads] on a [str] gives the value, or [None] when it raises
    [JSONDecodeError]; [json.dumps] gives the text of a value. *)

Class Json : Type :=
  { json_loads : string -> option value;
    json_dumps : value -> string }.

(** *** A reference instance

    The theorems hold for any [json.loads] and [json.dumps].  To run the
    model on concrete texts, this module implements the two functions
    for the values above: [dumps] writes Python's default separators,
    [loads] reads objects, arrays, strings with the two-character
    escapes, integers and the three literals. *)

Module JsonRef.

Definition backslash : ascii := "092"%char.

Definition quote : ascii := "034"%char.

Fixpoint escape (s : string) : string :=
match s with
| EmptyString => EmptyString
| String c rest =>
    if (c =? quote)%char || (c =? backslash)%char
    then String backslash (String c (escape rest))
    else if (c =? "010")%char then String backslash (String "n"%char (escape rest))
    else String c (escape rest)
end.

Definition quoted (s : string) : string := dq ++ escape s ++ dq.

Fixpoint join (sep : string) (parts : list string) : string :=
match parts with
| [] => ""
| [p] => p
| p :: rest => p ++ sep ++ join sep rest
end.

Fixpoint dumps (v : value) : string :=
match v with
| VNone => "null"
| VBool true => "true"
| VBool false => "false"
| VInt z => str_Z z
| VStr s => quoted s
| VList items => "[" ++ join ", " (map dumps items) ++ "]"
| VDict entries =>
    "{" ++ join ", " (map (fun kv => quoted (fst kv) ++ ": " ++ dumps (snd kv)) entries) ++ "}"
end.

Fixpoint spaces (n : nat) : string :=
match n with
| O => ""
| S n' => " " ++ spaces n'
end.

(** [json.dumps(v, indent=2)]: one item per line, nested two spaces
  deeper at each level; an empty array or object stays on its line. *)
Fixpoint dumps_indent_at (level : nat) (v : value) : string :=
let inner := nl ++ spaces (2 * S level) in
let outer := nl ++ spaces (2 * level) in
match v with
| VList items =>
    match items with
    | [] => "[]"
    | _ :: _ =>
        "[" ++ inner ++ join ("," ++ inner) (map (dumps_indent_at (S level)) items)
        ++ outer ++ "]"
    end
| VDict entries =>
    match entries with
    | [] => "{}"
    | _ :: _ =>
        "{" ++ inner
        ++ join ("," ++ inner)
             (map (fun kv => quoted (fst kv) ++ ": " ++ dumps_indent_at (S level) (snd kv))
                entries)
        ++ outer ++ "}"
    end
| other => dumps other
end.

Definition dumps_indent (v : value) : string := dumps_indent_at 0 v.

Definition is_ws (c : ascii) : bool :=
(c =? " ")%char || (c =? "010")%char || (c =? "013")%char || (c =? "009")%char.

Fixpoint skip_ws (s : string) : string :=
match s with
| String c rest => if is_ws c then skip_ws rest else s
| EmptyString => s
end.

(** The text after an opening quote: the string's content and what
  follows the closing quote. *)
Fixpoint read_string (s : string) : option (string * string) :=
match s with
| EmptyString => None
| String c rest =>
    if (c =? quote)%char then Some (EmptyString, rest)
    else if (c =? backslash)%char then
      match rest with
      | String e rest' =>
          let decoded :=
            if (e =? "n")%char then Some "010"%char
            else if (e =? "t")%char then Some "009"%char
            else if (e =? "r")%char then Some "013"%char
            else if (e =? quote)%char || (e =? backslash)%char || (e =? "/")%char
                 then Some e
            else None in
          match decoded, read_string rest' with
          | Some d, Some (body, after) => Some (String d body, after)
          | _, _ => None
          end
      | EmptyString => None
      end
    else
      match read_string rest with
      | Some (body, after) => Some (String c body, after)
      | None => None
      end
end.

Definition digit_of (c : ascii) : option Z :=
let n := Z.of_nat (nat_of_ascii c) in
if (48 <=? n) && (n <=? 57) then Some (n - 48) else None.

Fixpoint read_digits (acc : Z) (s : string) : Z * string :=
match s with
| String c rest =>
    match digit_of c with
    | Some d => read_digits (10 * acc + d) rest
    | None => (acc, s)
    end
| EmptyString => (acc, s)
end.

Definition read_int (s : string) : option (Z * string) :=
match s with
| String c rest =>
    if (c =? "-")%char then
      match rest with
      | String d _ =>
          match digit_of d with
          | Some _ => let (n, after) := read_digits 0 rest in Some (- n, after)
          | None => None
          end
      | EmptyString => None
      end
    else
      match digit_of c with
      | Some _ => Some (read_digits 0 s)
      | None => None
      end
| EmptyString => None
end.

Definition read_literal (word : string) (v : value) (s : string) : option (value * string) :=
if String.prefix word s
then Some (v, String.substring (String.length word) (String.length s - String.length word) s)
else None.

Section Containers.

Variable read_value : string -> option (value * string).

(** The elements of an array after its first one: [, v]* and the
closing bracket. *)
Fixpoint read_more_items (fuel : nat) (acc : list value) (s : string)
: option (list value * string) :=
match fuel with
| O => None
| S fuel' =>
  match skip_ws s with
  | String c rest =>
      if (c =? "]")%char then Some (rev acc, rest)
      else if (c =? ",")%char then
        match read_value rest with
        | Some (v, after) => read_more_items fuel' (v :: acc) after
        | None => None
        end
      else None
  | EmptyString => None
  end
end.

Definition read_member (s : string) : option ((string * value) * string) :=
match skip_ws s with
| String c rest =>
  if (c =? quote)%char then
    match read_string rest with
    | Some (key, after) =>
        match skip_ws after with
        | String colon after' =>
            if (colon =? ":")%char then
              match read_value after' with
              | Some (v, after'') => Some ((key, v), after'')
              | None => None
              end
            else None
        | EmptyString => None
        end
    | None => None
    end
  else None
| EmptyString => None
end.

Fixpoint read_more_members (fuel : nat) (acc : list (string * value)) (s : string)
: option (list (string * value) * string) :=
match fuel with
| O => None
| S fuel' =>
  match skip_ws s with
  | String c rest =>
      if (c =? "}")%char then Some (rev acc, rest)
      else if (c =? ",")%char then
        match read_member rest with
        | Some (kv, after) => read_more_members fuel' (kv :: acc) after
        | None => None
        end
      else None
  | EmptyString => None
  end
end.

End Containers.

Fixpoint read_value (fuel : nat) (s : string) : option (value * string) :=
match fuel with
| O => None
| S fuel' =>
    match skip_ws s with
    | EmptyString => None
    | String c rest as s' =>
        if (c =? quote)%char then
          match read_string rest with
          | Some (body, after) => Some (VStr body, after)
          | None => None
          end
        else if (c =? "[")%char then
          match skip_ws rest with
          | String c' rest' =>
              if (c' =? "]")%char then Some (VList [], rest')
              else
                match read_value fuel' rest with
                | Some (v, after) =>
                    match read_more_items (read_value fuel') fuel' [v] after with
                    | Some (items, after') => Some (VList items, after')
                    | None => None
                    end
                | None => None
                end
          | EmptyString => None
          end
        else if (c =? "{")%char then
          match skip_ws rest with
          | String c' rest' =>
              if (c' =? "}")%char then Some (VDict [], rest')
              else
                match read_member (read_value fuel') rest with
                | Some (kv, after) =>
                    match read_more_members (read_value fuel') fuel' [kv] after with
                    | Some (entries, after') => Some (VDict entries, after')
                    | None => None
                    end
                | None => None
                end
          | EmptyString => None
          end
        else if (c =? "t")%char then read_literal "true" (VBool true) s'
        else if (c =? "f")%char then read_literal "false" (VBool false) s'
        else if (c =? "n")%char then read_literal "null" VNone s'
        else
          match read_int s' with
          | Some (z, after) => Some (VInt z, after)
          | None => None
          end
    end
end.

Definition loads (s : string) : option value :=
match read_value (S (String.length s)) s with
| Some (v, after) =>
    match skip_ws after with
    | EmptyString => Some v
    | String _ _ => None
    end
| None => None
end.

#[global] Instance codec : Json := {| json_loads := loads; json_dumps := dumps |}.

End JsonRef.

(** ** Data of the two programs *)

(** [subprocess.CompletedProcess], with [capture_output=True, text=True] *)
Record CompletedProcess : Type :=
  { returncode : Z; stdout : string; stderr : string }.

(** A [requests] response: [status_code], and the body [.json()] parses *)
Record Response : Type := { status_code : Z; text : string }.

(** The fields of [dkb_robo]'s [Authentication] that [_token_get] uses *)
Record Authentication : Type :=
  { dkb_user : string; dkb_password : string; base_url : string; token_dic : value }.

(** A [mycdp.network.ResponseReceived] event: [evt.response.url] and
    [evt.request_id] *)
Record NetworkEvent : Type := { response_url : string; request_id : string }.

(** What the browser session of one [get_dkb_redeem_token] call answers.
    The index of a per-round oracle is the round of [range(50)]; the
    index of [arrived_at_check] is the value of [retries] at the check.
    [arrived_*] list the events the handler of
    [listen_to_captcha_redeem] has been called with so far, in order. *)
Record BrowserEnv : Type :=
  { sb_enter : Res unit;
    sb_exit : Res unit;
    activate_cdp_mode : Res unit;
    add_handler : Res unit;
    cdp_open : Res unit;
    arrived_in_round : Z -> list NetworkEvent;
    switch_to_default_content : Z -> Res unit;
    click_accept_button : Z -> Res unit;
    switch_to_frame : Z -> Res unit;
    cdp_refresh : Z -> Res unit;
    click_checkbox : Z -> Res unit;
    get_event_loop : Res unit;
    arrived_at_check : Z -> list NetworkEvent;
    get_response_body : string -> Res (string * bool) }.

Inductive LoopExit : Type := Continue | Break.

Definition len {A} (l : list A) : Z := Z.of_nat (List.length l).

(** [l[-1]] *)
Definition py_last {A} (l : list A) : Res A :=
  match rev l with
  | x :: _ => Ret x
  | [] => Raise (Exn IndexError "list index out of range")
  end.

Section Model.

Context {json : Json}.

Definition loads (s : string) : M value :=
  lift (match json_loads s with
        | Some v => Ret v
        | None => Raise (Exn JSONDecodeError "Expecting value")
        end).

(** *** dkb_fetch.py: [get_captcha_token] *)

Section GetCaptchaToken.

(** What [subprocess.run] does in the attempt numbered [attempt]:
    the finished child, or an exception ([TimeoutExpired] after
    450 s, or any other). *)
Variable run_child : Z -> Res CompletedProcess.

(** The body of the [try] (lines 32-48): [Some token] stands for
    [return token], [None] for reaching the end of the block. *)
Definition attempt_try (attempt : Z) : M (option value) :=
  result <- call (SubprocessRun ["python3"; "/app/server/get_captcha_token.py"] 450)
                 (run_child attempt) ;;
  returned <-
    (if returncode result =? 0 then
       data <- loads (stdout result) ;;
       success <- lift (py_get data "success") ;;
       if truthy success then
         token <- lift (py_get data "token") ;;
         n <- lift (py_len token) ;;
         print Stderr ("[dkb_fetch.py] Got captcha token (length: " ++ str_Z n ++ ")") ;;
         ret (Some token)
       else ret None
     else ret None) ;;
  match returned with
  | Some token => ret (Some token)
  | None =>
      print Stderr ("[dkb_fetch.py] Attempt " ++ str_Z attempt ++ " failed: "
                    ++ stderr result) ;;
      ret None
  end.

(** The two [except] clauses (lines 50-53) *)
Definition attempt_except (attempt : Z) (e : exn) : M (option value) :=
  match exn_cls e with
  | TimeoutExpired =>
      print Stderr ("[dkb_fetch.py] Attempt " ++ str_Z attempt
                    ++ " timed out after 180s") ;;
      ret None
  | _ =>
      print Stderr ("[dkb_fetch.py] Attempt " ++ str_Z attempt ++ " error: "
                    ++ exn_msg e) ;;
      ret None
  end.

(** One attempt: the [try] statement of the loop body *)
Definition attempt_guarded (attempt : Z) : M (option value) :=
  try_except (attempt_try attempt) (attempt_except attempt).

(** [for attempt in range(1, max_retries + 1)], and lines 60-61
    after it *)
Fixpoint attempts_loop (max_retries : Z) (attempts : list Z) : M value :=
  match attempts with
  | [] =>
      print Stderr ("[dkb_fetch.py] Failed to get captcha token after "
                    ++ str_Z max_retries ++ " attempts") ;;
      ret VNone
  | attempt :: rest =>
      print Stderr ("[dkb_fetch.py] Captcha attempt " ++ str_Z attempt ++ "/"
                    ++ str_Z max_retries ++ "...") ;;
      returned <- attempt_guarded attempt ;;
      match returned with
      | Some token => ret token
      | None =>
          (if attempt <? max_retries then
             print Stderr "[dkb_fetch.py] Retrying in 5 seconds..." ;;
             sleep 5
           else ret tt) ;;
          attempts_loop max_retries rest
      end
  end.

Definition get_captcha_token (max_retries : Z) : M value :=
  print Stderr "[dkb_fetch.py] Getting captcha token..." ;;
  attempts_loop max_retries (py_range 1 (max_retries + 1)).

(** What an attempt comes to, read off the answer of
    [subprocess.run]: the token it returns, if it returns one.
    [attempt_guarded_result] below shows that the code computes
    this. *)
Definition attempt_token (answer : Res CompletedProcess) : option value :=
  match answer with
  | Ret result =>
      if returncode result =? 0 then
        match json_loads (stdout result) with
        | Some (VDict entries) =>
            match lookup "success" entries with
            | Some success =>
                if truthy success then
                  match lookup "token" entries with
                  | Some token =>
                      match py_len token with
                      | Ret _ => Some token
                      | Raise _ => None
                      end
                  | None => None
                  end
                else None
            | None => None
            end
        | _ => None
        end
      else None
  | Raise _ => None
  end.

End GetCaptchaToken.

(** *** dkb_fetch.py: [patch_dkb_authentication]

    [patched_token_get] is the closure the function installs as
    [Authentication._token_get]; [captcha_token] is what it captures.
    [client_post url data] is what [self.client.post] answers.  The
    result is [self] after the call. *)

Definition response_json (response : Response) : M value := loads (text response).

Definition patched_token_get (captcha_token : value)
    (client_post : string -> list (string * value) -> Res Response)
    (self : Authentication) : M Authentication :=
  log DEBUG ("Authentication._token_get() [PATCHED WITH CAPTCHA]" ++ nl) ;;
  let data_dic :=
    [("captcha_token", captcha_token);
     ("grant_type", VStr "banking_user_sca");
     ("username", VStr (dkb_user self));
     ("password", VStr (dkb_password self));
     ("sca_type", VStr "web-login")] in
  response <- call (HttpPost (base_url self ++ "/token") data_dic)
                   (client_post (base_url self ++ "/token") data_dic) ;;
  self' <-
    (if status_code response =? 200 then
       payload <- response_json response ;;
       ret {| dkb_user := dkb_user self; dkb_password := dkb_password self;
              base_url := base_url self; token_dic := payload |}
     else
       raise (Exn DKBRoboError
                ("Login failed: 1st factor authentication failed. RC: "
                 ++ str_Z (status_code response)))) ;;
  log DEBUG ("Authentication._token_get() ended" ++ nl) ;;
  ret self'.

(** *** dkb_fetch.py: [patch_mfa_timeout] *)

Definition patched_app_print (devicename : option string) : M unit :=
  log DEBUG ("APPAuthentication._print() [PATCHED TO STDERR]" ++ nl) ;;
  match devicename with
  | Some name =>
      if negb (name =? "")%string then
        print Stderr ("[dkb_fetch.py] Check your banking app on " ++ dq ++ name ++ dq
                      ++ " and confirm login...")
      else print Stderr "[dkb_fetch.py] Check your banking app and confirm login..."
  | None => print Stderr "[dkb_fetch.py] Check your banking app and confirm login..."
  end.

(** The test of lines 137-141, with Python's short-circuit [and] *)
Definition has_verification_status (polling_dic : value) : M bool :=
  has_data <- lift (py_contains "data" polling_dic) ;;
  if has_data then
    data <- lift (py_getitem polling_dic "data") ;;
    has_attributes <- lift (py_contains "attributes" data) ;;
    if has_attributes then
      attributes <- lift (py_getitem data "attributes") ;;
      lift (py_contains "verificationStatus" attributes)
    else ret false
  else ret false.

Section Finalize.

(** [dkb_robo]'s [APPAuthentication._check(polling_dic, cnt)]: it
    returns whether the second factor is completed, or raises.  It is
    taken as a function of its two arguments; the trace records the
    calls of the repository's own code. *)
Variable _check : value -> Z -> Res bool.

(** What [self.client.get] answers to the request sent when [cnt]
    requests have been sent before. *)
Variable client_get : Z -> Res Response.

Variable url : string.
Variable max_iterations : Z.

(** Lines 135-150: what one iteration does with the response, [cnt]
    already incremented.  The result is the new [mfa_completed] and
    whether [break] was reached. *)
Definition poll_check (response : Response) (cnt : Z) (mfa_completed : bool)
  : M (bool * LoopExit) :=
  if status_code response =? 200 then
    polling_dic <- response_json response ;;
    well_formed <- has_verification_status polling_dic ;;
    if well_formed then
      completed <- lift (_check polling_dic cnt) ;;
      if completed then
        print Stderr "[dkb_fetch.py] Phone approval received!" ;;
        ret (completed, Break)
      else ret (completed, Continue)
    else
      log ERROR "error parsing polling response: %s" ;;
      ret (mfa_completed, Continue)
  else
    log ERROR ("Polling request failed. RC: " ++ str_Z (status_code response)) ;;
    ret (mfa_completed, Continue).

(** Lines 131-150: one request and what is done with the answer.
    The result is [cnt] after [cnt += 1], the new [mfa_completed],
    and whether [break] was reached. *)
Definition poll_once (cnt : Z) (mfa_completed : bool) : M (Z * bool * LoopExit) :=
  response <- call (HttpGet url) (client_get cnt) ;;
  let cnt := cnt + 1 in
  step <- poll_check response cnt mfa_completed ;;
  ret (cnt, fst step, snd step).

(** [while cnt <= max_iterations:] (lines 130-154) *)
Fixpoint poll_loop (fuel : nat) (cnt : Z) (mfa_completed : bool) : M bool :=
  match fuel with
  | O => out_of_fuel
  | S fuel' =>
      if cnt <=? max_iterations then
        step <- poll_once cnt mfa_completed ;;
        match step with
        | (_, mfa_completed, Break) => ret mfa_completed
        | (cnt, mfa_completed, Continue) =>
            (if cnt mod 4 =? 0 then
               print Stderr ("[dkb_fetch.py] Still waiting for approval... ("
                             ++ str_Z (cnt * 5) ++ "s)")
             else ret tt) ;;
            sleep 5 ;;
            poll_loop fuel' cnt mfa_completed
        end
      else ret mfa_completed
  end.

End Finalize.

Definition bool_str (b : bool) : string := if b then "True" else "False".

Definition patched_app_finalize (_check : value -> Z -> Res bool)
    (client_get : Z -> Res Response) (self_base_url : string)
    (challenge_id : string) (challenge_dic : value) (devicename : option string)
    : M bool :=
  log DEBUG ("APPAuthentication.finalize() [PATCHED WITH EXTENDED TIMEOUT]" ++ nl) ;;
  patched_app_print devicename ;;
  let cnt := 0 in
  let mfa_completed := false in
  let max_iterations := 24 in
  print Stderr ("[dkb_fetch.py] Waiting for phone approval (up to "
                ++ str_Z (max_iterations * 5) ++ "s)...") ;;
  mfa_completed <-
    poll_loop _check client_get
      (self_base_url ++ "/mfa/mfa/challenges/" ++ challenge_id) max_iterations
      (Z.to_nat max_iterations + 2) cnt mfa_completed ;;
  log DEBUG ("APPAuthentication.finalize(): " ++ bool_str mfa_completed ++ nl) ;;
  ret mfa_completed.

(** *** dkb_fetch.py: [fetch_transactions]

    Lines 199-292 log in through [dkb_robo]'s [DKBRobo] context
    manager and map its accounts and transactions to the output
    format; they are the variable [dkb_session], which receives the
    [_token_get] that [patch_dkb_authentication] installs. *)

Definition option_str (o : option string) : string :=
  match o with
  | Some s => s
  | None => "None"
  end.

Section FetchTransactions.

Variable run_child : Z -> Res CompletedProcess.
Variable client_post : string -> list (string * value) -> Res Response.
Variable dkb_session :
  (Authentication -> M Authentication) -> string -> string -> option string -> Z
  -> M string.

Definition captcha_failure : value :=
  VDict [("success", VBool false); ("error", VStr "Failed to get captcha token")].

Definition fetch_transactions (username password : string)
    (account_id : option string) (days : Z) : M string :=
  print Stderr "[dkb_fetch.py] Script called with:" ;;
  print Stderr ("[dkb_fetch.py] - username: " ++ username) ;;
  print Stderr ("[dkb_fetch.py] - password length: "
                ++ str_Z (if negb (password =? "")%string
                          then Z.of_nat (String.length password)
                          else 0)) ;;
  print Stderr ("[dkb_fetch.py] - account_id: " ++ option_str account_id) ;;
  print Stderr ("[dkb_fetch.py] - days: " ++ str_Z days) ;;
  try_except
    (captcha_token <- get_captcha_token run_child 3 ;;
     if negb (truthy captcha_token) then ret (json_dumps captcha_failure)
     else
       dkb_session (patched_token_get captcha_token client_post)
                   username password account_id days)
    (fun e =>
       ret (json_dumps (VDict [("success", VBool false); ("error", VStr (exn_msg e))]))).

End FetchTransactions.

(** *** get_captcha_token.py: [get_dkb_redeem_token] *)

Definition redeem_url : string := "https://eu.frcapi.com/api/v2/captcha/redeem".

Definition quote_url : string := "https://eu.frcapi.com/api/v2/captcha/quote".

(** The handler of [listen_to_captcha_redeem] on one event; the state
    is the pair of lists [(redeem_events, activate_events)]. *)
Definition handler (buffers : list NetworkEvent * list NetworkEvent) (evt : NetworkEvent)
  : list NetworkEvent * list NetworkEvent :=
  let (redeem_events_loc, activate_events_loc) := buffers in
  if (response_url evt =? redeem_url)%string
  then ((redeem_events_loc ++ [evt])%list, activate_events_loc)
  else if (response_url evt =? quote_url)%string
  then (redeem_events_loc, (activate_events_loc ++ [evt])%list)
  else buffers.

(** The two lists once the handler has run on [arrived], in order *)
Definition redeem_events (arrived : list NetworkEvent) : list NetworkEvent :=
  fst (fold_left handler arrived ([], [])).

Definition activate_events (arrived : list NetworkEvent) : list NetworkEvent :=
  snd (fold_left handler arrived ([], [])).

Section Acquirer.

Variable env : BrowserEnv.
Variable timeout : Z.
Variable headless : bool.

(** [while True:] of [get_redeem_response] (lines 45-52); the result
    is [retries] when the loop is left. *)
Fixpoint wait_loop (fuel : nat) (retries : Z) : M Z :=
  match fuel with
  | O => out_of_fuel
  | S fuel' =>
      let retries := retries + 1 in
      if (len (redeem_events (arrived_at_check env retries)) =? 0)
         && (retries <=? timeout)
      then
        log DEBUG "Still waiting for captcha solving..." ;;
        sleep 1 ;;
        wait_loop fuel' retries
      else ret retries
  end.

(** Lines 57-60: the body of the last redemption response and the
    token in it *)
Definition read_token (events : list NetworkEvent) : M value :=
  last_event <- lift (py_last events) ;;
  res <- call (GetResponseBody (request_id last_event))
              (get_response_body env (request_id last_event)) ;;
  body <- loads (fst res) ;;
  data <- lift (py_getitem body "data") ;;
  lift (py_getitem data "redeem_token").

(** The [try] statement of lines 56-63 *)
Definition extract_token (events : list NetworkEvent) : M value :=
  try_except (read_token events)
    (fun e =>
       log ERROR ("Could not extract redeem token from response: " ++ exn_msg e) ;;
       ret (VBool false)).

Definition get_redeem_response : M value :=
  retries <- wait_loop (Z.to_nat timeout + 2) 0 ;;
  let events := redeem_events (arrived_at_check env retries) in
  if 0 <? len events then
    log DEBUG "redeem token response found" ;;
    extract_token events
  else
    log ERROR "Timeout: redeem token request not found" ;;
    ret (VBool false).

(** One round of [for _ in range(50):] (lines 85-120) *)
Definition click_round (round : Z) : M LoopExit :=
  if 0 <? len (activate_events (arrived_in_round env round)) then ret Break
  else
    sleep 1 ;;
    log DEBUG "trying to click captcha button" ;;
    try_except
      (call (Browser SwitchToDefaultContent) (switch_to_default_content env round) ;;
       call (Browser (FindElementClick
                        "#usercentrics-cmp-ui::shadow button.uc-accept-button"))
            (click_accept_button env round) ;;
       log DEBUG "Dismissed cookie banner")
      (fun _ => ret tt) ;;
    in_frame <-
      try_except
        (call (Browser (SwitchToFrame "iframe.frc-i-widget")) (switch_to_frame env round) ;;
         ret true)
        (fun _ =>
           log DEBUG "Did not find captcha checkbox" ;;
           call (Browser CdpRefresh) (cdp_refresh env round) ;;
           sleep 1 ;;
           ret false) ;;
    if in_frame then
      try_except
        (call (Browser (FindElementClick "button.checkbox")) (click_checkbox env round) ;;
         log INFO "Clicked on Captcha" ;;
         ret Break)
        (fun _ => ret Continue)
    else ret Continue.

Fixpoint click_rounds (rounds : list Z) : M unit :=
  match rounds with
  | [] => ret tt
  | round :: rest =>
      exit <- click_round round ;;
      match exit with
      | Break => ret tt
      | Continue => click_rounds rest
      end
  end.

(** The body of the [with] block (lines 76-124) *)
Definition session : M value :=
  call (Browser (ActivateCdpMode "about:blank")) (activate_cdp_mode env) ;;
  call (Browser AddHandler) (add_handler env) ;;
  log INFO "Loading login page..." ;;
  call (Browser (CdpOpen "https://banking.dkb.de/login")) (cdp_open env) ;;
  click_rounds (py_range 0 50) ;;
  call (Browser GetEventLoop) (get_event_loop env) ;;
  get_redeem_response.

(** The [try] block of lines 68-124 *)
Definition guarded_session : M value :=
  call (Browser (SBEnter headless)) (sb_enter env) ;;
  with_exit session (call (Browser SBExit) (sb_exit env)).

Definition get_dkb_redeem_token : M value :=
  try_except guarded_session
    (fun e =>
       log ERROR ("Error getting captcha token: " ++ exn_msg e) ;;
       ret (VBool false)).

End Acquirer.

(** *** get_captcha_token.py: the [__main__] block

    The result is the exit status passed to [sys.exit]. *)

Definition success_payload (token : value) : value :=
  VDict [("success", VBool true); ("token", token)].

Definition failure_payload : value :=
  VDict [("success", VBool false); ("error", VStr "Failed to get captcha token")].

Definition main (env : BrowserEnv) : M Z :=
  token <- get_dkb_redeem_token env 400 true ;;
  if truthy token then
    print Stdout (json_dumps (success_payload token)) ;;
    ret 0
  else
    print Stdout (json_dumps failure_payload) ;;
    ret 1.

(** *** Reading traces *)

(** What is written to [sys.stdout]: the text of each [print] call, in
    order (a text may itself span several lines) *)
Fixpoint stdout_lines (t : list Call) : list string :=
  match t with
  | [] => []
  | Print Stdout line :: rest => line :: stdout_lines rest
  | _ :: rest => stdout_lines rest
  end.

Definition is_http_get (c : Call) : bool :=
  match c with HttpGet _ => true | _ => false end.

Definition is_http_post (c : Call) : bool :=
  match c with HttpPost _ _ => true | _ => false end.

Definition is_run (c : Call) : bool :=
  match c with SubprocessRun _ _ => true | _ => false end.

(** The requests of the poll loop, the child processes and the sleeps
    of a trace, in order, without the messages between them *)
Definition is_action (c : Call) : bool :=
  match c with
  | Print _ _ | Log _ _ => false
  | _ => true
  end.

Definition actions (t : list Call) : list Call := filter is_action t.

Definition count (p : Call -> bool) (t : list Call) : Z := len (filter p t).

(** Seconds spent in [sleep] *)
Fixpoint slept (t : list Call) : Z :=
  match t with
  | [] => 0
  | Sleep seconds :: rest => seconds + slept rest
  | _ :: rest => slept rest
  end.

(** [n] times [c], with [sep] between two consecutive ones *)
Fixpoint interleaved (n : nat) (c sep : Call) : list Call :=
  match n with
  | O => []
  | S O => [c]
  | S n' => c :: sep :: interleaved n' c sep
  end.

Definition run_call : Call :=
  SubprocessRun ["python3"; "/app/server/get_captcha_token.py"] 450.

(** What one turn of the wait loop of [get_redeem_response] leaves in
    the trace *)
Definition waiting_round : list Call :=
  [Log DEBUG "Still waiting for captcha solving..."; Sleep 1].

(** The computation ends as Python does, within the model's fuel, and
    writes nothing to stdout. *)
Definition orderly {A} (m : M A) : Prop :=
  (exists r, result_of m = Done r) /\ stdout_lines (trace_of m) = [].

(** [n] times the calls of [round] *)
Fixpoint rounds_of (n : nat) (round : list Call) : list Call :=
  match n with
  | O => []
  | S n' => (round ++ rounds_of n' round)%list
  end.

End Model.

(** ** dkb_fetch.py: the session of [fetch_transactions], and [main]

    Lines 203-292 of [fetch_transactions], the body of
    [with DKBRobo(...) as dkb:].  [dkb_robo] is a library: entering and
    leaving the context manager and [dkb.get_transactions] are
    variables, computations whose calls are their own.  [float],
    [json.dumps(..., indent=2)] and the two date strings that
    [datetime.now()], [timedelta] and [strftime] produce are variables
    too; the date [days] days ago is one that may raise. *)

(** Sequencing of steps that may raise *)
Definition and_then {A B} (r : Res A) (f : A -> Res B) : Res B :=
  match r with
  | Ret a => f a
  | Raise e => Raise e
  end.

Notation "'let*' x ':=' r 'in' k" := (and_then r (fun x => k))
  (at level 10, x name, r at level 100, k at level 200) : py_scope.

(** [v.get(key, default)] *)
Definition py_get_default (v : value) (key : string) (default : value) : Res value :=
  match v with
  | VDict entries =>
      Ret (match lookup key entries with Some x => x | None => default end)
  | _ => Raise (Exn AttributeError "object has no attribute 'get'")
  end.

(** [bool(account_id)] for the optional command-line argument *)
Definition option_truthy (o : option string) : bool :=
  match o with
  | Some s => negb (s =? "")%string
  | None => false
  end.

(** [account_dic[idx]]; the dict maps an index to an account, in
    insertion order *)
Fixpoint dict_item (account_dic : list (Z * value)) (idx : Z) : Res value :=
  match account_dic with
  | [] => Raise (Exn KeyError (str_Z idx))
  | (k, account) :: rest => if k =? idx then Ret account else dict_item rest idx
  end.

(** Lines 213-222: the [account_info] dict of one account *)
Definition account_info (account : value) : Res value :=
  let* id := py_get account "id" in
  let* iban := py_get account "iban" in
  let* name := py_get account "name" in
  let* type := py_get account "type" in
  let* amount := py_get account "amount" in
  let* currencycode := py_get_default account "currencycode" (VStr "EUR") in
  let* holdername := py_get account "holdername" in
  let* productgroup := py_get account "productgroup" in
  Ret (VDict [("id", id); ("iban", iban); ("name", name); ("type", type);
              ("balance", amount); ("currency", currencycode);
              ("holder", holdername); ("productGroup", productgroup)]).

(** Lines 211-223: [for idx, account in dkb.account_dic.items()] *)
Fixpoint account_infos (items : list (Z * value)) (accounts : list value)
  : Res (list value) :=
  match items with
  | [] => Ret accounts
  | (_, account) :: rest =>
      let* info := account_info account in
      account_infos rest (accounts ++ [info])%list
  end.

(** Lines 229-230: the indices of the accounts whose [id] is
    [account_id] *)
Fixpoint matching_indices (items : list (Z * value)) (account_id : string)
  : Res (list Z) :=
  match items with
  | [] => Ret []
  | (idx, acc) :: rest =>
      let* id := py_get acc "id" in
      let* others := matching_indices rest account_id in
      Ret (if is_str account_id id then idx :: others else others)
  end.

Section Session.

Context {json : Json}.

(** [json.dumps(result, indent=2)] *)
Variable json_dumps_indent : value -> string.

(** [float(v)] *)
Variable py_float : value -> Res value.

(** [(datetime.now() - timedelta(days=days)).strftime('%d.%m.%Y')]:
    the date [days] days ago as text, or the [OverflowError] that
    [timedelta] and the subtraction raise when [days] leaves the
    calendar.  [date_to_str] is [datetime.now().strftime('%d.%m.%Y')]. *)
Variable days_ago : Z -> Res string.
Variable date_to_str : string.

(** [DKBRobo(dkb_user, dkb_password, ...).__enter__()]: the login, with
    the [_token_get] installed at the time; it yields [dkb.account_dic].
    [dkb_exit] is [__exit__]. *)
Variable dkb_enter :
  (Authentication -> M Authentication) -> string -> string -> M (list (Z * value)).
Variable dkb_exit : M unit.

(** [dkb.get_transactions(transaction_url, account_type, date_from,
    date_to)] *)
Variable get_transactions : value -> value -> string -> string -> M (list value).

(** Lines 272-285: one transaction in the output format *)
Definition convert_transaction (account trans : value) : Res value :=
  let* text := py_get_default trans "text" (VStr "") in
  let* payee := py_get_default trans "peer" text in
  let* text' := py_get_default trans "text" (VStr "") in
  let* postingtext := py_get_default trans "postingtext" text' in
  let* purpose := py_get_default trans "reasonforpayment" postingtext in
  let* account_id := py_get account "id" in
  let* account_iban := py_get account "iban" in
  let* bdate := py_get trans "bdate" in
  let* bdate' := py_get trans "bdate" in
  let* vdate := py_get_default trans "vdate" bdate' in
  let* amount := py_get_default trans "amount" (VInt 0) in
  let* amount' := py_float amount in
  let* account_currency := py_get_default account "currencycode" (VStr "EUR") in
  let* currency := py_get_default trans "currencycode" account_currency in
  Ret (VDict [("accountId", account_id); ("accountIban", account_iban);
              ("bookingDate", bdate); ("valueDate", vdate);
              ("payee", payee); ("purpose", purpose);
              ("amount", amount'); ("currency", currency);
              ("source", VStr "dkb-robo")]).

(** Lines 268-286: [for trans in trans_list], appending to
    [result['transactions']].  The list is shared: when a conversion
    raises, what was appended before stays.  The result is the list
    after the loop, and how the loop ended. *)
Fixpoint convert_transactions (account : value) (trans_list transactions : list value)
  : list value * Res unit :=
  match trans_list with
  | [] => (transactions, Ret tt)
  | trans :: rest =>
      match convert_transaction account trans with
      | Ret transaction =>
          convert_transactions account rest (transactions ++ [transaction])%list
      | Raise e => (transactions, Raise e)
      end
  end.

(** Lines 250-290: one turn of [for idx in target_indices] *)
Definition fetch_account (date_from_str : string) (idx : Z) (account : value)
    (transactions : list value) : M (list value) :=
  account_type <- lift (py_get account "type") ;;
  transaction_url <- lift (py_get account "transactions") ;;
  if negb (truthy transaction_url) then ret transactions
  else
    step <-
      try_except
        (trans_list <- get_transactions transaction_url account_type
                         date_from_str date_to_str ;;
         ret (convert_transactions account trans_list transactions))
        (fun e => ret (transactions, Raise e)) ;;
    match step with
    | (transactions, Ret _) => ret transactions
    | (transactions, Raise e) =>
        print Stderr ("Error fetching transactions for account " ++ str_Z idx ++ ": "
                      ++ exn_msg e) ;;
        ret transactions
    end.

Fixpoint fetch_accounts (date_from_str : string) (account_dic : list (Z * value))
    (target_indices : list Z) (transactions : list value) : M (list value) :=
  match target_indices with
  | [] => ret transactions
  | idx :: rest =>
      account <- lift (dict_item account_dic idx) ;;
      transactions <- fetch_account date_from_str idx account transactions ;;
      fetch_accounts date_from_str account_dic rest transactions
  end.

(** Lines 241-292, once [target_indices] is known: the two dates
    (lines 242-247), which the subtraction of line 242 may fail to
    give, then the loop *)
Definition fetch_and_dump (days : Z) (account_dic : list (Z * value))
    (accounts : list value) (target_indices : list Z) : M string :=
  date_from_str <- lift (days_ago days) ;;
  transactions <- fetch_accounts date_from_str account_dic target_indices [] ;;
  ret (json_dumps_indent
         (VDict [("success", VBool true); ("accounts", VList accounts);
                 ("transactions", VList transactions)])).

(** Lines 204-292: the body of the [with] block *)
Definition session_body (account_dic : list (Z * value)) (account_id : option string)
    (days : Z) : M string :=
  accounts <- lift (account_infos account_dic []) ;;
  if option_truthy account_id then
    account_indices <- lift (matching_indices account_dic (option_str account_id)) ;;
    match account_indices with
    | [] =>
        ret (json_dumps
               (VDict [("success", VBool false);
                       ("error", VStr ("Account " ++ option_str account_id
                                       ++ " not found"))]))
    | _ :: _ => fetch_and_dump days account_dic accounts account_indices
    end
  else fetch_and_dump days account_dic accounts (map fst account_dic).

(** Lines 203-292, as [fetch_transactions] takes them *)
Definition dkb_session_block (token_get : Authentication -> M Authentication)
    (username password : string) (account_id : option string) (days : Z) : M string :=
  account_dic <- dkb_enter token_get username password ;;
  with_exit (session_body account_dic account_id days) dkb_exit.


End Session.

(** ** test_dkb_auth.py *)

(** [s.endswith(suffix)] *)
Definition py_endswith (s suffix : string) : bool :=
  let n := String.length s in
  let m := String.length suffix in
  (m <=? n)%nat && (String.substring (n - m) m s =? suffix)%string.

(** [s[:-2]] *)
Definition drop_last_two (s : string) : string :=
  String.substring 0 (String.length s - 2) s.

Section TestDkbAuth.

(** [DKBRobo(dkb_user, dkb_password, debug=False).__enter__()], which
    yields [dkb.account_dic], and [__exit__] *)
Variable dkb_enter : string -> string -> M (list (Z * value)).
Variable dkb_exit : M unit.

(** Lines 22-27 and 33-38: one login attempt *)
Definition login_attempt (username password : string) : M unit :=
  try_except
    (account_dic <- dkb_enter username password ;;
     with_exit
       (print Stdout "✓ SUCCESS! Logged in successfully" ;;
        print Stdout ("Accounts found: " ++ str_Z (len account_dic)))
       dkb_exit)
    (fun e => print Stdout ("✗ FAILED: " ++ exn_msg e)).

(** The script on [sys.argv]; the result is the exit status. *)
Definition test_dkb_auth (argv : list string) : M Z :=
  match argv with
  | _ :: username :: password :: _ =>
      print Stdout ("Testing authentication for user: " ++ username) ;;
      print Stdout ("Password length: " ++ str_Z (Z.of_nat (String.length password))) ;;
      print Stdout "" ;;
      print Stdout ("Attempt 1: Using username as-is: '" ++ username ++ "'") ;;
      login_attempt username password ;;
      (if py_endswith username "_p" then
         let username_no_suffix := drop_last_two username in
         print Stdout (nl ++ "Attempt 2: Trying without '_p' suffix: '"
                       ++ username_no_suffix ++ "'") ;;
         login_attempt username_no_suffix password
       else ret tt) ;;
      ret 0
  | _ =>
      print Stdout "Usage: test_dkb_auth.py <username> <password>" ;;
      ret 1
  end.

End TestDkbAuth.

(** ** More ways of reading values and traces *)

(** [isinstance(v, dict)] *)
Definition is_dict (v : value) : Prop := exists entries, v = VDict entries.

(** The computation ends as Python does, within the model's fuel. *)
Definition finishes {A} (m : M A) : Prop := exists t r, m = (t, Done r).


(** Every call of the computation satisfies [p]. *)
Definition emits_only {A} (p : Call -> bool) (m : M A) : Prop :=
  forallb p (trace_of m) = true.

Definition is_sb_exit (c : Call) : bool :=
  match c with Browser SBExit => true | _ => false end.

Definition is_sleep (c : Call) : bool :=
  match c with Sleep _ => true | _ => false end.

Definition is_redeem (evt : NetworkEvent) : bool :=
  (response_url evt =? "https://eu.frcapi.com/api/v2/captcha/redeem")%string.

Definition is_quote (evt : NetworkEvent) : bool :=
  (response_url evt =? "https://eu.frcapi.com/api/v2/captcha/quote")%string.

(** ** Concrete environments

    Runs of the model on which the theorems below are instantiated.
    They use the reference [json] instance. *)

Module Examples.

Import JsonRef.

(** Every child exits with status 1 after printing the failure line. *)
Definition children_failing (attempt : Z) : Res CompletedProcess :=
  Ret {| returncode := 1;
         stdout := dumps (VDict [("success", VBool false);
                                 ("error", VStr "Failed to get captcha token")]) ++ nl;
         stderr := "ERROR:__main__:Timeout: redeem token request not found" |}.

(** The first child is killed at the 450 s limit, the second prints a
    token. *)
Definition children_second_ok (attempt : Z) : Res CompletedProcess :=
  if attempt =? 2
  then Ret {| returncode := 0;
              stdout := dumps (VDict [("success", VBool true); ("token", VStr "abc123")])
                        ++ nl;
              stderr := "" |}
  else Raise (Exn TimeoutExpired "Command timed out after 450 seconds").

(** A child that exits with status 0 and prints something that is not
    JSON. *)
Definition children_garbled (attempt : Z) : Res CompletedProcess :=
  Ret {| returncode := 0; stdout := "Traceback (most recent call last):"; stderr := "" |}.

(** The status endpoint answers 500 to every request. *)
Definition always_500 (cnt : Z) : Res Response :=
  Ret {| status_code := 500; text := "" |}.

Definition status_body (status : string) : string :=
  dumps (VDict [("data", VDict [("attributes", VDict [("verificationStatus", VStr status)])])]).

(** A [_check] in the manner of [dkb_robo]'s: completed on
    ["processed"], an error on ["canceled"], not completed otherwise. *)
Definition check_status (polling_dic : value) (cnt : Z) : Res bool :=
  match py_getitem polling_dic "data" with
  | Ret data =>
      match py_getitem data "attributes" with
      | Ret attributes =>
          match py_getitem attributes "verificationStatus" with
          | Ret status =>
              if is_str "processed" status then Ret true
              else if is_str "canceled" status
                   then Raise (Exn DKBRoboError "2fa chanceled by user")
                   else Ret false
          | Raise e => Raise e
          end
      | Raise e => Raise e
      end
  | Raise e => Raise e
  end.

(** Every answer is a JSON object whose ["data"] is [null]. *)
Definition data_null (cnt : Z) : Res Response :=
  Ret {| status_code := 200; text := dumps (VDict [("data", VNone)]) |}.

(** Every answer is well formed and says that the challenge was
    rejected. *)
Definition always_rejected (cnt : Z) : Res Response :=
  Ret {| status_code := 200; text := status_body "rejected" |}.

(** A failed request, a pending challenge, then a denial. *)
Definition denied_at_third (cnt : Z) : Res Response :=
  if cnt =? 0 then Ret {| status_code := 503; text := "" |}
  else if cnt =? 1 then Ret {| status_code := 200; text := status_body "processing" |}
  else Ret {| status_code := 200; text := status_body "canceled" |}.

(** The token endpoint refuses the login. *)
Definition login_refused (url : string) (data : list (string * value)) : Res Response :=
  Ret {| status_code := 401; text := "" |}.

Definition login_payload : value :=
  VDict [("access_token", VStr "t0"); ("mfa_id", VStr "m0")].

(** The token endpoint accepts it. *)
Definition login_accepted (url : string) (data : list (string * value)) : Res Response :=
  Ret {| status_code := 200; text := dumps login_payload |}.

Definition alice : Authentication :=
  {| dkb_user := "alice"; dkb_password := "secret";
     base_url := "https://banking.dkb.de/api"; token_dic := VNone |}.

(** A session that would log in at once, and returns its output. *)
Definition session_logging_in (token_get : Authentication -> M Authentication)
    (username password : string) (account_id : option string) (days : Z) : M string :=
  bind (token_get {| dkb_user := username; dkb_password := password;
                     base_url := "https://banking.dkb.de/api"; token_dic := VNone |})
       (fun _ => ret "{}").

Definition redeem_event (id : string) : NetworkEvent :=
  {| response_url := "https://eu.frcapi.com/api/v2/captcha/redeem"; request_id := id |}.

Definition quote_event (id : string) : NetworkEvent :=
  {| response_url := "https://eu.frcapi.com/api/v2/captcha/quote"; request_id := id |}.

Definition redeem_body (token : value) : string :=
  dumps (VDict [("data", VDict [("redeem_token", token)])]).

(** A browser in which every call succeeds and the widget activates
    before the first round; [at_check] gives the events handled by each
    check of the wait loop, [body] the answer to [get_response_body]. *)
Definition browser (at_check : Z -> list NetworkEvent)
    (body : string -> Res (string * bool)) : BrowserEnv :=
  {| sb_enter := Ret tt;
     sb_exit := Ret tt;
     activate_cdp_mode := Ret tt;
     add_handler := Ret tt;
     cdp_open := Ret tt;
     arrived_in_round := fun _ => [quote_event "q1"];
     switch_to_default_content := fun _ => Ret tt;
     click_accept_button := fun _ => Ret tt;
     switch_to_frame := fun _ => Ret tt;
     cdp_refresh := fun _ => Ret tt;
     click_checkbox := fun _ => Ret tt;
     get_event_loop := Ret tt;
     arrived_at_check := at_check;
     get_response_body := body |}.

(** The redemption response arrives before the third check and carries
    the token ["abc123"]; an earlier redemption response has arrived
    with it. *)
Definition browser_abc123 : BrowserEnv :=
  browser (fun retries => if retries <? 3 then [quote_event "q1"]
                          else [quote_event "q1"; redeem_event "r1"; redeem_event "r2"])
          (fun id => if (id =? "r2")%string then Ret (redeem_body (VStr "abc123"), false)
                     else Ret (redeem_body (VStr "stale"), false)).

(** No redemption response ever arrives. *)
Definition browser_silent : BrowserEnv :=
  browser (fun _ => [quote_event "q1"])
          (fun _ => Raise (Exn OtherError "No resource with given identifier found")).

(** The redemption response is there at the second check; its body is
    not JSON. *)
Definition browser_bad_body : BrowserEnv :=
  browser (fun retries => if retries <? 2 then [] else [redeem_event "r1"])
          (fun _ => Ret ("<html>502 Bad Gateway</html>", false)).

(** The redemption body carries the number 42 where the token is. *)
Definition browser_42 : BrowserEnv :=
  browser (fun _ => [redeem_event "r1"])
          (fun _ => Ret (redeem_body (VInt 42), false)).

(** Opening the login page fails. *)
Definition browser_unreachable : BrowserEnv :=
  {| sb_enter := Ret tt;
     sb_exit := Ret tt;
     activate_cdp_mode := Ret tt;
     add_handler := Ret tt;
     cdp_open := Raise (Exn OtherError "net::ERR_NAME_NOT_RESOLVED");
     arrived_in_round := fun _ => [];
     switch_to_default_content := fun _ => Ret tt;
     click_accept_button := fun _ => Ret tt;
     switch_to_frame := fun _ => Ret tt;
     cdp_refresh := fun _ => Ret tt;
     click_checkbox := fun _ => Ret tt;
     get_event_loop := Ret tt;
     arrived_at_check := fun _ => [];
     get_response_body := fun _ => Raise (Exn OtherError "no body") |}.

(** The line [__main__] prints when the acquirer returns the number 42 *)
Definition token_42_line : string :=
  dumps (VDict [("success", VBool true); ("token", VInt 42)]).

(** A failed request, a pending challenge, then the approval. *)
Definition approved_at_third (cnt : Z) : Res Response :=
  if cnt =? 0 then Ret {| status_code := 503; text := "" |}
  else if cnt =? 1 then Ret {| status_code := 200; text := status_body "processing" |}
  else Ret {| status_code := 200; text := status_body "processed" |}.

(** The widget never shows: every round finds no frame and reloads
    the page, and no redemption response ever arrives. *)
Definition browser_stuck : BrowserEnv :=
  {| sb_enter := Ret tt;
     sb_exit := Ret tt;
     activate_cdp_mode := Ret tt;
     add_handler := Ret tt;
     cdp_open := Ret tt;
     arrived_in_round := fun _ => [];
     switch_to_default_content := fun _ => Ret tt;
     click_accept_button := fun _ => Raise (Exn OtherError "no such element");
     switch_to_frame := fun _ => Raise (Exn OtherError "frame not found");
     cdp_refresh := fun _ => Ret tt;
     click_checkbox := fun _ => Ret tt;
     get_event_loop := Ret tt;
     arrived_at_check := fun _ => [];
     get_response_body := fun _ => Raise (Exn OtherError "no body") |}.

(** Two accounts as [dkb.account_dic] holds them: a checking account
    and a credit card. *)
Definition giro_url : string :=
  "https://banking.dkb.de/api/accounts/accounts/acc-1/transactions".

Definition giro_entries : list (string * value) :=
  [("id", VStr "acc-1"); ("iban", VStr "DE02120300000000202051");
   ("name", VStr "Girokonto"); ("type", VStr "account"); ("amount", VInt 1250);
   ("currencycode", VStr "EUR"); ("holdername", VStr "Alice");
   ("productgroup", VStr "Konten"); ("transactions", VStr giro_url)].

Definition card_entries : list (string * value) :=
  [("id", VStr "card-1"); ("name", VStr "Visa"); ("type", VStr "creditcard");
   ("amount", VInt 0); ("holdername", VStr "Alice");
   ("transactions",
    VStr "https://banking.dkb.de/api/credit-card/cards/card-1/transactions")].

Definition two_accounts : list (Z * value) :=
  [(0, VDict giro_entries); (1, VDict card_entries)].

(** [float] on the amounts of the examples: an int keeps its value,
    the strings used below are no numbers. *)
Definition float_of_amount (v : value) : Res value :=
  match v with
  | VInt z => Ret (VInt z)
  | VStr s => Raise (Exn OtherError ("could not convert string to float: '" ++ s ++ "'"))
  | _ => Raise (Exn TypeError "float() argument must be a string or a real number")
  end.

Definition bakery : list (string * value) :=
  [("bdate", VStr "02.11.2026"); ("peer", VStr "Bakery");
   ("reasonforpayment", VStr "Bread"); ("amount", VInt (-3))].

Definition pending_booking : list (string * value) :=
  [("bdate", VStr "03.11.2026"); ("text", VStr "Card payment"); ("amount", VStr "n/a")].

Definition rent : list (string * value) :=
  [("bdate", VStr "04.11.2026"); ("vdate", VStr "05.11.2026"); ("peer", VStr "Landlord");
   ("amount", VInt (-700))].

Definition url_text (url : value) : string :=
  match url with VStr s => s | _ => "" end.

(** The checking account has three bookings, the second with an amount
    that is no number; the request for the credit card fails. *)
Definition bookings_of_giro (url type : value) (date_from date_to : string)
  : M (list value) :=
  if is_str giro_url url
  then call (HttpGet (url_text url)) (Ret [VDict bakery; VDict pending_booking; VDict rent])
  else call (HttpGet (url_text url)) (Raise (Exn OtherError "500 Server Error")).

(** Every request for transactions fails. *)
Definition bookings_unavailable (url type : value) (date_from date_to : string)
  : M (list value) :=
  call (HttpGet (url_text url)) (Raise (Exn OtherError "500 Server Error")).

(** The date 90 days before the 4th of November 2026, and what a
    number of days such as 800000 gives: the date is before the year 1. *)
Definition ninety_days_ago (days : Z) : Res string := Ret "06.08.2026".

Definition out_of_calendar (days : Z) : Res string :=
  Raise (Exn OtherError "date value out of range").

Definition today : string := "04.11.2026".

(** A login that asks for the first factor and then holds the two
    accounts. *)
Definition login_with (token_get : Authentication -> M Authentication)
    (username password : string) : M (list (Z * value)) :=
  bind (token_get {| dkb_user := username; dkb_password := password;
                     base_url := "https://banking.dkb.de/api"; token_dic := VNone |})
       (fun _ => ret two_accounts).

Definition logout : M unit := emit (HttpGet "https://banking.dkb.de/api/logout").

(** The bank knows the user [alice], not [alice_p]. *)
Definition login_of_alice (username password : string) : M (list (Z * value)) :=
  if (username =? "alice")%string
  then call (HttpPost "https://banking.dkb.de/api/token" []) (Ret two_accounts)
  else call (HttpPost "https://banking.dkb.de/api/token" [])
            (Raise (Exn DKBRoboError
                      "Login failed: 1st factor authentication failed. RC: 400")).

(** The browser cannot be started. *)
Definition browser_missing : BrowserEnv :=
  {| sb_enter := Raise (Exn OtherError "chromedriver not found");
     sb_exit := Ret tt;
     activate_cdp_mode := Ret tt;
     add_handler := Ret tt;
     cdp_open := Ret tt;
     arrived_in_round := fun _ => [];
     switch_to_default_content := fun _ => Ret tt;
     click_accept_button := fun _ => Ret tt;
     switch_to_frame := fun _ => Ret tt;
     cdp_refresh := fun _ => Ret tt;
     click_checkbox := fun _ => Ret tt;
     get_event_loop := Ret tt;
     arrived_at_check := fun _ => [];
     get_response_body := fun _ => Raise (Exn OtherError "no body") |}.

End Examples.

(** * Properties *)

Arguments str_Z : simpl never.
Arguments has_verification_status : simpl never.

Section Properties.

Context {json : Json}.

(** ** Traces *)

Lemma actions_app t1 t2 : actions (t1 ++ t2) = (actions t1 ++ actions t2)%list.
Proof. apply filter_app. Qed.

Lemma count_app p t1 t2 : count p (t1 ++ t2) = count p t1 + count p t2.
Proof. unfold count, len. rewrite filter_app, length_app. lia. Qed.

Lemma slept_app t1 t2 : slept (t1 ++ t2) = slept t1 + slept t2.
Proof.
  induction t1 as [| c t1 IH]; [reflexivity |].
  destruct c; cbn; rewrite IH; lia.
Qed.

Lemma stdout_lines_app t1 t2 :
  stdout_lines (t1 ++ t2) = (stdout_lines t1 ++ stdout_lines t2)%list.
Proof.
  induction t1 as [| c t1 IH]; [reflexivity |].
  destruct c as [[|] line | | | | | | |]; cbn; rewrite IH; reflexivity.
Qed.

(** A trace with no action has no request, no child and no sleep. *)
Lemma count_actions p t :
  (forall c, p c = true -> is_action c = true) -> count p (actions t) = count p t.
Proof.
  intros Hp. unfold count, actions. f_equal.
  induction t as [| c t IH]; [reflexivity |].
  cbn. destruct (is_action c) eqn:Ha; cbn.
  - rewrite IH. reflexivity.
  - destruct (p c) eqn:Hc; [| exact IH].
    apply Hp in Hc. congruence.
Qed.

Lemma slept_actions t : slept (actions t) = slept t.
Proof.
  unfold actions.
  induction t as [| c t IH]; [reflexivity |].
  destruct c; cbn; rewrite ?IH; reflexivity.
Qed.

(** ** Computations that end and keep stdout clean *)

Lemma orderly_done {A} (t : list Call) (r : Res A) :
  stdout_lines t = [] -> orderly (t, Done r).
Proof. intros H. split; [exists r; reflexivity | exact H]. Qed.

Lemma orderly_bind {A B} (m : M A) (f : A -> M B) :
  orderly m -> (forall a, orderly (f a)) -> orderly (bind m f).
Proof.
  intros [[r Hr] Hq] Hf. destruct m as [t o]. cbn in Hr, Hq. subst o.
  destruct r as [a | e]; cbn; [| apply orderly_done; exact Hq].
  destruct (Hf a) as [[r' Hr'] Hq']. destruct (f a) as [t' o']. cbn in Hr', Hq'. subst o'.
  apply orderly_done. rewrite stdout_lines_app, Hq, Hq'. reflexivity.
Qed.

Lemma orderly_try {A} (m : M A) (h : exn -> M A) :
  orderly m -> (forall e, orderly (h e)) -> orderly (try_except m h).
Proof.
  intros [[r Hr] Hq] Hh. destruct m as [t o]. cbn in Hr, Hq. subst o.
  destruct r as [a | e]; cbn; [apply orderly_done; exact Hq |].
  destruct (Hh e) as [[r' Hr'] Hq']. destruct (h e) as [t' o']. cbn in Hr', Hq'. subst o'.
  apply orderly_done. rewrite stdout_lines_app, Hq, Hq'. reflexivity.
Qed.

Lemma orderly_with_exit {A} (body : M A) (leave : M unit) :
  orderly body -> orderly leave -> orderly (with_exit body leave).
Proof.
  intros [[r Hr] Hq] [[r' Hr'] Hq']. destruct body as [t o], leave as [t' o'].
  cbn in Hr, Hr', Hq, Hq'. subst o o'.
  destruct r' as [[] | e']; apply orderly_done;
    rewrite stdout_lines_app, Hq, Hq'; reflexivity.
Qed.

Lemma orderly_call {A} (c : Call) (r : Res A) :
  stdout_lines [c] = [] -> orderly (call c r).
Proof. apply orderly_done. Qed.

Lemma orderly_lift {A} (r : Res A) : orderly (lift r).
Proof. apply orderly_done. reflexivity. Qed.

Create HintDb orderly.
#[local] Hint Resolve orderly_lift : orderly.
#[local] Hint Extern 1 (orderly (call _ _)) => apply orderly_call; reflexivity : orderly.
#[local] Hint Extern 1 (orderly (_, Done _)) => apply orderly_done; reflexivity : orderly.

(** Takes a computation apart along its binds, handlers and tests. *)
Ltac orderly_steps :=
  repeat match goal with
         | |- orderly (bind _ _) => apply orderly_bind; [| intros ?]
         | |- orderly (try_except _ _) => apply orderly_try; [| intros ?]
         | |- orderly (with_exit _ _) => apply orderly_with_exit
         | |- orderly (if ?b then _ else _) => destruct b
         | |- orderly (match ?x with _ => _ end) => destruct x
         | |- orderly _ => solve [unfold print, log, sleep, ret, raise, emit;
                                  auto with orderly]
         end.

Lemma loads_orderly s : orderly (loads s).
Proof. unfold loads. orderly_steps. Qed.

(** ** [range] *)

Lemma py_range_nil a b : b <= a -> py_range a b = [].
Proof.
  intros H. unfold py_range.
  replace (Z.to_nat (b - a)) with O by lia. reflexivity.
Qed.

Lemma py_range_cons a b : a < b -> py_range a b = a :: py_range (a + 1) b.
Proof.
  intros H. unfold py_range.
  replace (Z.to_nat (b - a)) with (S (Z.to_nat (b - (a + 1)))) by lia.
  cbn [seq map]. f_equal; [lia |].
  rewrite <- seq_shift, map_map.
  apply map_ext. intros i. lia.
Qed.

(** ** [get_captcha_token] *)

Section CaptchaProperties.

Variable run_child : Z -> Res CompletedProcess.

(** An attempt starts one child, writes messages, and never raises:
    it returns the token of [attempt_token] or ends without one. *)
Lemma attempt_guarded_shape attempt :
  exists msgs,
    attempt_guarded run_child attempt
    = (run_call :: msgs, Done (Ret (attempt_token (run_child attempt))))
    /\ actions msgs = [].
Proof.
  unfold attempt_guarded, attempt_try, attempt_except, attempt_token, loads, run_call.
  destruct (run_child attempt) as [result | e]; cbn.
  - destruct (returncode result =? 0); cbn; [| eexists; split; reflexivity].
    destruct (json_loads (stdout result)) as [data |]; cbn;
      [| eexists; split; reflexivity].
    destruct data as [| b | z | s | items | entries]; cbn;
      try (eexists; split; reflexivity).
    destruct (lookup "success" entries) as [success |]; cbn;
      [| eexists; split; reflexivity].
    destruct (truthy success); cbn; [| eexists; split; reflexivity].
    destruct (lookup "token" entries) as [token |]; cbn;
      [| eexists; split; reflexivity].
    destruct token; cbn; eexists; split; reflexivity.
  - destruct (exn_cls e); cbn; eexists; split; reflexivity.
Qed.

Lemma attempt_guarded_result attempt :
  result_of (attempt_guarded run_child attempt)
  = Done (Ret (attempt_token (run_child attempt))).
Proof.
  destruct (attempt_guarded_shape attempt) as (msgs & E & _).
  rewrite E. reflexivity.
Qed.

Lemma attempt_guarded_actions attempt :
  actions (trace_of (attempt_guarded run_child attempt)) = [run_call].
Proof.
  destruct (attempt_guarded_shape attempt) as (msgs & E & Hmsgs).
  rewrite E. unfold actions in *. cbn. rewrite Hmsgs. reflexivity.
Qed.

Lemma attempts_loop_result_cons max_retries attempt rest :
  result_of (attempts_loop run_child max_retries (attempt :: rest))
  = match attempt_token (run_child attempt) with
    | Some token => Done (Ret token)
    | None => result_of (attempts_loop run_child max_retries rest)
    end.
Proof.
  destruct (attempt_guarded_shape attempt) as (msgs & E & _).
  cbn [attempts_loop]. rewrite E.
  destruct (attempt_token (run_child attempt)) as [token |]; cbn; [reflexivity |].
  destruct (attempt <? max_retries); cbn;
    destruct (attempts_loop run_child max_retries rest); reflexivity.
Qed.

Lemma attempts_loop_actions_cons max_retries attempt rest :
  actions (trace_of (attempts_loop run_child max_retries (attempt :: rest)))
  = match attempt_token (run_child attempt) with
    | Some _ => [run_call]
    | None =>
        (run_call :: (if attempt <? max_retries then [Sleep 5] else [])
         ++ actions (trace_of (attempts_loop run_child max_retries rest)))%list
    end.
Proof.
  destruct (attempt_guarded_shape attempt) as (msgs & E & Hmsgs).
  cbn [attempts_loop]. rewrite E. unfold actions in *.
  destruct (attempt_token (run_child attempt)) as [token |]; cbn.
  - rewrite app_nil_r, Hmsgs. reflexivity.
  - destruct (attempt <? max_retries); cbn;
      destruct (attempts_loop run_child max_retries rest) as [t r]; cbn;
      rewrite filter_app, Hmsgs; reflexivity.
Qed.

Lemma attempts_all_fail max_retries n :
  forall a,
    n = Z.to_nat (max_retries + 1 - a) ->
    (forall k, a <= k <= max_retries -> attempt_token (run_child k) = None) ->
    result_of (attempts_loop run_child max_retries (py_range a (max_retries + 1)))
    = Done (Ret VNone)
    /\ actions (trace_of (attempts_loop run_child max_retries
                            (py_range a (max_retries + 1))))
       = interleaved n run_call (Sleep 5).
Proof.
  induction n as [| n IH]; intros a Hn Hfail.
  - rewrite py_range_nil by lia. split; reflexivity.
  - rewrite py_range_cons by lia.
    rewrite attempts_loop_result_cons, attempts_loop_actions_cons.
    rewrite Hfail by lia.
    destruct (IH (a + 1)) as [IHr IHa]; [lia | intros; apply Hfail; lia |].
    split; [exact IHr |]. rewrite IHa.
    destruct (Z.ltb_spec a max_retries) as [Hlt | Hge].
    + destruct n as [| n']; [lia | reflexivity].
    + destruct n as [| n']; [reflexivity | lia].
Qed.

Lemma attempts_first_success max_retries token k n :
  forall a,
    Z.of_nat n = k - a ->
    k <= max_retries ->
    (forall j, a <= j < k -> attempt_token (run_child j) = None) ->
    attempt_token (run_child k) = Some token ->
    result_of (attempts_loop run_child max_retries (py_range a (max_retries + 1)))
    = Done (Ret token)
    /\ actions (trace_of (attempts_loop run_child max_retries
                            (py_range a (max_retries + 1))))
       = interleaved (S n) run_call (Sleep 5).
Proof.
  induction n as [| n IH]; intros a Hn Hk Hfail Hok.
  - assert (a = k) by lia. subst a.
    rewrite py_range_cons by lia.
    rewrite attempts_loop_result_cons, attempts_loop_actions_cons, Hok.
    split; reflexivity.
  - rewrite py_range_cons by lia.
    rewrite attempts_loop_result_cons, attempts_loop_actions_cons.
    rewrite Hfail by lia.
    destruct (IH (a + 1)) as [IHr IHa]; [lia | lia | intros; apply Hfail; lia | exact Hok |].
    split; [exact IHr |]. rewrite IHa.
    destruct (Z.ltb_spec a max_retries) as [Hlt | Hge]; [reflexivity | lia].
Qed.

Lemma count_run_interleaved n :
  count is_run (interleaved n run_call (Sleep 5)) = Z.of_nat n.
Proof.
  induction n as [| [| n] IH]; [reflexivity | reflexivity |].
  change (interleaved (S (S n)) run_call (Sleep 5))
    with (run_call :: Sleep 5 :: interleaved (S n) run_call (Sleep 5)).
  unfold count, len in *. cbn [filter is_run run_call List.length].
  rewrite Nat2Z.inj_succ, IH. lia.
Qed.

Lemma slept_interleaved n :
  slept (interleaved (S n) run_call (Sleep 5)) = 5 * Z.of_nat n.
Proof.
  induction n as [| n IH]; [reflexivity |].
  change (interleaved (S (S n)) run_call (Sleep 5))
    with (run_call :: Sleep 5 :: interleaved (S n) run_call (Sleep 5)).
  cbn [slept run_call]. rewrite IH. lia.
Qed.

Lemma get_captcha_token_unfold max_retries :
  result_of (get_captcha_token run_child max_retries)
  = result_of (attempts_loop run_child max_retries (py_range 1 (max_retries + 1)))
  /\ actions (trace_of (get_captcha_token run_child max_retries))
     = actions (trace_of (attempts_loop run_child max_retries
                            (py_range 1 (max_retries + 1)))).
Proof.
  unfold get_captcha_token. cbn.
  destruct (attempts_loop run_child max_retries (py_range 1 (max_retries + 1))).
  split; reflexivity.
Qed.

(** The function always returns: no exception leaves it. *)
Lemma attempts_loop_returns max_retries attempts :
  exists v, result_of (attempts_loop run_child max_retries attempts) = Done (Ret v).
Proof.
  induction attempts as [| attempt rest IH].
  - eexists. reflexivity.
  - rewrite attempts_loop_result_cons.
    destruct (attempt_token (run_child attempt)); [eexists; reflexivity | exact IH].
Qed.

Lemma get_captcha_token_returns max_retries :
  exists v, result_of (get_captcha_token run_child max_retries) = Done (Ret v).
Proof.
  rewrite (proj1 (get_captcha_token_unfold max_retries)).
  apply attempts_loop_returns.
Qed.

End CaptchaProperties.

(** C3.  [get_captcha_token]: when every attempt ends without a token,
    exactly [max_retries] children are started (never one more), with
    one 5-second sleep between two consecutive attempts and none after
    the last, and the result is [None]; when attempt [k] is the first
    to return a token, that token is returned after [k] children and
    [k - 1] sleeps, and no further child is started. *)
Theorem get_captcha_token_retry_policy
    (run_child : Z -> Res CompletedProcess) (max_retries : Z) :
  let m := get_captcha_token run_child max_retries in
  ((forall attempt, 1 <= attempt <= max_retries ->
      result_of (attempt_guarded run_child attempt) = Done (Ret None)) ->
   result_of m = Done (Ret VNone)
   /\ actions (trace_of m) = interleaved (Z.to_nat max_retries) run_call (Sleep 5)
   /\ count is_run (trace_of m) = Z.max 0 max_retries
   /\ slept (trace_of m) = 5 * Z.max 0 (max_retries - 1))
  /\
  (forall k token,
     1 <= k <= max_retries ->
     (forall attempt, 1 <= attempt < k ->
        result_of (attempt_guarded run_child attempt) = Done (Ret None)) ->
     result_of (attempt_guarded run_child k) = Done (Ret (Some token)) ->
     result_of m = Done (Ret token)
     /\ actions (trace_of m) = interleaved (Z.to_nat k) run_call (Sleep 5)
     /\ count is_run (trace_of m) = k
     /\ slept (trace_of m) = 5 * (k - 1)).
Proof.
  intros m.
  destruct (get_captcha_token_unfold run_child max_retries) as [Er Ea].
  fold m in Er, Ea.
  split.
  - intros Hfail.
    destruct (attempts_all_fail run_child max_retries (Z.to_nat max_retries) 1)
      as [Hr Ha].
    + lia.
    + intros k Hk. specialize (Hfail k Hk).
      rewrite attempt_guarded_result in Hfail. congruence.
    + rewrite Er, Ea, Ha. split; [exact Hr | split; [reflexivity |]].
      rewrite <- (count_actions is_run (trace_of m)), <- (slept_actions (trace_of m))
        by (intros [] ; cbn; congruence).
      rewrite Ea, Ha, count_run_interleaved.
      split; [lia |].
      destruct (Z.to_nat max_retries) as [| n] eqn:En.
      * change (0 = 5 * Z.max 0 (max_retries - 1)). lia.
      * rewrite slept_interleaved. lia.
  - intros k token Hk Hfail Hok.
    destruct (attempts_first_success run_child max_retries token k (Z.to_nat (k - 1)) 1)
      as [Hr Ha].
    + lia.
    + lia.
    + intros j Hj. specialize (Hfail j Hj).
      rewrite attempt_guarded_result in Hfail. congruence.
    + rewrite attempt_guarded_result in Hok. congruence.
    + replace (S (Z.to_nat (k - 1))) with (Z.to_nat k) in Ha by lia.
      rewrite Er, Ea, Ha. split; [exact Hr | split; [reflexivity |]].
      rewrite <- (count_actions is_run (trace_of m)), <- (slept_actions (trace_of m))
        by (intros [] ; cbn; congruence).
      rewrite Ea, Ha, count_run_interleaved.
      split; [lia |].
      replace (Z.to_nat k) with (S (Z.to_nat (k - 1))) by lia.
      rewrite slept_interleaved. lia.
Qed.

(** C8.  In the retry loop an attempt returns a token exactly when the
    child exited with status 0, its stdout parses as a JSON object
    whose [success] entry is true and whose [token] entry is there
    (and has a length, which the log line takes).  In every other case
    (a non-zero status, a timeout, stdout that is not JSON, a false
    [success]) the attempt ends without a token, having started one
    child, and the loop goes on with the next attempt; and
    [get_captcha_token] returns whatever happens: no exception leaves
    it. *)
Theorem attempt_succeeds_only_on_valid_result
    (run_child : Z -> Res CompletedProcess) (attempt max_retries : Z) (rest : list Z) :
  (forall token,
     result_of (attempt_guarded run_child attempt) = Done (Ret (Some token)) <->
     exists result entries success,
       run_child attempt = Ret result
       /\ returncode result = 0
       /\ json_loads (stdout result) = Some (VDict entries)
       /\ lookup "success" entries = Some success
       /\ truthy success = true
       /\ lookup "token" entries = Some token
       /\ exists n, py_len token = Ret n)
  /\ ((exists token,
         result_of (attempt_guarded run_child attempt) = Done (Ret (Some token)))
      \/ result_of (attempt_guarded run_child attempt) = Done (Ret None))
  /\ actions (trace_of (attempt_guarded run_child attempt)) = [run_call]
  /\ (result_of (attempt_guarded run_child attempt) = Done (Ret None) ->
      result_of (attempts_loop run_child max_retries (attempt :: rest))
      = result_of (attempts_loop run_child max_retries rest))
  /\ exists v, result_of (get_captcha_token run_child max_retries) = Done (Ret v).
Proof.
  split; [intros token; split | split; [| split; [| split]]].
  - rewrite attempt_guarded_result. unfold attempt_token.
    destruct (run_child attempt) as [result | e] eqn:Hrun; [| discriminate].
    destruct (Z.eqb_spec (returncode result) 0) as [Hrc | Hrc]; [| discriminate].
    destruct (json_loads (stdout result)) as [[| | | | | entries] |] eqn:Hj;
      try discriminate.
    destruct (lookup "success" entries) as [success |] eqn:Hsuccess; [| discriminate].
    destruct (truthy success) eqn:Hs; [| discriminate].
    destruct (lookup "token" entries) as [tok |] eqn:Htok; [| discriminate].
    destruct (py_len tok) as [n | e] eqn:Hl; [| discriminate].
    intros H. assert (tok = token) by congruence. subst tok.
    exists result, entries, success.
    do 6 (split; [assumption || reflexivity |]).
    exists n. exact Hl.
  - intros (result & entries & success & Hrun & Hrc & Hj & Hs & Ht & Htok & n & Hl).
    rewrite attempt_guarded_result. unfold attempt_token.
    rewrite Hrun, Hrc, Hj, Hs, Ht, Htok, Hl. reflexivity.
  - rewrite attempt_guarded_result.
    destruct (attempt_token (run_child attempt)) as [token |];
      [left; exists token; reflexivity | right; reflexivity].
  - apply attempt_guarded_actions.
  - intros H. rewrite attempts_loop_result_cons.
    rewrite attempt_guarded_result in H.
    destruct (attempt_token (run_child attempt)); [discriminate | reflexivity].
  - apply get_captcha_token_returns.
Qed.

(** ** [patched_app_finalize] *)

Lemma has_verification_status_pure polling_dic :
  exists r, has_verification_status polling_dic = ([], Done r).
Proof.
  unfold has_verification_status.
  destruct (py_contains "data" polling_dic) as [[|] | e]; cbn;
    try (eexists; reflexivity).
  destruct (py_getitem polling_dic "data") as [data | e]; cbn;
    try (eexists; reflexivity).
  destruct (py_contains "attributes" data) as [[|] | e]; cbn;
    try (eexists; reflexivity).
  destruct (py_getitem data "attributes") as [attributes | e]; cbn;
    eexists; reflexivity.
Qed.

Lemma rounds_of_count p n round :
  count p (rounds_of n round) = Z.of_nat n * count p round.
Proof.
  induction n as [| n IH]; [reflexivity |].
  cbn [rounds_of]. rewrite count_app, IH. lia.
Qed.

Lemma rounds_of_slept n round : slept (rounds_of n round) = Z.of_nat n * slept round.
Proof.
  induction n as [| n IH]; [reflexivity |].
  cbn [rounds_of]. rewrite slept_app, IH. lia.
Qed.

Section FinalizeProperties.

Variable _check : value -> Z -> Res bool.
Variable client_get : Z -> Res Response.
Variable url : string.
Variable max_iterations : Z.

(** One iteration sends one request and writes messages; it never runs
    out of fuel. *)
Lemma poll_once_shape cnt mfa_completed :
  exists msgs r,
    poll_once _check client_get url cnt mfa_completed = (HttpGet url :: msgs, Done r)
    /\ actions msgs = [].
Proof.
  unfold poll_once, poll_check, response_json, loads.
  destruct (client_get cnt) as [response | e]; cbn;
    [| do 2 eexists; split; reflexivity].
  destruct (status_code response =? 200); cbn;
    [| do 2 eexists; split; reflexivity].
  destruct (json_loads (text response)) as [polling_dic |]; cbn;
    [| do 2 eexists; split; reflexivity].
  destruct (has_verification_status_pure polling_dic) as [[[|] | e] E];
    rewrite E; cbn; try (do 2 eexists; split; reflexivity).
  destruct (_check polling_dic (cnt + 1)) as [[|] | e]; cbn;
    do 2 eexists; split; reflexivity.
Qed.

(** An iteration that leaves the challenge pending is followed by a
    5-second sleep and the next iteration. *)
Lemma poll_loop_pending fuel cnt :
  cnt <= max_iterations ->
  result_of (poll_once _check client_get url cnt false)
  = Done (Ret (cnt + 1, false, Continue)) ->
  result_of (poll_loop _check client_get url max_iterations (S fuel) cnt false)
  = result_of (poll_loop _check client_get url max_iterations fuel (cnt + 1) false)
  /\ actions (trace_of (poll_loop _check client_get url max_iterations (S fuel) cnt false))
     = HttpGet url :: Sleep 5
       :: actions (trace_of (poll_loop _check client_get url max_iterations fuel
                               (cnt + 1) false)).
Proof.
  intros Hle Hpending.
  destruct (poll_once_shape cnt false) as (msgs & r & E & Hmsgs).
  rewrite E in Hpending. cbn in Hpending.
  injection Hpending as ->.
  cbn [poll_loop]. rewrite (proj2 (Z.leb_le _ _) Hle), E.
  unfold actions in *. cbn.
  destruct ((cnt + 1) mod 4 =? 0); cbn;
    destruct (poll_loop _check client_get url max_iterations fuel (cnt + 1) false)
      as [t o]; cbn; rewrite filter_app, Hmsgs; split; reflexivity.
Qed.

(** An iteration that raises, or reaches [break], ends the loop at once. *)
Lemma poll_loop_raises fuel cnt mfa_completed e :
  cnt <= max_iterations ->
  result_of (poll_once _check client_get url cnt mfa_completed) = Done (Raise e) ->
  result_of (poll_loop _check client_get url max_iterations (S fuel) cnt mfa_completed)
  = Done (Raise e)
  /\ actions (trace_of (poll_loop _check client_get url max_iterations (S fuel) cnt
                          mfa_completed))
     = [HttpGet url].
Proof.
  intros Hle Hraise.
  destruct (poll_once_shape cnt mfa_completed) as (msgs & r & E & Hmsgs).
  rewrite E in Hraise. cbn in Hraise. injection Hraise as ->.
  cbn [poll_loop]. rewrite (proj2 (Z.leb_le _ _) Hle), E.
  unfold actions in *. cbn. rewrite Hmsgs. split; reflexivity.
Qed.

Lemma poll_loop_breaks fuel cnt mfa_completed cnt' completed :
  cnt <= max_iterations ->
  result_of (poll_once _check client_get url cnt mfa_completed)
  = Done (Ret (cnt', completed, Break)) ->
  result_of (poll_loop _check client_get url max_iterations (S fuel) cnt mfa_completed)
  = Done (Ret completed)
  /\ actions (trace_of (poll_loop _check client_get url max_iterations (S fuel) cnt
                          mfa_completed))
     = [HttpGet url].
Proof.
  intros Hle Hbreak.
  destruct (poll_once_shape cnt mfa_completed) as (msgs & r & E & Hmsgs).
  rewrite E in Hbreak. cbn in Hbreak. injection Hbreak as ->.
  cbn [poll_loop]. rewrite (proj2 (Z.leb_le _ _) Hle), E.
  unfold actions in *. cbn. rewrite app_nil_r, Hmsgs. split; reflexivity.
Qed.

Lemma poll_loop_done fuel cnt mfa_completed :
  max_iterations < cnt ->
  poll_loop _check client_get url max_iterations (S fuel) cnt mfa_completed
  = ([], Done (Ret mfa_completed)).
Proof.
  intros Hgt. cbn [poll_loop].
  rewrite (proj2 (Z.leb_gt _ _) Hgt). reflexivity.
Qed.

(** [k] pending iterations in a row *)
Lemma poll_loop_prefix k :
  forall fuel cnt,
    cnt + Z.of_nat k <= max_iterations + 1 ->
    (forall c, cnt <= c < cnt + Z.of_nat k ->
       result_of (poll_once _check client_get url c false)
       = Done (Ret (c + 1, false, Continue))) ->
    result_of (poll_loop _check client_get url max_iterations (k + fuel) cnt false)
    = result_of (poll_loop _check client_get url max_iterations fuel
                   (cnt + Z.of_nat k) false)
    /\ actions (trace_of (poll_loop _check client_get url max_iterations (k + fuel)
                            cnt false))
       = (rounds_of k [HttpGet url; Sleep 5]
          ++ actions (trace_of (poll_loop _check client_get url max_iterations fuel
                                  (cnt + Z.of_nat k) false)))%list.
Proof.
  induction k as [| k IH]; intros fuel cnt Hk Hpending.
  - cbn [Nat.add rounds_of app]. replace (cnt + Z.of_nat 0) with cnt by lia.
    split; reflexivity.
  - destruct (poll_loop_pending (k + fuel) cnt) as [Hr Ha]; [lia | apply Hpending; lia |].
    destruct (IH fuel (cnt + 1)) as [IHr IHa]; [lia | intros; apply Hpending; lia |].
    replace (cnt + 1 + Z.of_nat k) with (cnt + Z.of_nat (S k)) in IHr, IHa by lia.
    change (S k + fuel)%nat with (S (k + fuel)).
    rewrite Hr, Ha, IHr, IHa. split; reflexivity.
Qed.

(** A well-formed answer on which [_check] raises *)
Lemma poll_once_check_raises cnt mfa_completed response polling_dic e :
  client_get cnt = Ret response ->
  status_code response = 200 ->
  json_loads (text response) = Some polling_dic ->
  result_of (has_verification_status polling_dic) = Done (Ret true) ->
  _check polling_dic (cnt + 1) = Raise e ->
  result_of (poll_once _check client_get url cnt mfa_completed) = Done (Raise e).
Proof.
  intros Hget Hstatus Hjson Hformed Hcheck.
  unfold poll_once, poll_check, response_json, loads.
  rewrite Hget. cbn. rewrite Hstatus, Hjson. cbn.
  destruct (has_verification_status_pure polling_dic) as [r E].
  rewrite E in *. cbn in Hformed. injection Hformed as ->.
  cbn. rewrite Hcheck. reflexivity.
Qed.

(** A well-formed answer on which [_check] reports completion *)
Lemma poll_once_check_completes cnt mfa_completed response polling_dic :
  client_get cnt = Ret response ->
  status_code response = 200 ->
  json_loads (text response) = Some polling_dic ->
  result_of (has_verification_status polling_dic) = Done (Ret true) ->
  _check polling_dic (cnt + 1) = Ret true ->
  result_of (poll_once _check client_get url cnt mfa_completed)
  = Done (Ret (cnt + 1, true, Break)).
Proof.
  intros Hget Hstatus Hjson Hformed Hcheck.
  unfold poll_once, poll_check, response_json, loads.
  rewrite Hget. cbn. rewrite Hstatus, Hjson. cbn.
  destruct (has_verification_status_pure polling_dic) as [r E].
  rewrite E in *. cbn in Hformed. injection Hformed as ->.
  cbn. rewrite Hcheck. reflexivity.
Qed.

(** An iteration writes nothing to stdout, and counts one request. *)
Lemma poll_once_quiet cnt mfa_completed :
  exists t r,
    poll_once _check client_get url cnt mfa_completed = (t, Done r)
    /\ stdout_lines t = []
    /\ forall cnt' completed exit, r = Ret (cnt', completed, exit) -> cnt' = cnt + 1.
Proof.
  unfold poll_once, poll_check, response_json, loads.
  destruct (client_get cnt) as [response | e]; cbn;
    [| do 2 eexists; repeat split; try reflexivity; discriminate].
  destruct (status_code response =? 200); cbn;
    [| do 2 eexists; repeat split; try reflexivity; congruence].
  destruct (json_loads (text response)) as [polling_dic |]; cbn;
    [| do 2 eexists; repeat split; try reflexivity; discriminate].
  destruct (has_verification_status_pure polling_dic) as [[[|] | e] E];
    rewrite E; cbn;
    try (do 2 eexists; repeat split; try reflexivity; congruence).
  destruct (_check polling_dic (cnt + 1)) as [[|] | e]; cbn;
    do 2 eexists; repeat split; try reflexivity; congruence.
Qed.

Lemma poll_loop_orderly fuel :
  forall cnt mfa_completed,
    (Z.to_nat (max_iterations + 1 - cnt) < fuel)%nat ->
    orderly (poll_loop _check client_get url max_iterations fuel cnt mfa_completed).
Proof.
  induction fuel as [| fuel IH]; intros cnt mfa_completed Hfuel; [lia |].
  cbn [poll_loop].
  destruct (Z.leb_spec cnt max_iterations) as [Hle | Hgt];
    [| apply orderly_done; reflexivity].
  destruct (poll_once_quiet cnt mfa_completed) as (t & r & E & Hquiet & Hcnt).
  rewrite E.
  destruct r as [[[cnt' completed] exit] | e]; [| apply orderly_done; exact Hquiet].
  rewrite (Hcnt cnt' completed exit eq_refl).
  destruct exit.
  - destruct (IH (cnt + 1) completed) as [[r' Hr'] Hquiet']; [lia |].
    cbn [bind].
    destruct ((cnt + 1) mod 4 =? 0); cbn;
      destruct (poll_loop _check client_get url max_iterations fuel (cnt + 1) completed)
        as [t' o'];
      cbn in Hr', Hquiet'; subst o'; apply orderly_done;
      rewrite stdout_lines_app; cbn; rewrite Hquiet, Hquiet'; reflexivity.
  - cbn. apply orderly_done. rewrite app_nil_r. exact Hquiet.
Qed.

End FinalizeProperties.

Lemma patched_app_print_shape devicename :
  exists msgs, patched_app_print devicename = (msgs, Done (Ret tt)) /\ actions msgs = [].
Proof.
  unfold patched_app_print.
  destruct devicename as [name |]; [destruct (negb (name =? "")%string) |];
    cbn; eexists; split; reflexivity.
Qed.

(** [finalize] does what its loop does: the lines around the loop only
    write messages. *)
Lemma patched_app_finalize_unfold _check client_get self_base_url challenge_id
    challenge_dic devicename :
  let m := patched_app_finalize _check client_get self_base_url challenge_id
             challenge_dic devicename in
  let loop := poll_loop _check client_get
                (self_base_url ++ "/mfa/mfa/challenges/" ++ challenge_id) 24 26 0 false in
  result_of m = result_of loop /\ actions (trace_of m) = actions (trace_of loop).
Proof.
  intros m loop. subst m. unfold patched_app_finalize.
  destruct (patched_app_print_shape devicename) as (msgs & E & Hmsgs).
  rewrite E. change (Z.to_nat 24 + 2)%nat with 26%nat. fold loop.
  unfold actions in *.
  destruct loop as [t [[b | e] |]]; cbn;
    repeat (rewrite ?filter_app, ?Hmsgs; cbn); rewrite ?app_nil_r; split; reflexivity.
Qed.

(** C1.  [patched_app_finalize] when no answer is terminal (every
    iteration leaves the challenge pending): the loop test is
    [cnt <= max_iterations] with [cnt] counted from 0 and
    [max_iterations = 24], so the function sends 25 requests, sleeps 25
    times 5 seconds, and only then returns [False].  That is one
    iteration more than [max_iterations]. *)
Theorem finalize_pending_polls_25_times
    (_check : value -> Z -> Res bool) (client_get : Z -> Res Response)
    (self_base_url challenge_id : string) (challenge_dic : value)
    (devicename : option string) :
  let url := self_base_url ++ "/mfa/mfa/challenges/" ++ challenge_id in
  let m := patched_app_finalize _check client_get self_base_url challenge_id
             challenge_dic devicename in
  (forall cnt, 0 <= cnt <= 24 ->
     result_of (poll_once _check client_get url cnt false)
     = Done (Ret (cnt + 1, false, Continue))) ->
  result_of m = Done (Ret false)
  /\ actions (trace_of m) = rounds_of 25 [HttpGet url; Sleep 5]
  /\ count is_http_get (trace_of m) = 25
  /\ slept (trace_of m) = 125.
Proof.
  intros url m Hpending.
  destruct (patched_app_finalize_unfold _check client_get self_base_url challenge_id
              challenge_dic devicename) as [Er Ea].
  fold m url in Er, Ea.
  destruct (poll_loop_prefix _check client_get url 24 25 1 0) as [Hr Ha];
    [lia | intros c Hc; apply Hpending; lia |].
  change (25 + 1)%nat with 26%nat in Hr, Ha.
  change (0 + Z.of_nat 25) with 25 in Hr, Ha.
  rewrite (poll_loop_done _check client_get url 24 0 25 false) in Hr, Ha by lia.
  cbn [trace_of fst actions filter] in Ha. rewrite app_nil_r in Ha.
  rewrite Hr in Er. rewrite Ha in Ea.
  split; [exact Er | split; [exact Ea |]].
  rewrite <- (count_actions is_http_get (trace_of m)), <- (slept_actions (trace_of m))
    by (intros []; cbn; congruence).
  rewrite Ea. split; reflexivity.
Qed.

(** [patched_app_finalize] when [_check] raises.  The function hands a
    well-formed answer to [_check].  When [_check] raises on the answer
    to request [k + 1], after [k] pending iterations, the function
    sends no further request and does not sleep again: it ends at once
    with that exception, an outcome that is neither the [True] of an
    approval nor the [False] of a timeout. *)
Lemma finalize_check_raises
    (_check : value -> Z -> Res bool) (client_get : Z -> Res Response)
    (self_base_url challenge_id : string) (challenge_dic : value)
    (devicename : option string)
    (k : Z) (response : Response) (polling_dic : value) (e : exn) :
  let url := self_base_url ++ "/mfa/mfa/challenges/" ++ challenge_id in
  let m := patched_app_finalize _check client_get self_base_url challenge_id
             challenge_dic devicename in
  0 <= k <= 24 ->
  (forall cnt, 0 <= cnt < k ->
     result_of (poll_once _check client_get url cnt false)
     = Done (Ret (cnt + 1, false, Continue))) ->
  client_get k = Ret response ->
  status_code response = 200 ->
  json_loads (text response) = Some polling_dic ->
  result_of (has_verification_status polling_dic) = Done (Ret true) ->
  _check polling_dic (k + 1) = Raise e ->
  result_of m = Done (Raise e)
  /\ result_of m <> Done (Ret true)
  /\ result_of m <> Done (Ret false)
  /\ actions (trace_of m)
     = (rounds_of (Z.to_nat k) [HttpGet url; Sleep 5] ++ [HttpGet url])%list
  /\ count is_http_get (trace_of m) = k + 1
  /\ slept (trace_of m) = 5 * k.
Proof.
  intros url m Hk Hpending Hget Hstatus Hjson Hformed Hcheck.
  destruct (patched_app_finalize_unfold _check client_get self_base_url challenge_id
              challenge_dic devicename) as [Er Ea].
  fold m url in Er, Ea.
  destruct (poll_loop_prefix _check client_get url 24 (Z.to_nat k) (26 - Z.to_nat k) 0)
    as [Hr Ha]; [lia | intros c Hc; apply Hpending; lia |].
  replace (Z.to_nat k + (26 - Z.to_nat k))%nat with 26%nat in Hr, Ha by lia.
  replace (0 + Z.of_nat (Z.to_nat k)) with k in Hr, Ha by lia.
  replace (26 - Z.to_nat k)%nat with (S (25 - Z.to_nat k)) in Hr, Ha by lia.
  destruct (poll_loop_raises _check client_get url 24 (25 - Z.to_nat k) k false e)
    as [Hr' Ha'];
    [lia | apply (poll_once_check_raises _ _ _ _ _ response polling_dic); assumption |].
  rewrite Hr' in Hr. rewrite Ha' in Ha. rewrite Hr in Er. rewrite Ha in Ea.
  split; [exact Er |].
  split; [rewrite Er; discriminate |].
  split; [rewrite Er; discriminate |].
  split; [exact Ea |].
  rewrite <- (count_actions is_http_get (trace_of m)), <- (slept_actions (trace_of m))
    by (intros []; cbn; congruence).
  rewrite Ea, count_app, slept_app, rounds_of_count, rounds_of_slept.
  change (count is_http_get [HttpGet url; Sleep 5]) with 1.
  change (count is_http_get [HttpGet url]) with 1.
  change (slept [HttpGet url; Sleep 5]) with 5.
  change (slept [HttpGet url]) with 0.
  split; lia.
Qed.

(** ** [fetch_transactions] *)

Lemma attempts_loop_no_post run_child max_retries attempts :
  count is_http_post (actions (trace_of (attempts_loop run_child max_retries attempts))) = 0.
Proof.
  induction attempts as [| attempt rest IH]; [reflexivity |].
  rewrite attempts_loop_actions_cons.
  destruct (attempt_token (run_child attempt)); [reflexivity |].
  destruct (attempt <? max_retries); exact IH.
Qed.

Lemma get_captcha_token_no_post run_child max_retries :
  count is_http_post (trace_of (get_captcha_token run_child max_retries)) = 0.
Proof.
  rewrite <- count_actions by (intros []; cbn; congruence).
  rewrite (proj2 (get_captcha_token_unfold run_child max_retries)).
  apply attempts_loop_no_post.
Qed.

(** C5.  [patched_token_get] sends one POST to [base_url + "/token"]
    with exactly the five form fields [captcha_token], [grant_type],
    [username], [password] and [sca_type], and nothing else leaves the
    process (no second request).  On status 200 the JSON body becomes
    [token_dic]; on any other status the function raises [DKBRoboError]
    with the status code in its message. *)
Theorem patched_token_get_first_factor
    (captcha_token : value)
    (client_post : string -> list (string * value) -> Res Response)
    (self : Authentication) :
  let url := base_url self ++ "/token" in
  let data_dic :=
    [("captcha_token", captcha_token);
     ("grant_type", VStr "banking_user_sca");
     ("username", VStr (dkb_user self));
     ("password", VStr (dkb_password self));
     ("sca_type", VStr "web-login")] in
  let m := patched_token_get captcha_token client_post self in
  actions (trace_of m) = [HttpPost url data_dic]
  /\ (forall response payload,
        client_post url data_dic = Ret response ->
        status_code response = 200 ->
        json_loads (text response) = Some payload ->
        result_of m
        = Done (Ret {| dkb_user := dkb_user self; dkb_password := dkb_password self;
                       base_url := base_url self; token_dic := payload |}))
  /\ (forall response,
        client_post url data_dic = Ret response ->
        status_code response <> 200 ->
        result_of m
        = Done (Raise (Exn DKBRoboError
                         ("Login failed: 1st factor authentication failed. RC: "
                          ++ str_Z (status_code response))))).
Proof.
  intros url data_dic m. subst m.
  unfold patched_token_get, response_json, loads. fold url data_dic.
  split; [| split].
  - destruct (client_post url data_dic) as [response | e]; cbn; [| reflexivity].
    destruct (status_code response =? 200); cbn; [| reflexivity].
    destruct (json_loads (text response)); reflexivity.
  - intros response payload Hpost Hstatus Hjson.
    rewrite Hpost. cbn. rewrite Hstatus, Hjson. reflexivity.
  - intros response Hpost Hstatus.
    rewrite Hpost. cbn.
    rewrite (proj2 (Z.eqb_neq _ _) Hstatus). reflexivity.
Qed.

(** C10.  [fetch_transactions] when [get_captcha_token] yields nothing
    true ([None], or an empty token): the function returns the JSON text
    of [{'success': False, 'error': 'Failed to get captcha token'}]; its
    trace holds the captcha attempts and messages only, so no POST to
    the token endpoint (no first-factor login) is sent, whatever the
    session would do. *)
Theorem fetch_transactions_without_token
    (run_child : Z -> Res CompletedProcess)
    (client_post : string -> list (string * value) -> Res Response)
    (dkb_session : (Authentication -> M Authentication) -> string -> string
                   -> option string -> Z -> M string)
    (username password : string) (account_id : option string) (days : Z)
    (captcha_token : value) :
  let m := fetch_transactions run_child client_post dkb_session
             username password account_id days in
  result_of (get_captcha_token run_child 3) = Done (Ret captcha_token) ->
  truthy captcha_token = false ->
  result_of m
  = Done (Ret (json_dumps (VDict [("success", VBool false);
                                  ("error", VStr "Failed to get captcha token")])))
  /\ count is_http_post (trace_of m) = 0
  /\ actions (trace_of m) = actions (trace_of (get_captcha_token run_child 3)).
Proof.
  intros m Htoken Hfalse. subst m.
  pose proof (get_captcha_token_no_post run_child 3) as Hpost.
  unfold fetch_transactions.
  destruct (get_captcha_token run_child 3) as [t r].
  cbn in Htoken. subst r. cbn [trace_of fst] in *.
  cbn. rewrite Hfalse. cbn. rewrite app_nil_r.
  unfold count in *. cbn. unfold actions. cbn.
  split; [reflexivity | split; [exact Hpost | reflexivity]].
Qed.

(** ** [get_redeem_response] *)

Lemma py_last_snoc {A} (earlier : list A) (x : A) : py_last (earlier ++ [x]) = Ret x.
Proof. unfold py_last. rewrite rev_unit. reflexivity. Qed.

(** The redemption list holds the events with the redemption URL, in
    the order of their arrival. *)
Lemma redeem_events_filter arrived :
  redeem_events arrived
  = filter (fun evt => (response_url evt =? redeem_url)%string) arrived.
Proof.
  unfold redeem_events.
  enough (forall redeemed activated,
             fst (fold_left handler arrived (redeemed, activated))
             = (redeemed
                ++ filter (fun evt => (response_url evt =? redeem_url)%string) arrived)%list)
    as H by (rewrite H; reflexivity).
  induction arrived as [| evt arrived IH]; intros redeemed activated.
  - cbn. rewrite app_nil_r. reflexivity.
  - cbn [fold_left filter]. unfold handler at 2.
    destruct (response_url evt =? redeem_url)%string.
    + rewrite IH, <- app_assoc. reflexivity.
    + destruct (response_url evt =? quote_url)%string; rewrite IH; reflexivity.
Qed.

Section AcquirerProperties.

Variable env : BrowserEnv.
Variable timeout : Z.

Lemma wait_loop_sleeps fuel retries :
  redeem_events (arrived_at_check env (retries + 1)) = [] ->
  retries + 1 <= timeout ->
  wait_loop env timeout (S fuel) retries
  = ((waiting_round ++ trace_of (wait_loop env timeout fuel (retries + 1)))%list,
     result_of (wait_loop env timeout fuel (retries + 1))).
Proof.
  intros Hempty Hle. cbn [wait_loop].
  rewrite Hempty, (proj2 (Z.leb_le _ _) Hle). cbn.
  destruct (wait_loop env timeout fuel (retries + 1)); reflexivity.
Qed.

Lemma wait_loop_leaves fuel retries :
  redeem_events (arrived_at_check env (retries + 1)) <> [] \/ timeout < retries + 1 ->
  wait_loop env timeout (S fuel) retries = ([], Done (Ret (retries + 1))).
Proof.
  intros H. cbn [wait_loop].
  destruct H as [Hfound | Hlate].
  - destruct (redeem_events (arrived_at_check env (retries + 1))); [congruence |].
    reflexivity.
  - rewrite (proj2 (Z.leb_gt _ _) Hlate), andb_false_r. reflexivity.
Qed.

Lemma wait_loop_prefix k :
  forall fuel retries,
    (forall j, retries < j <= retries + Z.of_nat k ->
       redeem_events (arrived_at_check env j) = [] /\ j <= timeout) ->
    wait_loop env timeout (k + fuel) retries
    = ((rounds_of k waiting_round
        ++ trace_of (wait_loop env timeout fuel (retries + Z.of_nat k)))%list,
       result_of (wait_loop env timeout fuel (retries + Z.of_nat k))).
Proof.
  induction k as [| k IH]; intros fuel retries Hwait.
  - cbn [Nat.add rounds_of app]. replace (retries + Z.of_nat 0) with retries by lia.
    destruct (wait_loop env timeout fuel retries); reflexivity.
  - change (S k + fuel)%nat with (S (k + fuel)).
    destruct (Hwait (retries + 1)) as [Hempty Hle]; [lia |].
    rewrite wait_loop_sleeps by assumption.
    rewrite IH by (intros j Hj; apply Hwait; lia).
    cbn [trace_of result_of fst snd rounds_of].
    replace (retries + 1 + Z.of_nat k) with (retries + Z.of_nat (S k)) by lia.
    rewrite <- !app_assoc. reflexivity.
Qed.

(** The loop is left within the fuel [get_redeem_response] gives it. *)
Lemma wait_loop_orderly fuel :
  forall retries,
    (Z.to_nat (timeout - retries) < fuel)%nat ->
    orderly (wait_loop env timeout fuel retries).
Proof.
  induction fuel as [| fuel IH]; intros retries Hfuel; [lia |].
  cbn [wait_loop].
  destruct (len (redeem_events (arrived_at_check env (retries + 1))) =? 0);
    [| split; [eexists |]; reflexivity].
  destruct (Z.leb_spec (retries + 1) timeout) as [Hle | Hgt];
    [| split; [eexists |]; reflexivity].
  cbn. destruct (IH (retries + 1)) as [[r Hr] Hq]; [lia |].
  destruct (wait_loop env timeout fuel (retries + 1)) as [t o].
  cbn in Hr, Hq. subst o. split; [eexists; reflexivity | exact Hq].
Qed.

(** Reading the token: one request for the body of the last event *)
Lemma read_token_shape earlier evt :
  exists r,
    read_token env (earlier ++ [evt]) = ([GetResponseBody (request_id evt)], Done r).
Proof.
  unfold read_token, loads. rewrite py_last_snoc. cbn.
  destruct (get_response_body env (request_id evt)) as [[body encoded] | e]; cbn;
    [| eexists; reflexivity].
  destruct (json_loads body) as [parsed |]; cbn; [| eexists; reflexivity].
  destruct (py_getitem parsed "data") as [data | e]; cbn; eexists; reflexivity.
Qed.

Lemma read_token_found earlier evt body encoded parsed data token :
  get_response_body env (request_id evt) = Ret (body, encoded) ->
  json_loads body = Some parsed ->
  py_getitem parsed "data" = Ret data ->
  py_getitem data "redeem_token" = Ret token ->
  read_token env (earlier ++ [evt])
  = ([GetResponseBody (request_id evt)], Done (Ret token)).
Proof.
  intros Hbody Hjson Hdata Htoken.
  unfold read_token, loads. rewrite py_last_snoc. cbn.
  rewrite Hbody. cbn. rewrite Hjson. cbn. rewrite Hdata. cbn. rewrite Htoken.
  reflexivity.
Qed.

(** [extract_token] returns the token read, or [False] when reading
    raised; it makes the one request and writes at most a message. *)
Lemma extract_token_shape earlier evt :
  exists msgs,
    extract_token env (earlier ++ [evt])
    = (GetResponseBody (request_id evt) :: msgs,
       Done (Ret match result_of (read_token env (earlier ++ [evt])) with
                 | Done (Ret token) => token
                 | _ => VBool false
                 end))
    /\ actions msgs = [].
Proof.
  unfold extract_token.
  destruct (read_token_shape earlier evt) as [[token | e] E]; rewrite E; cbn;
    eexists; split; reflexivity.
Qed.

Lemma get_redeem_response_found k earlier evt :
  1 <= k <= Z.max 0 timeout + 1 ->
  (forall j, 1 <= j < k -> redeem_events (arrived_at_check env j) = []) ->
  redeem_events (arrived_at_check env k) = (earlier ++ [evt])%list ->
  get_redeem_response env timeout
  = ((rounds_of (Z.to_nat (k - 1)) waiting_round
      ++ Log DEBUG "redeem token response found"
         :: trace_of (extract_token env (earlier ++ [evt])))%list,
     result_of (extract_token env (earlier ++ [evt]))).
Proof.
  intros Hk Hempty Hfound.
  unfold get_redeem_response.
  replace (Z.to_nat timeout + 2)%nat
    with (Z.to_nat (k - 1) + S (Z.to_nat timeout + 1 - Z.to_nat (k - 1)))%nat by lia.
  rewrite wait_loop_prefix by (intros j Hj; split; [apply Hempty |]; lia).
  replace (0 + Z.of_nat (Z.to_nat (k - 1))) with (k - 1) by lia.
  rewrite wait_loop_leaves
    by (left; replace (k - 1 + 1) with k by lia; rewrite Hfound;
        destruct earlier; discriminate).
  cbn [trace_of result_of fst snd]. rewrite app_nil_r.
  replace (k - 1 + 1) with k by lia.
  cbn [bind]. rewrite Hfound.
  replace (0 <? len (earlier ++ [evt])%list) with true
    by (symmetry; apply Z.ltb_lt; unfold len; rewrite length_app; cbn; lia).
  cbn.
  destruct (extract_token env (earlier ++ [evt])); reflexivity.
Qed.

Lemma get_redeem_response_timeout :
  (forall j, 1 <= j <= Z.max 0 timeout + 1 ->
     redeem_events (arrived_at_check env j) = []) ->
  get_redeem_response env timeout
  = ((rounds_of (Z.to_nat timeout) waiting_round
      ++ [Log ERROR "Timeout: redeem token request not found"])%list,
     Done (Ret (VBool false))).
Proof.
  intros Hempty.
  unfold get_redeem_response.
  change 2%nat with (S 1).
  rewrite wait_loop_prefix by (intros j Hj; split; [apply Hempty |]; lia).
  rewrite wait_loop_leaves by (right; lia).
  cbn [trace_of result_of fst snd]. rewrite app_nil_r.
  cbn [bind]. rewrite Hempty by lia. reflexivity.
Qed.

End AcquirerProperties.

Lemma actions_waiting n : actions (rounds_of n waiting_round) = rounds_of n [Sleep 1].
Proof.
  induction n as [| n IH]; [reflexivity |].
  cbn [rounds_of]. rewrite actions_app, IH. reflexivity.
Qed.

(** C4.  The wait loop of [get_redeem_response], checked once per
    1-second sleep.  When check [k] is the first to find the redemption
    list non-empty, the function has slept [k - 1] seconds, sleeps no
    more, asks for the body of the last event of the list and returns
    the token in it.  When the list stays empty through all the checks,
    the function returns [False] after [timeout] seconds of sleep, no
    fewer. *)
Theorem get_redeem_response_waits_for_last_event (env : BrowserEnv) (timeout : Z) :
  let m := get_redeem_response env timeout in
  (forall k earlier evt body encoded parsed data token,
     1 <= k <= Z.max 0 timeout + 1 ->
     (forall j, 1 <= j < k -> redeem_events (arrived_at_check env j) = []) ->
     redeem_events (arrived_at_check env k) = (earlier ++ [evt])%list ->
     get_response_body env (request_id evt) = Ret (body, encoded) ->
     json_loads body = Some parsed ->
     py_getitem parsed "data" = Ret data ->
     py_getitem data "redeem_token" = Ret token ->
     result_of m = Done (Ret token)
     /\ slept (trace_of m) = k - 1
     /\ actions (trace_of m)
        = (rounds_of (Z.to_nat (k - 1)) [Sleep 1]
           ++ [GetResponseBody (request_id evt)])%list)
  /\
  ((forall j, 1 <= j <= Z.max 0 timeout + 1 ->
      redeem_events (arrived_at_check env j) = []) ->
   result_of m = Done (Ret (VBool false))
   /\ slept (trace_of m) = Z.max 0 timeout
   /\ actions (trace_of m) = rounds_of (Z.to_nat timeout) [Sleep 1]).
Proof.
  intros m. subst m. split.
  - intros k earlier evt body encoded parsed data token Hk Hempty Hfound
           Hbody Hjson Hdata Htoken.
    rewrite (get_redeem_response_found env timeout k earlier evt Hk Hempty Hfound).
    destruct (extract_token_shape env earlier evt) as (msgs & E & Hmsgs).
    rewrite (read_token_found env earlier evt body encoded parsed data token
               Hbody Hjson Hdata Htoken) in E.
    rewrite E. cbn [trace_of result_of fst snd].
    split; [reflexivity |].
    rewrite <- slept_actions, actions_app, actions_waiting.
    change (actions (Log DEBUG "redeem token response found"
                     :: GetResponseBody (request_id evt) :: msgs))
      with (GetResponseBody (request_id evt) :: actions msgs).
    rewrite Hmsgs, slept_app, rounds_of_slept.
    split; [cbn; lia | reflexivity].
  - intros Hempty.
    rewrite (get_redeem_response_timeout env timeout Hempty).
    cbn [trace_of result_of fst snd].
    split; [reflexivity |].
    rewrite <- slept_actions, actions_app, actions_waiting.
    change (actions [Log ERROR "Timeout: redeem token request not found"]) with (@nil Call).
    rewrite app_nil_r, rounds_of_slept.
    split; [cbn; lia | reflexivity].
Qed.

(** C9.  [get_redeem_response] when the redemption list is non-empty at
    check [k] but reading the token raises (the body cannot be fetched,
    is not JSON, or lacks [data] or [redeem_token]): the function
    returns [False] at once.  It has slept the [k - 1] seconds before
    the check and does not sleep again, whatever remains of the
    timeout. *)
Theorem get_redeem_response_gives_up_on_unreadable_token
    (env : BrowserEnv) (timeout k : Z) (e : exn) :
  let m := get_redeem_response env timeout in
  let events := redeem_events (arrived_at_check env k) in
  1 <= k <= Z.max 0 timeout + 1 ->
  (forall j, 1 <= j < k -> redeem_events (arrived_at_check env j) = []) ->
  events <> [] ->
  result_of (read_token env events) = Done (Raise e) ->
  result_of m = Done (Ret (VBool false))
  /\ slept (trace_of m) = k - 1
  /\ exists evt,
       py_last events = Ret evt
       /\ actions (trace_of m)
          = (rounds_of (Z.to_nat (k - 1)) [Sleep 1]
             ++ [GetResponseBody (request_id evt)])%list.
Proof.
  intros m events Hk Hempty Hfound Hraise. subst m.
  destruct (exists_last Hfound) as (earlier & evt & E).
  fold events in E. rewrite E in Hraise.
  rewrite (get_redeem_response_found env timeout k earlier evt Hk Hempty E).
  destruct (extract_token_shape env earlier evt) as (msgs & Ex & Hmsgs).
  rewrite Hraise in Ex. rewrite Ex. cbn [trace_of result_of fst snd].
  split; [reflexivity |].
  rewrite <- slept_actions, actions_app, actions_waiting.
  change (actions (Log DEBUG "redeem token response found"
                   :: GetResponseBody (request_id evt) :: msgs))
    with (GetResponseBody (request_id evt) :: actions msgs).
  rewrite Hmsgs, slept_app, rounds_of_slept.
  split; [cbn; lia |].
  exists evt. rewrite E, py_last_snoc. split; reflexivity.
Qed.

(** What makes reading the token raise: the body cannot be fetched, it
    is not JSON, it has no [data], or [data] has no [redeem_token]. *)
Theorem read_token_failures (env : BrowserEnv) (earlier : list NetworkEvent)
    (evt : NetworkEvent) :
  let m := read_token env (earlier ++ [evt]) in
  (forall e,
     get_response_body env (request_id evt) = Raise e -> result_of m = Done (Raise e))
  /\ (forall body encoded,
        get_response_body env (request_id evt) = Ret (body, encoded) ->
        json_loads body = None ->
        result_of m = Done (Raise (Exn JSONDecodeError "Expecting value")))
  /\ (forall body encoded parsed e,
        get_response_body env (request_id evt) = Ret (body, encoded) ->
        json_loads body = Some parsed ->
        py_getitem parsed "data" = Raise e ->
        result_of m = Done (Raise e))
  /\ (forall body encoded parsed data e,
        get_response_body env (request_id evt) = Ret (body, encoded) ->
        json_loads body = Some parsed ->
        py_getitem parsed "data" = Ret data ->
        py_getitem data "redeem_token" = Raise e ->
        result_of m = Done (Raise e)).
Proof.
  intros m. subst m. unfold read_token, loads. rewrite py_last_snoc. cbn.
  split; [| split; [| split]].
  - intros e ->. reflexivity.
  - intros body encoded -> Hjson. cbn. rewrite Hjson. reflexivity.
  - intros body encoded parsed e -> Hjson Hdata. cbn. rewrite Hjson. cbn.
    rewrite Hdata. reflexivity.
  - intros body encoded parsed data e -> Hjson Hdata Htoken. cbn. rewrite Hjson. cbn.
    rewrite Hdata. cbn. rewrite Htoken. reflexivity.
Qed.

(** ** [get_dkb_redeem_token] *)

Lemma get_redeem_response_orderly env timeout :
  orderly (get_redeem_response env timeout).
Proof.
  unfold get_redeem_response, extract_token, read_token.
  apply orderly_bind; [apply wait_loop_orderly; lia | intros retries].
  pose proof loads_orderly. orderly_steps; auto.
Qed.

Lemma click_round_orderly env round : orderly (click_round env round).
Proof. unfold click_round. orderly_steps. Qed.

Lemma click_rounds_orderly env rounds : orderly (click_rounds env rounds).
Proof.
  induction rounds as [| round rest IH]; cbn [click_rounds]; [orderly_steps |].
  apply orderly_bind; [apply click_round_orderly | intros []; [exact IH | orderly_steps]].
Qed.

Lemma guarded_session_orderly env timeout headless :
  orderly (guarded_session env timeout headless).
Proof.
  unfold guarded_session, session.
  pose proof (click_rounds_orderly env (py_range 0 50)).
  pose proof (get_redeem_response_orderly env timeout).
  orderly_steps; auto.
Qed.

Lemma get_dkb_redeem_token_orderly env timeout headless :
  orderly (get_dkb_redeem_token env timeout headless).
Proof.
  unfold get_dkb_redeem_token.
  pose proof (guarded_session_orderly env timeout headless).
  orderly_steps; auto.
Qed.

(** The function returns, whatever the browser does. *)
Lemma get_dkb_redeem_token_returns env timeout headless :
  exists v, result_of (get_dkb_redeem_token env timeout headless) = Done (Ret v).
Proof.
  unfold get_dkb_redeem_token.
  destruct (guarded_session_orderly env timeout headless) as [[r Hr] _].
  destruct (guarded_session env timeout headless) as [t o]. cbn in Hr. subst o.
  destruct r as [v | e]; eexists; reflexivity.
Qed.

(** C7.  [get_dkb_redeem_token] returns a value on every run: whatever
    exception the browser session raises (entering or leaving the
    session, opening the page, a refresh inside a handler, fetching the
    body) is caught by the outer handler and turned into the return
    value [False].  No exception leaves the function. *)
Theorem get_dkb_redeem_token_catches_exceptions
    (env : BrowserEnv) (timeout : Z) (headless : bool) :
  let m := get_dkb_redeem_token env timeout headless in
  (exists v, result_of m = Done (Ret v))
  /\ (forall e,
        result_of (guarded_session env timeout headless) = Done (Raise e) ->
        result_of m = Done (Ret (VBool false)))
  /\ (forall e, sb_enter env = Raise e -> result_of m = Done (Ret (VBool false)))
  /\ (forall e,
        sb_enter env = Ret tt -> activate_cdp_mode env = Ret tt ->
        add_handler env = Ret tt -> cdp_open env = Raise e ->
        result_of m = Done (Ret (VBool false))).
Proof.
  intros m. subst m. split; [apply get_dkb_redeem_token_returns |].
  split; [| split].
  - intros e Hraise. unfold get_dkb_redeem_token.
    destruct (guarded_session env timeout headless) as [t o].
    cbn in Hraise. subst o. reflexivity.
  - intros e Henter.
    unfold get_dkb_redeem_token, guarded_session. rewrite Henter. reflexivity.
  - intros e Henter Hmode Hhandler Hopen.
    unfold get_dkb_redeem_token, guarded_session, session.
    rewrite Henter, Hmode, Hhandler, Hopen. cbn.
    destruct (sb_exit env) as [[] | e']; reflexivity.
Qed.

(** The [__main__] block of the child writes to stdout in one [print]
    call: the text is [json.dumps] of [{"success": true, "token": t}]
    when the acquirer returned a true value [t], of
    [{"success": false, "error": "Failed to get captcha token"}]
    otherwise, and the exit status is 0 in the first case, 1 in the
    second.  [t] is what the redemption body holds under
    [data.redeem_token]: a non-empty string whenever it is a string.
    When [json.loads] gives back the payload from that text, the parent
    reads the same result from it: its attempt returns [t] (if [t] has
    a length) after a success and no token after a failure. *)
Theorem main_prints_one_result_line (env : BrowserEnv) :
  let m := main env in
  (exists token, result_of (get_dkb_redeem_token env 400 true) = Done (Ret token))
  /\ forall token,
       result_of (get_dkb_redeem_token env 400 true) = Done (Ret token) ->
       let payload := if truthy token then success_payload token else failure_payload in
       let code := if truthy token then 0 else 1 in
       stdout_lines (trace_of m) = [json_dumps payload]
       /\ result_of m = Done (Ret code)
       /\ (truthy token = true -> forall s, token = VStr s -> s <> "")
       /\ (json_loads (json_dumps payload ++ nl) = Some payload ->
           forall attempt err,
             result_of
               (attempt_guarded
                  (fun _ => Ret {| returncode := code;
                                   stdout := json_dumps payload ++ nl;
                                   stderr := err |})
                  attempt)
             = Done (Ret (if truthy token
                          then match py_len token with
                               | Ret _ => Some token
                               | Raise _ => None
                               end
                          else None))).
Proof.
  intros m. subst m. split; [apply get_dkb_redeem_token_returns |].
  intros token Htoken payload code.
  destruct (get_dkb_redeem_token_orderly env 400 true) as [_ Hquiet].
  unfold main.
  destruct (get_dkb_redeem_token env 400 true) as [t o].
  cbn in Htoken, Hquiet. subst o. cbn [bind].
  split; [| split; [| split]].
  - subst payload. destruct (truthy token); cbn;
      rewrite stdout_lines_app, Hquiet; reflexivity.
  - subst code. destruct (truthy token); reflexivity.
  - intros Htrue s -> ->. discriminate.
  - intros Hround attempt err.
    rewrite attempt_guarded_result. unfold attempt_token.
    subst payload code. destruct (truthy token); cbn.
    + rewrite Hround. cbn. destruct (py_len token); reflexivity.
    + reflexivity.
Qed.

(** ** Further properties of the poll loop and of the retry loop *)

(** [get_captcha_token] writes its progress messages to stderr: nothing
    goes to stdout, whatever the children do. *)
Theorem get_captcha_token_keeps_stdout_clean
    (run_child : Z -> Res CompletedProcess) (max_retries : Z) :
  stdout_lines (trace_of (get_captcha_token run_child max_retries)) = [].
Proof.
  enough (orderly (get_captcha_token run_child max_retries)) as [_ H] by exact H.
  unfold get_captcha_token.
  apply orderly_bind; [orderly_steps | intros _].
  induction (py_range 1 (max_retries + 1)) as [| attempt rest IH];
    cbn [attempts_loop]; [orderly_steps |].
  unfold attempt_guarded, attempt_try, attempt_except.
  pose proof loads_orderly. orderly_steps; auto.
Qed.



(** [patched_app_finalize] on an approval: when the answer to request
    [k + 1] is the first on which [_check] reports completion, after [k]
    pending iterations (failed requests and malformed answers among
    them), the function returns [True] at once, with no further request
    and no further sleep. *)
Theorem finalize_approval_stops_polling
    (_check : value -> Z -> Res bool) (client_get : Z -> Res Response)
    (self_base_url challenge_id : string) (challenge_dic : value)
    (devicename : option string)
    (k : Z) (response : Response) (polling_dic : value) :
  let url := self_base_url ++ "/mfa/mfa/challenges/" ++ challenge_id in
  let m := patched_app_finalize _check client_get self_base_url challenge_id
             challenge_dic devicename in
  0 <= k <= 24 ->
  (forall cnt, 0 <= cnt < k ->
     result_of (poll_once _check client_get url cnt false)
     = Done (Ret (cnt + 1, false, Continue))) ->
  client_get k = Ret response ->
  status_code response = 200 ->
  json_loads (text response) = Some polling_dic ->
  result_of (has_verification_status polling_dic) = Done (Ret true) ->
  _check polling_dic (k + 1) = Ret true ->
  result_of m = Done (Ret true)
  /\ actions (trace_of m)
     = (rounds_of (Z.to_nat k) [HttpGet url; Sleep 5] ++ [HttpGet url])%list
  /\ count is_http_get (trace_of m) = k + 1
  /\ slept (trace_of m) = 5 * k.
Proof.
  intros url m Hk Hpending Hget Hstatus Hjson Hformed Hcheck.
  destruct (patched_app_finalize_unfold _check client_get self_base_url challenge_id
              challenge_dic devicename) as [Er Ea].
  fold m url in Er, Ea.
  destruct (poll_loop_prefix _check client_get url 24 (Z.to_nat k) (26 - Z.to_nat k) 0)
    as [Hr Ha]; [lia | intros c Hc; apply Hpending; lia |].
  replace (Z.to_nat k + (26 - Z.to_nat k))%nat with 26%nat in Hr, Ha by lia.
  replace (0 + Z.of_nat (Z.to_nat k)) with k in Hr, Ha by lia.
  replace (26 - Z.to_nat k)%nat with (S (25 - Z.to_nat k)) in Hr, Ha by lia.
  destruct (poll_loop_breaks _check client_get url 24 (25 - Z.to_nat k) k false
              (k + 1) true) as [Hr' Ha'];
    [lia | apply (poll_once_check_completes _ _ _ _ _ response polling_dic); assumption |].
  rewrite Hr' in Hr. rewrite Ha' in Ha. rewrite Hr in Er. rewrite Ha in Ea.
  split; [exact Er | split; [exact Ea |]].
  rewrite <- (count_actions is_http_get (trace_of m)), <- (slept_actions (trace_of m))
    by (intros []; cbn; congruence).
  rewrite Ea, count_app, slept_app, rounds_of_count, rounds_of_slept.
  change (count is_http_get [HttpGet url; Sleep 5]) with 1.
  change (count is_http_get [HttpGet url]) with 1.
  change (slept [HttpGet url; Sleep 5]) with 5.
  change (slept [HttpGet url]) with 0.
  split; lia.
Qed.

Lemma poll_once_untested
    (_check : value -> Z -> Res bool) (client_get : Z -> Res Response) (url : string)
    (cnt : Z) (mfa_completed : bool) (response : Response) (polling_dic : value)
    (r : Res bool) :
  client_get cnt = Ret response ->
  status_code response = 200 ->
  json_loads (text response) = Some polling_dic ->
  result_of (has_verification_status polling_dic) = Done r ->
  (r = Ret false ->
   result_of (poll_once _check client_get url cnt mfa_completed)
   = Done (Ret (cnt + 1, mfa_completed, Continue)))
  /\ (forall e,
        r = Raise e ->
        result_of (poll_once _check client_get url cnt mfa_completed) = Done (Raise e)).
Proof.
  intros Hget Hstatus Hjson Hformed.
  unfold poll_once, poll_check, response_json, loads.
  rewrite Hget. cbn. rewrite Hstatus, Hjson. cbn.
  destruct (has_verification_status_pure polling_dic) as [r' E].
  rewrite E in *. cbn in Hformed. injection Hformed as ->.
  split; [intros -> | intros e ->]; reflexivity.
Qed.

(** One iteration of the poll loop on an answer that settles nothing.
    A status other than 200 leaves [mfa_completed] as it was and the
    loop going, and so does a 200 whose JSON body makes the test of
    lines 137-141 false, such as a dict without ["data"] or one whose
    ["data"] is a container without ["attributes"].  Other answers
    are not absorbed, and the exception leaves the loop: a 200 whose
    body is not JSON makes [response.json()] raise, and a JSON body on
    which the test itself raises does so too, such as a body that is
    no container or one whose ["data"] is [null] ([in] on [None] is a
    [TypeError]). *)
Theorem poll_once_transient
    (_check : value -> Z -> Res bool) (client_get : Z -> Res Response) (url : string)
    (cnt : Z) (mfa_completed : bool) (response : Response) :
  client_get cnt = Ret response ->
  let m := poll_once _check client_get url cnt mfa_completed in
  let goes_on := Done (Ret (cnt + 1, mfa_completed, Continue)) in
  (status_code response <> 200 -> result_of m = goes_on)
  /\ (status_code response = 200 ->
      json_loads (text response) = None ->
      result_of m = Done (Raise (Exn JSONDecodeError "Expecting value")))
  /\ (forall polling_dic,
        status_code response = 200 ->
        json_loads (text response) = Some polling_dic ->
        (result_of (has_verification_status polling_dic) = Done (Ret false) ->
         result_of m = goes_on)
        /\ (forall e,
              result_of (has_verification_status polling_dic) = Done (Raise e) ->
              result_of m = Done (Raise e))
        /\ (forall entries,
              polling_dic = VDict entries ->
              lookup "data" entries = None ->
              result_of m = goes_on)
        /\ (forall entries data,
              polling_dic = VDict entries ->
              lookup "data" entries = Some data ->
              py_contains "attributes" data = Ret false ->
              result_of m = goes_on)
        /\ (forall entries data e,
              polling_dic = VDict entries ->
              lookup "data" entries = Some data ->
              py_contains "attributes" data = Raise e ->
              result_of m = Done (Raise e))
        /\ (forall e,
              py_contains "data" polling_dic = Raise e ->
              result_of m = Done (Raise e))).
Proof.
  intros Hget m goes_on. subst m goes_on. split; [| split].
  - intros Hstatus. unfold poll_once, poll_check. rewrite Hget. cbn.
    rewrite (proj2 (Z.eqb_neq _ _) Hstatus). reflexivity.
  - intros Hstatus Hjson. unfold poll_once, poll_check, response_json, loads.
    rewrite Hget. cbn. rewrite Hstatus, Hjson. reflexivity.
  - intros polling_dic Hstatus Hjson.
    pose proof (fun r => poll_once_untested _check client_get url cnt mfa_completed
                           response polling_dic r Hget Hstatus Hjson) as Htest.
    assert (Hfalse : result_of (has_verification_status polling_dic) = Done (Ret false) ->
                     result_of (poll_once _check client_get url cnt mfa_completed)
                     = Done (Ret (cnt + 1, mfa_completed, Continue)))
      by (intros H; exact (proj1 (Htest _ H) eq_refl)).
    assert (Hraise : forall e,
               result_of (has_verification_status polling_dic) = Done (Raise e) ->
               result_of (poll_once _check client_get url cnt mfa_completed)
               = Done (Raise e))
      by (intros e H; exact (proj2 (Htest _ H) e eq_refl)).
    split; [exact Hfalse | split; [exact Hraise |]].
    split; [| split; [| split]].
    + intros entries -> Hdata. apply Hfalse.
      unfold has_verification_status. cbn. rewrite Hdata. reflexivity.
    + intros entries data -> Hdata Hattributes. apply Hfalse.
      unfold has_verification_status. cbn. rewrite Hdata. cbn.
      rewrite Hattributes. reflexivity.
    + intros entries data e -> Hdata Hattributes. apply Hraise.
      unfold has_verification_status. cbn. rewrite Hdata. cbn.
      rewrite Hattributes. reflexivity.
    + intros e Hdata. apply Hraise.
      unfold has_verification_status. rewrite Hdata. reflexivity.
Qed.

(** [patched_app_finalize] ends within its 25 iterations whatever the
    endpoint and [_check] do, and writes nothing to stdout: its notices
    go to stderr and to the log. *)
Theorem finalize_keeps_stdout_clean
    (_check : value -> Z -> Res bool) (client_get : Z -> Res Response)
    (self_base_url challenge_id : string) (challenge_dic : value)
    (devicename : option string) :
  let m := patched_app_finalize _check client_get self_base_url challenge_id
             challenge_dic devicename in
  (exists r, result_of m = Done r) /\ stdout_lines (trace_of m) = [].
Proof.
  intros m. change (orderly m). subst m.
  unfold patched_app_finalize, patched_app_print.
  pose proof (poll_loop_orderly _check client_get
                (self_base_url ++ "/mfa/mfa/challenges/" ++ challenge_id) 24
                (Z.to_nat 24 + 2) 0 false ltac:(cbn; lia)) as Hloop.
  orderly_steps; auto.
Qed.

(** ** Bounds on the acquirer *)

Lemma emits_only_done {A} p (t : list Call) (o : Outcome A) :
  forallb p t = true -> emits_only p (t, o).
Proof. intros H. exact H. Qed.

Lemma emits_only_bind {A B} p (m : M A) (f : A -> M B) :
  emits_only p m -> (forall a, emits_only p (f a)) -> emits_only p (bind m f).
Proof.
  unfold emits_only. intros Hm Hf. destruct m as [t [[a | e] |]]; cbn in *; try exact Hm.
  specialize (Hf a). destruct (f a) as [t' o]. cbn in *.
  rewrite forallb_app, Hm, Hf. reflexivity.
Qed.

Lemma emits_only_try {A} p (m : M A) (h : exn -> M A) :
  emits_only p m -> (forall e, emits_only p (h e)) -> emits_only p (try_except m h).
Proof.
  unfold emits_only. intros Hm Hh. destruct m as [t [[a | e] |]]; cbn in *; try exact Hm.
  specialize (Hh e). destruct (h e) as [t' o]. cbn in *.
  rewrite forallb_app, Hm, Hh. reflexivity.
Qed.

Lemma emits_only_with_exit {A} p (body : M A) (leave : M unit) :
  emits_only p body -> emits_only p leave -> emits_only p (with_exit body leave).
Proof.
  unfold emits_only. intros Hb Hl.
  destruct body as [t [r |]], leave as [t' [[[] | e'] |]]; cbn in *;
    rewrite ?forallb_app, ?Hb, ?Hl; reflexivity.
Qed.

Lemma count_cons p (c : Call) (t : list Call) :
  count p (c :: t) = (if p c then 1 else 0) + count p t.
Proof. unfold count, len. cbn [filter]. destruct (p c); cbn [List.length]; lia. Qed.

Lemma count_emits_only p (q : Call -> bool) (t : list Call) :
  forallb p t = true -> (forall c, p c = true -> q c = false) -> count q t = 0.
Proof.
  intros Ht Hpq. unfold count, len.
  induction t as [| c t IH]; [reflexivity |].
  cbn in Ht. apply andb_prop in Ht as [Hc Ht].
  cbn. rewrite (Hpq c Hc). apply IH. exact Ht.
Qed.

Lemma slept_emits_only (t : list Call) :
  forallb (fun c => negb (is_sleep c)) t = true -> slept t = 0.
Proof.
  induction t as [| c t IH]; [reflexivity |].
  cbn [forallb]. intros H. apply andb_prop in H as [Hc Ht].
  destruct c; cbn in *; try discriminate; apply IH; exact Ht.
Qed.

(** Takes a computation apart, as [orderly_steps] does. *)
Ltac emits_steps :=
  repeat match goal with
         | |- emits_only _ (bind _ _) => apply emits_only_bind; [| intros ?]
         | |- emits_only _ (try_except _ _) => apply emits_only_try; [| intros ?]
         | |- emits_only _ (with_exit _ _) => apply emits_only_with_exit
         | |- emits_only _ (if ?b then _ else _) => destruct b
         | |- emits_only _ (match ?x with _ => _ end) => destruct x
         | |- emits_only _ _ => solve [reflexivity]
         end.

Lemma slept_bind_le {A B} (m : M A) (f : A -> M B) a b :
  slept (trace_of m) <= a -> 0 <= b ->
  (forall x, slept (trace_of (f x)) <= b) ->
  slept (trace_of (bind m f)) <= a + b.
Proof.
  intros Hm Hb Hf. destruct m as [t [[x | e] |]]; cbn in *; try lia.
  specialize (Hf x). destruct (f x) as [t' o]. cbn in *. rewrite slept_app. lia.
Qed.

Lemma slept_try_le {A} (m : M A) (h : exn -> M A) a b :
  slept (trace_of m) <= a -> 0 <= b ->
  (forall e, slept (trace_of (h e)) <= b) ->
  slept (trace_of (try_except m h)) <= a + b.
Proof.
  intros Hm Hb Hh. destruct m as [t [[x | e] |]]; cbn in *; try lia.
  specialize (Hh e). destruct (h e) as [t' o]. cbn in *. rewrite slept_app. lia.
Qed.

Section AcquirerBounds.

Variable env : BrowserEnv.
Variable timeout : Z.

(** A round of the click loop sleeps one second, and one more when it
    reloads the page. *)
Lemma click_round_slept round : slept (trace_of (click_round env round)) <= 2.
Proof.
  unfold click_round.
  destruct (0 <? len (activate_events (arrived_in_round env round))); [cbn; lia |].
  destruct (switch_to_default_content env round) as [[] | e1];
    destruct (click_accept_button env round) as [[] | e2];
    destruct (switch_to_frame env round) as [[] | e3];
    destruct (cdp_refresh env round) as [[] | e4];
    destruct (click_checkbox env round) as [[] | e5];
    cbn; lia.
Qed.

Lemma click_rounds_slept rounds :
  slept (trace_of (click_rounds env rounds)) <= 2 * len rounds.
Proof.
  induction rounds as [| round rest IH]; [cbn; lia |].
  cbn [click_rounds].
  replace (2 * len (round :: rest)) with (2 + 2 * len rest)
    by (unfold len; cbn [List.length]; lia).
  apply slept_bind_le; [apply click_round_slept | unfold len; lia |].
  intros []; [exact IH | change (0 <= 2 * len rest); unfold len; lia].
Qed.

Lemma wait_loop_slept fuel :
  forall retries,
    slept (trace_of (wait_loop env timeout fuel retries)) <= Z.max 0 (timeout - retries).
Proof.
  induction fuel as [| fuel IH]; intros retries;
    [change (0 <= Z.max 0 (timeout - retries)); lia |].
  cbn [wait_loop].
  destruct (len (redeem_events (arrived_at_check env (retries + 1))) =? 0);
    [| change (0 <= Z.max 0 (timeout - retries)); lia].
  destruct (Z.leb_spec (retries + 1) timeout) as [Hle | Hgt];
    [| change (0 <= Z.max 0 (timeout - retries)); lia].
  specialize (IH (retries + 1)). cbn [andb].
  destruct (wait_loop env timeout fuel (retries + 1)) as [t o].
  change (1 + slept t <= Z.max 0 (timeout - retries)).
  change (slept t <= Z.max 0 (timeout - (retries + 1))) in IH. lia.
Qed.

Lemma extract_token_no_sleep events :
  emits_only (fun c => negb (is_sleep c)) (extract_token env events).
Proof.
  unfold extract_token, read_token, loads, lift, call, log, emit, ret.
  emits_steps.
Qed.

Lemma get_redeem_response_slept :
  slept (trace_of (get_redeem_response env timeout)) <= Z.max 0 timeout.
Proof.
  unfold get_redeem_response.
  replace (Z.max 0 timeout) with (Z.max 0 (timeout - 0) + 0) by lia.
  apply slept_bind_le; [apply wait_loop_slept | lia |].
  intros retries.
  destruct (0 <? len (redeem_events (arrived_at_check env retries))); [| cbn; lia].
  pose proof (extract_token_no_sleep (redeem_events (arrived_at_check env retries))) as H.
  apply slept_emits_only in H.
  cbn. destruct (extract_token env (redeem_events (arrived_at_check env retries))) as [t o].
  cbn in *. lia.
Qed.

Lemma session_slept : slept (trace_of (session env timeout)) <= 100 + Z.max 0 timeout.
Proof.
  unfold session.
  replace (100 + Z.max 0 timeout)
    with (0 + (0 + (0 + (0 + (100 + (0 + Z.max 0 timeout)))))) by lia.
  apply slept_bind_le; [destruct (activate_cdp_mode env); cbn; lia | lia | intros _].
  apply slept_bind_le; [destruct (add_handler env); cbn; lia | lia | intros _].
  apply slept_bind_le; [cbn; lia | lia | intros _].
  apply slept_bind_le; [destruct (cdp_open env); cbn; lia | lia | intros _].
  apply slept_bind_le; [| lia | intros _].
  - pose proof (click_rounds_slept (py_range 0 50)) as H.
    replace (2 * len (py_range 0 50)) with 100 in H by reflexivity. exact H.
  - apply slept_bind_le; [destruct (get_event_loop env); cbn; lia | lia | intros _].
    apply get_redeem_response_slept.
Qed.

(** The calls inside the [with] block never close the session
    themselves. *)
Lemma wait_loop_no_exit fuel :
  forall retries,
    emits_only (fun c => negb (is_sb_exit c)) (wait_loop env timeout fuel retries).
Proof.
  induction fuel as [| fuel IH]; intros retries; [reflexivity |].
  cbn [wait_loop].
  destruct ((len (redeem_events (arrived_at_check env (retries + 1))) =? 0)
            && (retries + 1 <=? timeout)); [| reflexivity].
  unfold log, sleep, emit. emits_steps. apply IH.
Qed.

Lemma click_rounds_no_exit rounds :
  emits_only (fun c => negb (is_sb_exit c)) (click_rounds env rounds).
Proof.
  induction rounds as [| round rest IH]; [reflexivity |].
  cbn [click_rounds]. apply emits_only_bind.
  - unfold click_round, lift, call, log, sleep, emit, ret. emits_steps.
  - intros []; [exact IH | reflexivity].
Qed.

Lemma session_no_exit : emits_only (fun c => negb (is_sb_exit c)) (session env timeout).
Proof.
  unfold session, get_redeem_response, extract_token, read_token, loads.
  pose proof (click_rounds_no_exit (py_range 0 50)).
  pose proof (wait_loop_no_exit (Z.to_nat timeout + 2) 0).
  unfold lift, call, log, sleep, emit, ret.
  emits_steps; assumption.
Qed.

Lemma session_orderly : orderly (session env timeout).
Proof.
  unfold session.
  pose proof (click_rounds_orderly env (py_range 0 50)).
  pose proof (get_redeem_response_orderly env timeout).
  orderly_steps; auto.
Qed.

End AcquirerBounds.

(** [get_dkb_redeem_token] sleeps at most two seconds in each of its 50
    rounds, then at most [timeout] seconds waiting for the token: 100 +
    [timeout] in all.  The bound is reached: with the [timeout] of 400
    that [__main__] passes, a run in which the frame never shows and no
    token arrives sleeps 500 seconds, more than the 450 the parent
    gives the child. *)
Theorem get_dkb_redeem_token_sleep_budget :
  (forall env timeout headless,
     slept (trace_of (get_dkb_redeem_token env timeout headless))
     <= 100 + Z.max 0 timeout)
  /\ slept (trace_of (get_dkb_redeem_token Examples.browser_stuck 400 true)) = 500.
Proof.
  split; [| vm_compute; reflexivity].
  intros env timeout headless.
  unfold get_dkb_redeem_token, guarded_session.
  pose proof (session_slept env timeout) as Hs.
  destruct (session env timeout) as [t o].
  cbn [trace_of fst] in Hs.
  destruct (sb_enter env) as [[] | e]; [| cbn -[Z.max Z.add]; lia].
  destruct o as [[v | e] |], (sb_exit env) as [[] | e']; cbn -[Z.max Z.add];
    rewrite ?slept_app; cbn -[Z.max Z.add]; lia.
Qed.

(** Once the browser session is entered it is left exactly once,
    whether the body returned or raised; when entering it raises, it is
    not left and nothing else is called. *)
Theorem browser_session_always_closed
    (env : BrowserEnv) (timeout : Z) (headless : bool) :
  let t := trace_of (get_dkb_redeem_token env timeout headless) in
  (sb_enter env = Ret tt -> count is_sb_exit t = 1)
  /\ (forall e, sb_enter env = Raise e ->
        count is_sb_exit t = 0 /\ actions t = [Browser (SBEnter headless)]).
Proof.
  intros t. subst t. unfold get_dkb_redeem_token, guarded_session. split.
  - intros Henter. rewrite Henter.
    destruct (session_orderly env timeout) as [[r Hr] _].
    pose proof (session_no_exit env timeout) as Hno.
    apply (count_emits_only _ is_sb_exit) in Hno;
      [| intros c Hc; destruct (is_sb_exit c); [discriminate | reflexivity]].
    destruct (session env timeout) as [ts o]. cbn in Hr, Hno. subst o.
    destruct r as [v | e], (sb_exit env) as [[] | e']; cbn [bind call with_exit try_except
                                                              log emit ret trace_of fst];
      rewrite ?count_cons, ?count_app, ?count_cons, ?Hno; reflexivity.
  - intros e Henter. rewrite Henter. split; reflexivity.
Qed.

(** ** The two event lists *)

Lemma fold_handler arrived :
  forall redeemed activated,
    fold_left handler arrived (redeemed, activated)
    = ((redeemed ++ filter is_redeem arrived)%list,
       (activated ++ filter is_quote arrived)%list).
Proof.
  induction arrived as [| evt arrived IH]; intros redeemed activated.
  - cbn. rewrite !app_nil_r. reflexivity.
  - cbn [fold_left filter]. unfold handler at 2.
    change (response_url evt =? redeem_url)%string with (is_redeem evt).
    change (response_url evt =? quote_url)%string with (is_quote evt).
    destruct (is_redeem evt) eqn:Hr.
    + assert (is_quote evt = false) as ->.
      { unfold is_redeem, is_quote in *. apply String.eqb_eq in Hr. rewrite Hr.
        reflexivity. }
      rewrite IH, <- app_assoc. reflexivity.
    + destruct (is_quote evt); rewrite IH, <- ?app_assoc; reflexivity.
Qed.

(** The handler of [listen_to_captcha_redeem] sorts the responses by
    their URL into two lists that only grow: what has arrived stays, in
    order, when more arrives, and no event is in both lists. *)
Theorem event_lists_grow_apart (arrived more : list NetworkEvent) :
  activate_events arrived = filter is_quote arrived
  /\ redeem_events (arrived ++ more)
     = (redeem_events arrived ++ redeem_events more)%list
  /\ activate_events (arrived ++ more)
     = (activate_events arrived ++ activate_events more)%list
  /\ (forall evt, In evt (redeem_events arrived) -> ~ In evt (activate_events arrived)).
Proof.
  unfold redeem_events, activate_events. rewrite !fold_handler. cbn [fst snd app].
  rewrite !filter_app. repeat split.
  intros evt Hr Ha.
  apply filter_In in Hr as [_ Hr]. apply filter_In in Ha as [_ Ha].
  unfold is_redeem, is_quote in *.
  apply String.eqb_eq in Hr. rewrite Hr in Ha. discriminate.
Qed.

(** ** A budget for the poll loop *)

Lemma count_nonneg p (t : list Call) : 0 <= count p t.
Proof. unfold count, len. lia. Qed.

Section FinalizeBudget.

Variable _check : value -> Z -> Res bool.
Variable client_get : Z -> Res Response.
Variable url : string.
Variable max_iterations : Z.

Lemma poll_loop_budget fuel :
  forall cnt mfa_completed,
    let a := actions (trace_of (poll_loop _check client_get url max_iterations
                                  fuel cnt mfa_completed)) in
    Forall (fun c => c = HttpGet url \/ c = Sleep 5) a
    /\ count is_http_get a <= Z.max 0 (max_iterations + 1 - cnt)
    /\ slept a <= 5 * count is_http_get a
    /\ (fuel <> O -> cnt <= max_iterations -> 1 <= count is_http_get a).
Proof.
  induction fuel as [| fuel IH]; intros cnt mfa_completed a; subst a.
  - cbn. repeat split; [constructor | lia | lia | congruence].
  - cbn [poll_loop].
    destruct (Z.leb_spec cnt max_iterations) as [Hle | Hgt];
      [| cbn; repeat split; [constructor | lia | lia | lia]].
    destruct (poll_once_shape _check client_get url cnt mfa_completed)
      as (msgs & r & E & Hmsgs).
    destruct (poll_once_quiet _check client_get url cnt mfa_completed)
      as (t' & r' & E' & _ & Hcnt).
    rewrite E in E'. injection E' as <- <-. rewrite E.
    assert (Hone : actions (HttpGet url :: msgs) = [HttpGet url])
      by (unfold actions in *; cbn; rewrite Hmsgs; reflexivity).
    destruct r as [[[cnt' completed] [|]] | e].
    + rewrite (Hcnt cnt' completed Continue eq_refl).
      specialize (IH (cnt + 1) completed).
      cbn zeta in IH. destruct IH as (Hall & Hcount & Hslept & _).
      remember (poll_loop _check client_get url max_iterations fuel (cnt + 1) completed)
        as rest eqn:Erest.
      assert (Ha : actions (HttpGet url :: msgs ++ Sleep 5 :: trace_of rest)
                   = HttpGet url :: Sleep 5 :: actions (trace_of rest))
        by (unfold actions in *; cbn; rewrite filter_app, Hmsgs; reflexivity).
      assert (Hb : forall line,
                 actions (HttpGet url :: msgs ++ Print Stderr line :: Sleep 5 :: trace_of rest)
                 = HttpGet url :: Sleep 5 :: actions (trace_of rest))
        by (intros line; unfold actions in *; cbn; rewrite filter_app, Hmsgs; reflexivity).
      pose proof (count_nonneg is_http_get (actions (trace_of rest))).
      cbn [bind].
      destruct ((cnt + 1) mod 4 =? 0); unfold print, sleep, emit, ret;
        cbn [bind app]; rewrite <- Erest; destruct rest as [t o];
        cbn [trace_of fst] in *; rewrite ?Ha, ?Hb, !count_cons;
        cbn [is_http_get slept];
        (split; [constructor; [left; reflexivity
                              | constructor; [right; reflexivity | exact Hall]]
                | split; [lia | split; [lia | intros; lia]]]).
    + cbn [bind ret app trace_of fst]. rewrite app_nil_r, Hone.
      change (count is_http_get [HttpGet url]) with 1. cbn [slept].
      split; [constructor; [left; reflexivity | constructor]
             | split; [lia | split; [lia | intros; lia]]].
    + cbn [bind trace_of fst]. rewrite Hone.
      change (count is_http_get [HttpGet url]) with 1. cbn [slept].
      split; [constructor; [left; reflexivity | constructor]
             | split; [lia | split; [lia | intros; lia]]].
Qed.

End FinalizeBudget.

(** Whatever the bank answers and whatever [_check] does,
    [patched_app_finalize] sends between 1 and 25 requests, all of them
    to the challenge's URL, and sleeps 5 seconds at a time, at most once
    per request: never more than 125 seconds in all. *)
Theorem finalize_never_exceeds_budget
    (_check : value -> Z -> Res bool) (client_get : Z -> Res Response)
    (self_base_url challenge_id : string) (challenge_dic : value)
    (devicename : option string) :
  let t := trace_of (patched_app_finalize _check client_get self_base_url challenge_id
                       challenge_dic devicename) in
  Forall (fun c => c = HttpGet (self_base_url ++ "/mfa/mfa/challenges/" ++ challenge_id)
                   \/ c = Sleep 5)
    (actions t)
  /\ 1 <= count is_http_get t <= 25
  /\ slept t <= 5 * count is_http_get t
  /\ slept t <= 125.
Proof.
  intros t. subst t.
  destruct (patched_app_finalize_unfold _check client_get self_base_url challenge_id
              challenge_dic devicename) as [_ Ha].
  cbn zeta in Ha.
  rewrite <- slept_actions.
  rewrite <- (count_actions is_http_get) by (intros []; cbn; congruence).
  rewrite Ha.
  destruct (poll_loop_budget _check client_get
              (self_base_url ++ "/mfa/mfa/challenges/" ++ challenge_id) 24 26 0 false)
    as (Hall & Hcount & Hslept & Hfirst).
  cbn zeta in Hall, Hcount, Hslept, Hfirst.
  change (Z.max 0 (24 + 1 - 0)) with 25 in Hcount.
  specialize (Hfirst ltac:(discriminate) ltac:(lia)).
  repeat split; [exact Hall | lia | lia | lia | lia].
Qed.

(** ** What ends the poll loop is [_check] *)

Lemma poll_once_check_pending
    (_check : value -> Z -> Res bool) (client_get : Z -> Res Response) (url : string)
    (cnt : Z) (response : Response) (polling_dic : value) :
  client_get cnt = Ret response ->
  status_code response = 200 ->
  json_loads (text response) = Some polling_dic ->
  result_of (has_verification_status polling_dic) = Done (Ret true) ->
  _check polling_dic (cnt + 1) = Ret false ->
  result_of (poll_once _check client_get url cnt false)
  = Done (Ret (cnt + 1, false, Continue)).
Proof.
  intros Hget Hstatus Hjson Hformed Hcheck.
  unfold poll_once, poll_check, response_json, loads.
  rewrite Hget. cbn. rewrite Hstatus, Hjson. cbn.
  destruct (has_verification_status_pure polling_dic) as [r E].
  rewrite E in *. cbn in Hformed. injection Hformed as ->.
  cbn. rewrite Hcheck. reflexivity.
Qed.

Lemma slept_polling url (a : list Call) :
  Forall (fun c => c = HttpGet url \/ c = Sleep 5) a -> 0 <= slept a.
Proof.
  induction 1 as [| c a [-> | ->] _ IH]; cbn [slept]; lia.
Qed.

(** C2.  [patched_app_finalize] has no outcome of its own for a denied
    challenge: it hands every well-formed answer to [_check], and what
    [_check] does decides.  Let the answer to request [k + 1] be a
    well-formed one, after [k] pending iterations.  When [_check]
    raises on it ([dkb_robo]'s does on a cancelled challenge), the
    function sends no further request and does not sleep again: it
    ends at once with that exception, an outcome that is neither the
    [True] of an approval nor the [False] of a timeout.  When [_check]
    returns [False] on it, whatever its verification status says, the
    iteration is a pending one like any other: the function sleeps and
    the loop goes on from there, with a further request unless this
    was the 25th. *)
Theorem finalize_stops_only_if_check_raises
    (_check : value -> Z -> Res bool) (client_get : Z -> Res Response)
    (self_base_url challenge_id : string) (challenge_dic : value)
    (devicename : option string)
    (k : Z) (response : Response) (polling_dic : value) :
  let url := self_base_url ++ "/mfa/mfa/challenges/" ++ challenge_id in
  let m := patched_app_finalize _check client_get self_base_url challenge_id
             challenge_dic devicename in
  0 <= k <= 24 ->
  (forall cnt, 0 <= cnt < k ->
     result_of (poll_once _check client_get url cnt false)
     = Done (Ret (cnt + 1, false, Continue))) ->
  client_get k = Ret response ->
  status_code response = 200 ->
  json_loads (text response) = Some polling_dic ->
  result_of (has_verification_status polling_dic) = Done (Ret true) ->
  (forall e,
     _check polling_dic (k + 1) = Raise e ->
     result_of m = Done (Raise e)
     /\ result_of m <> Done (Ret true)
     /\ result_of m <> Done (Ret false)
     /\ actions (trace_of m)
        = (rounds_of (Z.to_nat k) [HttpGet url; Sleep 5] ++ [HttpGet url])%list
     /\ count is_http_get (trace_of m) = k + 1
     /\ slept (trace_of m) = 5 * k)
  /\ (_check polling_dic (k + 1) = Ret false ->
      let rest := poll_loop _check client_get url 24 (25 - Z.to_nat k) (k + 1) false in
      result_of m = result_of rest
      /\ actions (trace_of m)
         = (rounds_of (Z.to_nat (k + 1)) [HttpGet url; Sleep 5]
            ++ actions (trace_of rest))%list
      /\ 5 * (k + 1) <= slept (trace_of m)
      /\ (k < 24 -> k + 2 <= count is_http_get (trace_of m))).
Proof.
  intros url m Hk Hpending Hget Hstatus Hjson Hformed. split.
  - intros e Hcheck.
    exact (finalize_check_raises _check client_get self_base_url challenge_id
             challenge_dic devicename k response polling_dic e
             Hk Hpending Hget Hstatus Hjson Hformed Hcheck).
  - intros Hcheck rest.
    destruct (patched_app_finalize_unfold _check client_get self_base_url challenge_id
                challenge_dic devicename) as [Er Ea].
    fold m url in Er, Ea.
    destruct (poll_loop_prefix _check client_get url 24 (Z.to_nat (k + 1))
                (25 - Z.to_nat k) 0) as [Hr Ha]; [lia | |].
    { intros c Hc.
      destruct (Z.eq_dec c k) as [-> | Hne]; [| apply Hpending; lia].
      apply (poll_once_check_pending _ _ _ _ response polling_dic); assumption. }
    replace (Z.to_nat (k + 1) + (25 - Z.to_nat k))%nat with 26%nat in Hr, Ha by lia.
    replace (0 + Z.of_nat (Z.to_nat (k + 1))) with (k + 1) in Hr, Ha by lia.
    fold rest in Hr, Ha. rewrite Hr in Er. rewrite Ha in Ea.
    split; [exact Er | split; [exact Ea |]].
    rewrite <- (count_actions is_http_get (trace_of m)), <- (slept_actions (trace_of m))
      by (intros []; cbn; congruence).
    rewrite Ea, count_app, slept_app, rounds_of_count, rounds_of_slept.
    change (count is_http_get [HttpGet url; Sleep 5]) with 1.
    change (slept [HttpGet url; Sleep 5]) with 5.
    destruct (poll_loop_budget _check client_get url 24 (25 - Z.to_nat k) (k + 1) false)
      as (Hall & _ & _ & Hfirst).
    cbn zeta in Hall, Hfirst. fold rest in Hall, Hfirst.
    pose proof (slept_polling url _ Hall) as Hslept.
    split; [lia |].
    intros Hlt. specialize (Hfirst ltac:(lia) ltac:(lia)). lia.
Qed.

(** ** The session of [fetch_transactions] *)

Lemma account_info_dict entries : exists info, account_info (VDict entries) = Ret info.
Proof. eexists. reflexivity. Qed.

Lemma account_infos_dicts items :
  Forall (fun item => is_dict (snd item)) items ->
  forall accounts,
    exists accounts',
      account_infos items accounts = Ret accounts'
      /\ len accounts' = len accounts + len items.
Proof.
  induction 1 as [| [idx account] items [entries Hd] _ IH]; intros accounts.
  - exists accounts. split; [reflexivity | unfold len; cbn; lia].
  - cbn in Hd. subst account. cbn [account_infos].
    destruct (account_info_dict entries) as [info ->]. cbn [and_then].
    destruct (IH (accounts ++ [info])%list) as (accounts' & E & Hlen).
    exists accounts'. split; [exact E |].
    rewrite Hlen. unfold len. rewrite length_app. cbn [List.length]. lia.
Qed.

Lemma matching_indices_dicts items account_id :
  Forall (fun item => is_dict (snd item)) items ->
  exists indices,
    matching_indices items account_id = Ret indices
    /\ (forall idx, In idx indices -> In idx (map fst items))
    /\ (forall idx entries,
          In (idx, VDict entries) items ->
          lookup "id" entries = Some (VStr account_id) ->
          In idx indices)
    /\ ((forall idx entries,
           In (idx, VDict entries) items ->
           lookup "id" entries <> Some (VStr account_id)) ->
        indices = []).
Proof.
  induction 1 as [| [idx account] items [entries Hd] _ IH].
  - exists []. repeat split; try reflexivity; intros; contradiction.
  - cbn in Hd. subst account.
    destruct IH as (others & E & Hsub & Hfound & Hnone).
    cbn [matching_indices py_get and_then]. rewrite E. cbn [and_then].
    eexists. split; [reflexivity |].
    assert (Hid : is_str account_id
                    match lookup "id" entries with Some x => x | None => VNone end = true
                  <-> lookup "id" entries = Some (VStr account_id)).
    { destruct (lookup "id" entries) as [[| | | s | |] |]; cbn; split;
        try discriminate; intros H.
      - apply String.eqb_eq in H. subst s. reflexivity.
      - injection H as ->. apply String.eqb_refl. }
    destruct (is_str account_id
                match lookup "id" entries with Some x => x | None => VNone end) eqn:Hm.
    + split; [| split].
      * intros i [<- | Hi]; [left; reflexivity | right; apply Hsub; exact Hi].
      * intros i es [Heq | Hin] Hl; [left; congruence | right; eapply Hfound; eassumption].
      * intros Hno. exfalso. apply (Hno idx entries); [left; reflexivity |].
        apply Hid. reflexivity.
    + split; [| split].
      * intros i Hi. right. apply Hsub. exact Hi.
      * intros i es [Heq | Hin] Hl.
        -- injection Heq as <- <-. apply Hid in Hl. discriminate.
        -- eapply Hfound; eassumption.
      * intros Hno. apply Hnone. intros i es Hin. apply (Hno i es). right. exact Hin.
Qed.

Lemma dict_item_dicts items idx :
  Forall (fun item => is_dict (snd item)) items ->
  In idx (map fst items) ->
  exists entries, dict_item items idx = Ret (VDict entries).
Proof.
  induction 1 as [| [k account] items [entries Hd] _ IH]; intros Hin; [contradiction |].
  cbn in Hd. subst account. cbn [dict_item].
  destruct (Z.eqb_spec k idx) as [-> | Hne]; [exists entries; reflexivity |].
  apply IH. destruct Hin as [Heq | Hin]; [cbn in Heq; congruence | exact Hin].
Qed.

Section SessionProperties.

Variable json_dumps_indent : value -> string.
Variable py_float : value -> Res value.
Variable days_ago : Z -> Res string.
Variable date_to_str : string.
Variable dkb_enter :
  (Authentication -> M Authentication) -> string -> string -> M (list (Z * value)).
Variable dkb_exit : M unit.
Variable get_transactions : value -> value -> string -> string -> M (list value).

(** The transactions converted before a failure stay in the list. *)
Lemma convert_transactions_extends account trans_list :
  forall transactions,
    exists added,
      fst (convert_transactions py_float account trans_list transactions)
      = (transactions ++ added)%list
      /\ (snd (convert_transactions py_float account trans_list transactions) = Ret tt ->
          List.length added = List.length trans_list)
      /\ (forall e,
            snd (convert_transactions py_float account trans_list transactions) = Raise e ->
            (List.length added < List.length trans_list)%nat).
Proof.
  induction trans_list as [| trans rest IH]; intros transactions.
  - exists []. cbn. rewrite app_nil_r. repeat split; [discriminate].
  - cbn [convert_transactions].
    destruct (convert_transaction py_float account trans) as [transaction | e].
    + destruct (IH (transactions ++ [transaction])%list) as (added & E & Hok & Hbad).
      exists (transaction :: added). rewrite E, <- app_assoc.
      split; [reflexivity |]. cbn [List.length]. split.
      * intros H. rewrite (Hok H). reflexivity.
      * intros e H. specialize (Hbad e H). lia.
    + exists []. cbn. rewrite app_nil_r. split; [reflexivity |].
      split; [discriminate | intros; lia].
Qed.

(** The turn of one account never raises when the account is a dict:
    what [get_transactions] or a conversion raises is reported on
    stderr, and the list comes back, extended or as it was. *)
Lemma fetch_account_returns date_from_str idx entries transactions :
  (forall url type date_from date_to,
     exists t r, get_transactions url type date_from date_to = (t, Done r)) ->
  exists t added,
    fetch_account py_float date_to_str get_transactions
      date_from_str idx (VDict entries) transactions
    = (t, Done (Ret (transactions ++ added)%list))
    /\ ((forall url type date_from date_to,
           exists t' e, get_transactions url type date_from date_to = (t', Done (Raise e))) ->
        added = []).
Proof.
  intros Hfinishes. unfold fetch_account. cbn [py_get lift bind app].
  set (url := match lookup "transactions" entries with Some x => x | None => VNone end).
  set (type := match lookup "type" entries with Some x => x | None => VNone end).
  destruct (truthy url); cbn [negb].
  - destruct (Hfinishes url type date_from_str date_to_str) as (t & r & E).
    rewrite E. destruct r as [trans_list | e]; cbn.
    + destruct (convert_transactions_extends (VDict entries) trans_list transactions)
        as (added & Efst & _).
      destruct (convert_transactions py_float (VDict entries) trans_list transactions)
        as [transactions' [[] | e]]; cbn in Efst; subst transactions'; cbn;
        do 2 eexists; (split; [reflexivity |]);
        intros Hraise;
        destruct (Hraise url type date_from_str date_to_str) as (t' & e' & E');
        rewrite E in E'; discriminate.
    + exists (t ++ [Print Stderr ("Error fetching transactions for account " ++ str_Z idx
                                  ++ ": " ++ exn_msg e)])%list, [].
      rewrite !app_nil_r. split; reflexivity.
  - exists [], []. rewrite app_nil_r. split; reflexivity.
Qed.

Lemma fetch_accounts_returns date_from_str account_dic :
  Forall (fun item => is_dict (snd item)) account_dic ->
  (forall url type date_from date_to,
     exists t r, get_transactions url type date_from date_to = (t, Done r)) ->
  forall target_indices transactions,
    (forall idx, In idx target_indices -> In idx (map fst account_dic)) ->
    exists t added,
      fetch_accounts py_float date_to_str get_transactions
        date_from_str account_dic target_indices transactions
      = (t, Done (Ret (transactions ++ added)%list))
      /\ ((forall url type date_from date_to,
             exists t' e,
               get_transactions url type date_from date_to = (t', Done (Raise e))) ->
          added = []).
Proof.
  intros Hdicts Hfinishes.
  induction target_indices as [| idx rest IH]; intros transactions Hin.
  - exists [], []. rewrite app_nil_r. split; reflexivity.
  - cbn [fetch_accounts].
    destruct (dict_item_dicts account_dic idx Hdicts) as [entries ->];
      [apply Hin; left; reflexivity |].
    cbn [lift bind app].
    destruct (fetch_account_returns date_from_str idx entries transactions Hfinishes)
      as (t1 & added1 & -> & Hnone1).
    destruct (IH (transactions ++ added1)%list) as (t2 & added2 & E2 & Hnone2);
      [intros i Hi; apply Hin; right; exact Hi |].
    cbn [bind]. rewrite E2. cbn. exists (t1 ++ t2)%list, (added1 ++ added2)%list.
    rewrite <- app_assoc. split; [reflexivity |].
    intros Hraise. rewrite (Hnone1 Hraise), (Hnone2 Hraise). reflexivity.
Qed.

(** An [account_id] that no account has: the session returns the
    failure text, and fetches and prints nothing. *)
Theorem session_body_account_not_found
    (account_dic : list (Z * value)) (account_id : string) (days : Z) :
  account_id <> "" ->
  Forall (fun item => is_dict (snd item)) account_dic ->
  (forall idx entries,
     In (idx, VDict entries) account_dic ->
     lookup "id" entries <> Some (VStr account_id)) ->
  session_body json_dumps_indent py_float days_ago date_to_str get_transactions
    account_dic (Some account_id) days
  = ([], Done (Ret (json_dumps
                      (VDict [("success", VBool false);
                              ("error", VStr ("Account " ++ account_id ++ " not found"))])))).
Proof.
  intros Hid Hdicts Hnone. unfold session_body.
  destruct (account_infos_dicts account_dic Hdicts []) as (accounts & -> & _).
  cbn [lift bind app option_truthy option_str].
  replace (account_id =? "")%string with false
    by (symmetry; apply String.eqb_neq; exact Hid).
  cbn [negb].
  destruct (matching_indices_dicts account_dic account_id Hdicts)
    as (indices & -> & _ & _ & Hempty).
  rewrite (Hempty Hnone). reflexivity.
Qed.

(** When the accounts are dicts and the requested account exists (or
    none is requested), the session's result depends on the date only.
    When the date [days] days ago can be computed, the session returns
    a success result whatever [get_transactions] and the conversions
    do: [accounts] lists every account, also when one account was asked
    for, and a fetch that raises is skipped; when every fetch raises,
    the result is still a success, with no transaction.  When the date
    cannot be computed ([days] leaves the calendar), the session raises
    that error, and no success result is produced. *)
Theorem session_body_reports_success
    (account_dic : list (Z * value)) (account_id : option string) (days : Z) :
  Forall (fun item => is_dict (snd item)) account_dic ->
  (forall url type date_from date_to,
     exists t r, get_transactions url type date_from date_to = (t, Done r)) ->
  (option_truthy account_id = false
   \/ exists idx entries,
        In (idx, VDict entries) account_dic
        /\ lookup "id" entries = Some (VStr (option_str account_id))) ->
  (forall date_from_str,
     days_ago days = Ret date_from_str ->
     exists accounts transactions,
       result_of (session_body json_dumps_indent py_float days_ago date_to_str
                    get_transactions account_dic account_id days)
       = Done (Ret (json_dumps_indent
                      (VDict [("success", VBool true); ("accounts", VList accounts);
                              ("transactions", VList transactions)])))
       /\ account_infos account_dic [] = Ret accounts
       /\ len accounts = len account_dic
       /\ ((forall url type date_from date_to,
              exists t e,
                get_transactions url type date_from date_to = (t, Done (Raise e))) ->
           transactions = []))
  /\ (forall e,
        days_ago days = Raise e ->
        result_of (session_body json_dumps_indent py_float days_ago date_to_str
                     get_transactions account_dic account_id days)
        = Done (Raise e)).
Proof.
  intros Hdicts Hfinishes Hrequested.
  destruct (account_infos_dicts account_dic Hdicts []) as (accounts & Einfos & Hlen).
  change (len (@nil value)) with 0 in Hlen.
  assert (Hsame : exists targets,
             (forall idx, In idx targets -> In idx (map fst account_dic))
             /\ result_of (session_body json_dumps_indent py_float days_ago date_to_str
                             get_transactions account_dic account_id days)
                = result_of (fetch_and_dump json_dumps_indent py_float days_ago
                               date_to_str get_transactions days account_dic accounts
                               targets)).
  { unfold session_body. rewrite Einfos. cbn [lift bind app].
    destruct (option_truthy account_id) eqn:Htruthy.
    - destruct Hrequested as [Hfalse | (idx & entries & Hin & Hid)]; [discriminate |].
      destruct (matching_indices_dicts account_dic (option_str account_id) Hdicts)
        as (indices & -> & Hsub & Hfound & _).
      cbn [lift bind app].
      pose proof (Hfound idx entries Hin Hid) as Hidx.
      destruct indices as [| i rest]; [contradiction |].
      exists (i :: rest). split; [exact Hsub |].
      destruct (fetch_and_dump json_dumps_indent py_float days_ago date_to_str
                  get_transactions days account_dic accounts (i :: rest)) as [t o].
      reflexivity.
    - exists (map fst account_dic). split; [intros idx H; exact H |].
      destruct (fetch_and_dump json_dumps_indent py_float days_ago date_to_str
                  get_transactions days account_dic accounts (map fst account_dic))
        as [t o].
      reflexivity. }
  destruct Hsame as (targets & Hsub & ->). unfold fetch_and_dump. split.
  - intros date_from_str ->. cbn [lift bind app].
    destruct (fetch_accounts_returns date_from_str account_dic Hdicts Hfinishes
                targets [] Hsub) as (t & added & -> & Hnone).
    exists accounts, added.
    split; [reflexivity | split; [exact Einfos | split; [lia | exact Hnone]]].
  - intros e ->. reflexivity.
Qed.

(** Converting a transaction of a dict account raises only when
    [float] does on its [amount] (0 when there is none): a missing key
    never does.  The result has the nine keys of the output format;
    [valueDate] falls back on the booking date and [payee] on [text],
    then on the empty string. *)
Theorem convert_transaction_fails_only_on_amount
    (account_entries trans_entries : list (string * value)) :
  let found key default :=
    match lookup key trans_entries with Some x => x | None => default end in
  let m := convert_transaction py_float (VDict account_entries) (VDict trans_entries) in
  (forall e, py_float (found "amount" (VInt 0)) = Raise e -> m = Raise e)
  /\ (forall amount,
        py_float (found "amount" (VInt 0)) = Ret amount ->
        exists entries,
          m = Ret (VDict entries)
          /\ map fst entries
             = ["accountId"; "accountIban"; "bookingDate"; "valueDate"; "payee";
                "purpose"; "amount"; "currency"; "source"]
          /\ lookup "amount" entries = Some amount
          /\ lookup "source" entries = Some (VStr "dkb-robo")
          /\ lookup "valueDate" entries = Some (found "vdate" (found "bdate" VNone))
          /\ lookup "payee" entries = Some (found "peer" (found "text" (VStr "")))).
Proof.
  intros found m. subst m. unfold convert_transaction.
  cbn [py_get py_get_default and_then]. fold (found "amount" (VInt 0)).
  split.
  - intros e ->. reflexivity.
  - intros amount ->. cbn [and_then]. eexists. split; [reflexivity |].
    repeat split.
Qed.

(** What a conversion failure leaves behind: when the request for an
    account's transactions succeeds and converting one of them raises,
    the transactions converted before it are in the list, the ones
    after it are not looked at, the failure is reported on stderr under
    the account's index, and the turn ends normally, so the loop goes on
    with the next account. *)
Theorem fetch_account_keeps_partial_results
    (date_from_str : string) (idx : Z) (entries : list (string * value))
    (transactions : list value)
    (url : value) (t : list Call)
    (before : list value) (trans : value) (after converted : list value) (e : exn) :
  lookup "transactions" entries = Some url ->
  truthy url = true ->
  get_transactions url
    match lookup "type" entries with Some x => x | None => VNone end
    date_from_str date_to_str
  = (t, Done (Ret (before ++ trans :: after)%list)) ->
  Forall2 (fun x y => convert_transaction py_float (VDict entries) x = Ret y)
    before converted ->
  convert_transaction py_float (VDict entries) trans = Raise e ->
  fetch_account py_float date_to_str get_transactions
    date_from_str idx (VDict entries) transactions
  = ((t ++ [Print Stderr ("Error fetching transactions for account " ++ str_Z idx
                          ++ ": " ++ exn_msg e)])%list,
     Done (Ret (transactions ++ converted)%list)).
Proof.
  intros Hurl Htruthy Hget Hbefore Hraise.
  assert (Hconv : convert_transactions py_float (VDict entries)
                    (before ++ trans :: after) transactions
                  = ((transactions ++ converted)%list, Raise e)).
  { clear Hget. revert transactions.
    induction Hbefore as [| x y before converted Hx _ IH]; intros transactions.
    - cbn. rewrite Hraise, app_nil_r. reflexivity.
    - cbn [app convert_transactions]. rewrite Hx, IH, <- app_assoc. reflexivity. }
  unfold fetch_account. cbn [py_get lift bind app].
  rewrite Hurl, Htruthy. cbn [negb]. rewrite Hget. cbn. rewrite Hconv. cbn.
  rewrite app_nil_r. reflexivity.
Qed.

(** *** The script *)



Section ScriptProperties.

Variable run_child : Z -> Res CompletedProcess.
Variable client_post : string -> list (string * value) -> Res Response.
Variables username password : string.
Variable account_id : option string.
Variable days : Z.

Hypothesis dkb_enter_orderly :
  forall token_get,
    (forall self, orderly (token_get self)) ->
    orderly (dkb_enter token_get username password).
Hypothesis dkb_exit_orderly : orderly dkb_exit.
Hypothesis get_transactions_orderly :
  forall url type date_from date_to,
    orderly (get_transactions url type date_from date_to).





End ScriptProperties.


(** A login that fails: when [get_captcha_token] has a token and
    entering [DKBRobo] raises, [fetch_transactions] returns the failure
    text with the exception's message; beyond the captcha attempts and
    the login nothing is done, so no transaction is requested and the
    session, which was never entered, is not left. *)
Theorem fetch_transactions_login_failure
    (run_child : Z -> Res CompletedProcess)
    (client_post : string -> list (string * value) -> Res Response)
    (username password : string) (account_id : option string) (days : Z)
    (captcha_token : value) (t : list Call) (e : exn) :
  let m :=
    fetch_transactions run_child client_post
      (dkb_session_block json_dumps_indent py_float days_ago date_to_str
         dkb_enter dkb_exit get_transactions)
      username password account_id days in
  result_of (get_captcha_token run_child 3) = Done (Ret captcha_token) ->
  truthy captcha_token = true ->
  dkb_enter (patched_token_get captcha_token client_post) username password
  = (t, Done (Raise e)) ->
  result_of m
  = Done (Ret (json_dumps (VDict [("success", VBool false); ("error", VStr (exn_msg e))])))
  /\ actions (trace_of m)
     = (actions (trace_of (get_captcha_token run_child 3)) ++ actions t)%list.
Proof.
  intros m Htoken Htruthy Henter. subst m.
  unfold fetch_transactions, dkb_session_block.
  destruct (get_captcha_token run_child 3) as [t0 r].
  cbn in Htoken. subst r. cbn [trace_of fst].
  cbn. rewrite Htruthy. cbn. rewrite Henter. cbn.
  split; [reflexivity |].
  unfold actions. rewrite app_nil_r, filter_app. reflexivity.
Qed.

End SessionProperties.

(** ** test_dkb_auth.py *)

Lemma substring_all s : String.substring 0 (String.length s) s = s.
Proof. induction s as [| c s IH]; [reflexivity |]. cbn. rewrite IH. reflexivity. Qed.

Lemma substring_split s :
  forall k,
    (k <= String.length s)%nat ->
    String.substring 0 k s ++ String.substring k (String.length s - k) s = s.
Proof.
  induction s as [| c s IH]; intros k Hk.
  - destruct k; [reflexivity | cbn in Hk; lia].
  - destruct k as [| k].
    + cbn. rewrite substring_all. reflexivity.
    + cbn. f_equal. apply IH. cbn in Hk. lia.
Qed.

(** A string that ends with [suffix] is what is before, then [suffix]. *)
Lemma py_endswith_split s suffix :
  py_endswith s suffix = true ->
  s = String.substring 0 (String.length s - String.length suffix) s ++ suffix.
Proof.
  unfold py_endswith. intros H.
  apply andb_prop in H as [Hle Heq].
  apply Nat.leb_le in Hle. apply String.eqb_eq in Heq.
  pose proof (substring_split s (String.length s - String.length suffix)) as Hs.
  replace (String.length s - (String.length s - String.length suffix))%nat
    with (String.length suffix) in Hs by lia.
  rewrite Heq in Hs. symmetry. apply Hs. lia.
Qed.

Section TestDkbAuthProperties.

Variable dkb_enter : string -> string -> M (list (Z * value)).
Variable dkb_exit : M unit.

Hypothesis dkb_enter_finishes : forall username password, finishes (dkb_enter username password).
Hypothesis dkb_exit_finishes : finishes dkb_exit.

(** An attempt ends normally, whatever the login does. *)
Lemma login_attempt_returns username password :
  exists t, login_attempt dkb_enter dkb_exit username password = (t, Done (Ret tt)).
Proof.
  unfold login_attempt.
  destruct (dkb_enter_finishes username password) as (t & r & ->).
  destruct dkb_exit_finishes as (t' & r' & ->).
  destruct r as [account_dic | e]; [| eexists; reflexivity].
  destruct r' as [[] | e']; eexists; reflexivity.
Qed.

End TestDkbAuthProperties.

(** [test_dkb_auth.py], given that the logins and logouts end.  With
    fewer than two arguments it prints the usage line and exits with
    status 1, without a login.  Otherwise it exits with status 0, also
    when every login failed, and no exception escapes; it makes one
    attempt with the username as given, and when the username ends with
    [_p] a second one with the username without these two characters,
    whether the first attempt succeeded or not. *)
Theorem test_dkb_auth_attempts
    (dkb_enter : string -> string -> M (list (Z * value))) (dkb_exit : M unit)
    (argv : list string) :
  (forall username password, finishes (dkb_enter username password)) ->
  finishes dkb_exit ->
  let attempt := login_attempt dkb_enter dkb_exit in
  let run := test_dkb_auth dkb_enter dkb_exit argv in
  ((List.length argv < 3)%nat ->
   run = ([Print Stdout "Usage: test_dkb_auth.py <username> <password>"], Done (Ret 1)))
  /\ (forall prog username password rest,
        argv = prog :: username :: password :: rest ->
        let header :=
          [Print Stdout ("Testing authentication for user: " ++ username);
           Print Stdout ("Password length: " ++ str_Z (Z.of_nat (String.length password)));
           Print Stdout "";
           Print Stdout ("Attempt 1: Using username as-is: '" ++ username ++ "'")] in
        result_of run = Done (Ret 0)
        /\ (py_endswith username "_p" = false ->
            trace_of run = (header ++ trace_of (attempt username password))%list)
        /\ (py_endswith username "_p" = true ->
            exists stem,
              username = stem ++ "_p"
              /\ trace_of run
                 = (header ++ trace_of (attempt username password)
                    ++ [Print Stdout (nl ++ "Attempt 2: Trying without '_p' suffix: '"
                                      ++ stem ++ "'")]
                    ++ trace_of (attempt stem password))%list)).
Proof.
  intros Henter Hexit attempt run. subst attempt run. split.
  - intros Hshort.
    destruct argv as [| prog [| username [| password rest]]];
      [reflexivity | reflexivity | reflexivity | cbn in Hshort; lia].
  - intros prog username password rest -> header. subst header.
    cbn [test_dkb_auth].
    destruct (login_attempt_returns dkb_enter dkb_exit Henter Hexit username password)
      as [t1 E1].
    destruct (py_endswith username "_p") eqn:Hsuffix.
    + destruct (login_attempt_returns dkb_enter dkb_exit Henter Hexit
                  (drop_last_two username) password) as [t2 E2].
      unfold print, emit, ret. rewrite E1, E2.
      cbn [bind app trace_of result_of fst snd]. rewrite ?app_nil_r.
      split; [reflexivity | split; [discriminate | intros _]].
      exists (drop_last_two username).
      split; [exact (py_endswith_split username "_p" Hsuffix) |].
      rewrite E2. reflexivity.
    + unfold print, emit, ret. rewrite E1.
      cbn [bind app trace_of result_of fst snd]. rewrite ?app_nil_r.
      split; [reflexivity | split; [reflexivity | discriminate]].
Qed.

(** ** The concrete library calls end and keep stdout clean *)




Lemma login_of_alice_finishes username password :
  finishes (Examples.login_of_alice username password).
Proof.
  unfold Examples.login_of_alice.
  destruct (username =? "alice")%string; do 2 eexists; reflexivity.
Qed.

Lemma bookings_unavailable_raises url type date_from date_to :
  exists t e,
    Examples.bookings_unavailable url type date_from date_to = (t, Done (Raise e)).
Proof. do 2 eexists. reflexivity. Qed.

End Properties.

(** * The theorems at concrete runs *)

Lemma get_captcha_token_retry_policy_witness :
  (result_of (get_captcha_token Examples.children_failing 3) = Done (Ret VNone)
   /\ actions (trace_of (get_captcha_token Examples.children_failing 3))
      = [run_call; Sleep 5; run_call; Sleep 5; run_call]
   /\ count is_run (trace_of (get_captcha_token Examples.children_failing 3)) = 3
   /\ slept (trace_of (get_captcha_token Examples.children_failing 3)) = 10)
  /\ (result_of (get_captcha_token Examples.children_second_ok 3) = Done (Ret (VStr "abc123"))
      /\ actions (trace_of (get_captcha_token Examples.children_second_ok 3))
         = [run_call; Sleep 5; run_call]
      /\ count is_run (trace_of (get_captcha_token Examples.children_second_ok 3)) = 2
      /\ slept (trace_of (get_captcha_token Examples.children_second_ok 3)) = 5).
Proof.
  split.
  - apply (proj1 (get_captcha_token_retry_policy Examples.children_failing 3)).
    intros attempt H. reflexivity.
  - apply (proj2 (get_captcha_token_retry_policy Examples.children_second_ok 3)
             2 (VStr "abc123")).
    + lia.
    + intros attempt H. assert (attempt = 1) as -> by lia. reflexivity.
    + reflexivity.
Defined.

Lemma attempt_succeeds_only_on_valid_result_witness :
  result_of (attempts_loop Examples.children_garbled 3 [1; 2; 3])
  = result_of (attempts_loop Examples.children_garbled 3 [2; 3]).
Proof.
  apply (attempt_succeeds_only_on_valid_result Examples.children_garbled 1 3 [2; 3]).
  reflexivity.
Defined.

Lemma finalize_pending_polls_25_times_witness :
  let m := patched_app_finalize Examples.check_status Examples.always_500
             "https://banking.dkb.de/api" "c-1" VNone (Some "phone") in
  result_of m = Done (Ret false)
  /\ actions (trace_of m)
     = rounds_of 25 [HttpGet "https://banking.dkb.de/api/mfa/mfa/challenges/c-1"; Sleep 5]
  /\ count is_http_get (trace_of m) = 25
  /\ slept (trace_of m) = 125.
Proof.
  apply (finalize_pending_polls_25_times Examples.check_status Examples.always_500
           "https://banking.dkb.de/api" "c-1" VNone (Some "phone")).
  intros cnt H. reflexivity.
Defined.


Lemma patched_token_get_first_factor_witness :
  result_of (patched_token_get (VStr "abc123") Examples.login_accepted Examples.alice)
  = Done (Ret {| dkb_user := "alice"; dkb_password := "secret";
                 base_url := "https://banking.dkb.de/api";
                 token_dic := Examples.login_payload |})
  /\ result_of (patched_token_get (VStr "abc123") Examples.login_refused Examples.alice)
     = Done (Raise (Exn DKBRoboError
                      "Login failed: 1st factor authentication failed. RC: 401")).
Proof.
  split.
  - apply (proj1 (proj2 (patched_token_get_first_factor (VStr "abc123")
                           Examples.login_accepted Examples.alice))
             {| status_code := 200; text := JsonRef.dumps Examples.login_payload |}
             Examples.login_payload);
      reflexivity.
  - apply (proj2 (proj2 (patched_token_get_first_factor (VStr "abc123")
                           Examples.login_refused Examples.alice))
             {| status_code := 401; text := "" |}).
    + reflexivity.
    + discriminate.
Defined.

Lemma fetch_transactions_without_token_witness :
  let m := fetch_transactions Examples.children_failing Examples.login_accepted
             Examples.session_logging_in "alice" "secret" None 90 in
  result_of m
  = Done (Ret (JsonRef.dumps (VDict [("success", VBool false);
                                     ("error", VStr "Failed to get captcha token")])))
  /\ count is_http_post (trace_of m) = 0
  /\ actions (trace_of m)
     = actions (trace_of (get_captcha_token Examples.children_failing 3)).
Proof.
  exact (fetch_transactions_without_token Examples.children_failing
           Examples.login_accepted Examples.session_logging_in
           "alice" "secret" None 90 VNone eq_refl eq_refl).
Defined.

Lemma get_redeem_response_waits_for_last_event_witness :
  (result_of (get_redeem_response Examples.browser_abc123 400) = Done (Ret (VStr "abc123"))
   /\ slept (trace_of (get_redeem_response Examples.browser_abc123 400)) = 2
   /\ actions (trace_of (get_redeem_response Examples.browser_abc123 400))
      = [Sleep 1; Sleep 1; GetResponseBody "r2"])
  /\ (result_of (get_redeem_response Examples.browser_silent 400) = Done (Ret (VBool false))
      /\ slept (trace_of (get_redeem_response Examples.browser_silent 400)) = 400
      /\ actions (trace_of (get_redeem_response Examples.browser_silent 400))
         = rounds_of 400 [Sleep 1]).
Proof.
  split.
  - apply (proj1 (get_redeem_response_waits_for_last_event Examples.browser_abc123 400)
             3 [Examples.redeem_event "r1"] (Examples.redeem_event "r2")
             (Examples.redeem_body (VStr "abc123")) false
             (VDict [("data", VDict [("redeem_token", VStr "abc123")])])
             (VDict [("redeem_token", VStr "abc123")]) (VStr "abc123")).
    + lia.
    + intros j H. assert (j = 1 \/ j = 2) as [-> | ->] by lia; reflexivity.
    + reflexivity.
    + reflexivity.
    + reflexivity.
    + reflexivity.
    + reflexivity.
  - apply (proj2 (get_redeem_response_waits_for_last_event Examples.browser_silent 400)).
    intros j H. reflexivity.
Defined.

Lemma get_redeem_response_gives_up_on_unreadable_token_witness :
  let m := get_redeem_response Examples.browser_bad_body 400 in
  result_of m = Done (Ret (VBool false))
  /\ slept (trace_of m) = 1
  /\ exists evt,
       py_last (redeem_events (arrived_at_check Examples.browser_bad_body 2)) = Ret evt
       /\ actions (trace_of m) = [Sleep 1; GetResponseBody (request_id evt)].
Proof.
  apply (get_redeem_response_gives_up_on_unreadable_token Examples.browser_bad_body 400 2
           (Exn JSONDecodeError "Expecting value")).
  - lia.
  - intros j H. assert (j = 1) as -> by lia. reflexivity.
  - discriminate.
  - reflexivity.
Defined.

Lemma get_dkb_redeem_token_catches_exceptions_witness :
  result_of (get_dkb_redeem_token Examples.browser_unreachable 400 true)
  = Done (Ret (VBool false)).
Proof.
  apply (proj2 (proj2 (proj2
           (get_dkb_redeem_token_catches_exceptions Examples.browser_unreachable 400 true)))
         (Exn OtherError "net::ERR_NAME_NOT_RESOLVED"));
    reflexivity.
Defined.

Lemma main_prints_one_result_line_witness :
  stdout_lines (trace_of (main Examples.browser_abc123))
  = [JsonRef.dumps (VDict [("success", VBool true); ("token", VStr "abc123")])]
  /\ result_of (main Examples.browser_abc123) = Done (Ret 0)
  /\ result_of
       (attempt_guarded
          (fun _ => Ret {| returncode := 0;
                           stdout := JsonRef.dumps (VDict [("success", VBool true);
                                                           ("token", VStr "abc123")]) ++ nl;
                           stderr := "" |})
          1)
     = Done (Ret (Some (VStr "abc123"))).
Proof.
  assert (result_of (get_dkb_redeem_token Examples.browser_abc123 400 true)
          = Done (Ret (VStr "abc123"))) as Htoken by (vm_compute; reflexivity).
  destruct (proj2 (main_prints_one_result_line Examples.browser_abc123)
              (VStr "abc123") Htoken) as (Hline & Hcode & _ & Hparent).
  split; [exact Hline | split; [exact Hcode |]].
  apply (Hparent eq_refl 1 "").
Defined.

(** C6.  The child on a redemption body that holds the number 42
    where the token is, [{"data": {"redeem_token": 42}}]: the acquirer
    returns 42, against its docstring ([str: Redeem token or False on
    error]), and [__main__], which tests the truth of the token only,
    prints [{"success": true, "token": 42}] and exits with status 0.
    The text parses, but it is neither a success with a string as
    token nor a failure. *)
Lemma main_token_need_not_be_a_string :
  let m := main Examples.browser_42 in
  stdout_lines (trace_of m) = [Examples.token_42_line]
  /\ result_of m = Done (Ret 0)
  /\ JsonRef.loads (Examples.token_42_line ++ nl)
     = Some (VDict [("success", VBool true); ("token", VInt 42)])
  /\ ~ (exists s, stdout_lines (trace_of m)
                  = [JsonRef.dumps (VDict [("success", VBool true); ("token", VStr s)])])
  /\ ~ (exists s, stdout_lines (trace_of m)
                  = [JsonRef.dumps (VDict [("success", VBool false); ("error", VStr s)])]).
Proof.
  split; [reflexivity |].
  split; [reflexivity |].
  split; [reflexivity |].
  split.
  - intros [s H]. vm_compute in H. discriminate H.
  - intros [s H]. vm_compute in H. discriminate H.
Qed.

Lemma finalize_approval_stops_polling_witness :
  let m := patched_app_finalize Examples.check_status Examples.approved_at_third
             "https://banking.dkb.de/api" "c-1" VNone None in
  result_of m = Done (Ret true)
  /\ actions (trace_of m)
     = [HttpGet "https://banking.dkb.de/api/mfa/mfa/challenges/c-1"; Sleep 5;
        HttpGet "https://banking.dkb.de/api/mfa/mfa/challenges/c-1"; Sleep 5;
        HttpGet "https://banking.dkb.de/api/mfa/mfa/challenges/c-1"]
  /\ count is_http_get (trace_of m) = 3
  /\ slept (trace_of m) = 10.
Proof.
  apply (finalize_approval_stops_polling Examples.check_status Examples.approved_at_third
           "https://banking.dkb.de/api" "c-1" VNone None 2
           {| status_code := 200; text := Examples.status_body "processed" |}
           (VDict [("data", VDict [("attributes",
                                    VDict [("verificationStatus", VStr "processed")])])])).
  - lia.
  - intros cnt H. assert (cnt = 0 \/ cnt = 1) as [-> | ->] by lia; reflexivity.
  - reflexivity.
  - reflexivity.
  - reflexivity.
  - reflexivity.
  - reflexivity.
Defined.

Lemma poll_once_transient_witness :
  result_of (poll_once Examples.check_status Examples.always_500 "u" 7 false)
  = Done (Ret (8, false, Continue))
  /\ result_of (poll_once Examples.check_status Examples.data_null "u" 7 false)
     = Done (Raise (Exn TypeError "argument is not iterable")).
Proof.
  split.
  - apply (proj1 (poll_once_transient Examples.check_status Examples.always_500 "u" 7
                    false {| status_code := 500; text := "" |} eq_refl)).
    discriminate.
  - assert (Hjson : JsonRef.loads (JsonRef.dumps (VDict [("data", VNone)]))
                    = Some (VDict [("data", VNone)]))
      by (vm_compute; reflexivity).
    destruct (poll_once_transient Examples.check_status Examples.data_null "u" 7 false
                {| status_code := 200; text := JsonRef.dumps (VDict [("data", VNone)]) |}
                eq_refl) as (_ & _ & Hbody).
    destruct (Hbody (VDict [("data", VNone)]) eq_refl Hjson)
      as (_ & _ & _ & _ & Hnull & _).
    exact (Hnull [("data", VNone)] VNone (Exn TypeError "argument is not iterable")
             eq_refl eq_refl eq_refl).
Defined.

Lemma read_token_failures_witness :
  result_of (read_token Examples.browser_bad_body [Examples.redeem_event "r1"])
  = Done (Raise (Exn JSONDecodeError "Expecting value")).
Proof.
  apply (proj1 (proj2 (read_token_failures Examples.browser_bad_body []
                         (Examples.redeem_event "r1")))
           "<html>502 Bad Gateway</html>" false);
    reflexivity.
Defined.

Lemma browser_session_always_closed_witness :
  count is_sb_exit (trace_of (get_dkb_redeem_token Examples.browser_unreachable 400 true)) = 1
  /\ count is_sb_exit (trace_of (get_dkb_redeem_token Examples.browser_missing 400 true)) = 0
  /\ actions (trace_of (get_dkb_redeem_token Examples.browser_missing 400 true))
     = [Browser (SBEnter true)].
Proof.
  split.
  - exact (proj1 (browser_session_always_closed Examples.browser_unreachable 400 true)
             eq_refl).
  - exact (proj2 (browser_session_always_closed Examples.browser_missing 400 true)
             (Exn OtherError "chromedriver not found") eq_refl).
Defined.

Lemma session_body_account_not_found_witness :
  session_body JsonRef.dumps_indent Examples.float_of_amount Examples.ninety_days_ago
    Examples.today Examples.bookings_of_giro Examples.two_accounts (Some "acc-9") 90
  = ([], Done (Ret (JsonRef.dumps
                      (VDict [("success", VBool false);
                              ("error", VStr "Account acc-9 not found")])))).
Proof.
  assert (Hdicts : Forall (fun item => is_dict (snd item)) Examples.two_accounts)
    by (repeat constructor; eexists; reflexivity).
  assert (Hnone : forall idx entries,
             In (idx, VDict entries) Examples.two_accounts ->
             lookup "id" entries <> Some (VStr "acc-9"))
    by (intros idx entries [H | [H | []]]; injection H as <- <-; discriminate).
  assert (Hid : "acc-9" <> "") by discriminate.
  exact (session_body_account_not_found JsonRef.dumps_indent Examples.float_of_amount
           Examples.ninety_days_ago Examples.today Examples.bookings_of_giro
           Examples.two_accounts "acc-9" 90 Hid Hdicts Hnone).
Defined.

Lemma session_body_reports_success_witness :
  (exists accounts,
     result_of (session_body JsonRef.dumps_indent Examples.float_of_amount
                  Examples.ninety_days_ago Examples.today Examples.bookings_unavailable
                  Examples.two_accounts None 90)
     = Done (Ret (JsonRef.dumps_indent
                    (VDict [("success", VBool true); ("accounts", VList accounts);
                            ("transactions", VList [])])))
     /\ len accounts = 2)
  /\ result_of (session_body JsonRef.dumps_indent Examples.float_of_amount
                  Examples.out_of_calendar Examples.today Examples.bookings_unavailable
                  Examples.two_accounts None 800000)
     = Done (Raise (Exn OtherError "date value out of range")).
Proof.
  assert (Hdicts : Forall (fun item => is_dict (snd item)) Examples.two_accounts)
    by (repeat constructor; eexists; reflexivity).
  assert (Hfinishes : forall url type date_from date_to,
             exists t r,
               Examples.bookings_unavailable url type date_from date_to = (t, Done r))
    by (intros; do 2 eexists; reflexivity).
  split.
  - destruct (proj1 (session_body_reports_success JsonRef.dumps_indent
                       Examples.float_of_amount Examples.ninety_days_ago Examples.today
                       Examples.bookings_unavailable Examples.two_accounts None 90
                       Hdicts Hfinishes (or_introl eq_refl))
                "06.08.2026" eq_refl)
      as (accounts & transactions & Hresult & _ & Hlen & Hnone).
    exists accounts. rewrite (Hnone bookings_unavailable_raises) in Hresult.
    split; [exact Hresult | exact Hlen].
  - exact (proj2 (session_body_reports_success JsonRef.dumps_indent
                    Examples.float_of_amount Examples.out_of_calendar Examples.today
                    Examples.bookings_unavailable Examples.two_accounts None 800000
                    Hdicts Hfinishes (or_introl eq_refl))
             (Exn OtherError "date value out of range") eq_refl).
Defined.

Lemma convert_transaction_fails_only_on_amount_witness :
  convert_transaction Examples.float_of_amount (VDict Examples.giro_entries)
    (VDict Examples.pending_booking)
  = Raise (Exn OtherError "could not convert string to float: 'n/a'")
  /\ exists entries,
      convert_transaction Examples.float_of_amount (VDict Examples.giro_entries)
        (VDict Examples.bakery)
      = Ret (VDict entries)
      /\ lookup "amount" entries = Some (VInt (-3))
      /\ lookup "valueDate" entries = Some (VStr "02.11.2026")
      /\ lookup "payee" entries = Some (VStr "Bakery").
Proof.
  split.
  - exact (proj1 (convert_transaction_fails_only_on_amount Examples.float_of_amount
                    Examples.giro_entries Examples.pending_booking)
             (Exn OtherError "could not convert string to float: 'n/a'") eq_refl).
  - destruct (proj2 (convert_transaction_fails_only_on_amount Examples.float_of_amount
                       Examples.giro_entries Examples.bakery) (VInt (-3)) eq_refl)
      as (entries & Hm & _ & Hamount & _ & Hvalue & Hpayee).
    exists entries.
    split; [exact Hm | split; [exact Hamount | split; [exact Hvalue | exact Hpayee]]].
Defined.

Lemma fetch_account_keeps_partial_results_witness :
  fetch_account Examples.float_of_amount Examples.today Examples.bookings_of_giro
    "06.08.2026" 0 (VDict Examples.giro_entries) []
  = ([HttpGet Examples.giro_url;
      Print Stderr ("Error fetching transactions for account 0: "
                    ++ "could not convert string to float: 'n/a'")],
     Done (Ret [VDict [("accountId", VStr "acc-1");
                       ("accountIban", VStr "DE02120300000000202051");
                       ("bookingDate", VStr "02.11.2026");
                       ("valueDate", VStr "02.11.2026");
                       ("payee", VStr "Bakery"); ("purpose", VStr "Bread");
                       ("amount", VInt (-3)); ("currency", VStr "EUR");
                       ("source", VStr "dkb-robo")]])).
Proof.
  set (converted :=
         [VDict [("accountId", VStr "acc-1");
                 ("accountIban", VStr "DE02120300000000202051");
                 ("bookingDate", VStr "02.11.2026");
                 ("valueDate", VStr "02.11.2026");
                 ("payee", VStr "Bakery"); ("purpose", VStr "Bread");
                 ("amount", VInt (-3)); ("currency", VStr "EUR");
                 ("source", VStr "dkb-robo")]]).
  assert (Hbefore :
            Forall2 (fun x y =>
                       convert_transaction Examples.float_of_amount
                         (VDict Examples.giro_entries) x = Ret y)
              [VDict Examples.bakery] converted)
    by (repeat constructor).
  exact (fetch_account_keeps_partial_results Examples.float_of_amount
           Examples.today Examples.bookings_of_giro
           "06.08.2026" 0 Examples.giro_entries [] (VStr Examples.giro_url)
           [HttpGet Examples.giro_url]
           [VDict Examples.bakery] (VDict Examples.pending_booking)
           [VDict Examples.rent] converted
           (Exn OtherError "could not convert string to float: 'n/a'")
           eq_refl eq_refl eq_refl Hbefore eq_refl).
Defined.


Lemma fetch_transactions_login_failure_witness :
  let m :=
    fetch_transactions Examples.children_second_ok Examples.login_refused
      (dkb_session_block JsonRef.dumps_indent Examples.float_of_amount
         Examples.ninety_days_ago Examples.today Examples.login_with
         Examples.logout Examples.bookings_of_giro)
      "alice" "secret" None 90 in
  result_of m
  = Done (Ret (JsonRef.dumps
                 (VDict [("success", VBool false);
                         ("error",
                          VStr "Login failed: 1st factor authentication failed. RC: 401")])))
  /\ actions (trace_of m)
     = (actions (trace_of (get_captcha_token Examples.children_second_ok 3))
        ++ [HttpPost "https://banking.dkb.de/api/token"
              [("captcha_token", VStr "abc123");
               ("grant_type", VStr "banking_user_sca");
               ("username", VStr "alice");
               ("password", VStr "secret");
               ("sca_type", VStr "web-login")]])%list.
Proof.
  assert (Htoken : result_of (get_captcha_token Examples.children_second_ok 3)
                   = Done (Ret (VStr "abc123")))
    by (vm_compute; reflexivity).
  assert (Hlogin :
            Examples.login_with (patched_token_get (VStr "abc123") Examples.login_refused)
              "alice" "secret"
            = ([Log DEBUG ("Authentication._token_get() [PATCHED WITH CAPTCHA]" ++ nl);
                HttpPost "https://banking.dkb.de/api/token"
                  [("captcha_token", VStr "abc123");
                   ("grant_type", VStr "banking_user_sca");
                   ("username", VStr "alice");
                   ("password", VStr "secret");
                   ("sca_type", VStr "web-login")]],
               Done (Raise (Exn DKBRoboError
                              "Login failed: 1st factor authentication failed. RC: 401"))))
    by (vm_compute; reflexivity).
  exact (fetch_transactions_login_failure JsonRef.dumps_indent Examples.float_of_amount
           Examples.ninety_days_ago Examples.today Examples.login_with Examples.logout
           Examples.bookings_of_giro
           Examples.children_second_ok Examples.login_refused "alice" "secret" None 90
           (VStr "abc123") _ _ Htoken eq_refl Hlogin).
Defined.

Lemma test_dkb_auth_attempts_witness :
  let attempt := login_attempt Examples.login_of_alice Examples.logout in
  let run :=
    test_dkb_auth Examples.login_of_alice Examples.logout
      ["test_dkb_auth.py"; "alice_p"; "secret"] in
  result_of run = Done (Ret 0)
  /\ exists stem,
      "alice_p" = stem ++ "_p"
      /\ trace_of run
         = ([Print Stdout ("Testing authentication for user: " ++ "alice_p");
             Print Stdout ("Password length: "
                           ++ str_Z (Z.of_nat (String.length "secret")));
             Print Stdout "";
             Print Stdout ("Attempt 1: Using username as-is: '" ++ "alice_p" ++ "'")]
            ++ trace_of (attempt "alice_p" "secret")
            ++ [Print Stdout (nl ++ "Attempt 2: Trying without '_p' suffix: '"
                              ++ stem ++ "'")]
            ++ trace_of (attempt stem "secret"))%list.
Proof.
  intros attempt run.
  destruct (proj2 (test_dkb_auth_attempts Examples.login_of_alice Examples.logout
                     ["test_dkb_auth.py"; "alice_p"; "secret"]
                     login_of_alice_finishes
                     (ex_intro _ _ (ex_intro _ _ eq_refl)))
              "test_dkb_auth.py" "alice_p" "secret" [] eq_refl)
    as (Hresult & _ & Htwice).
  split; [exact Hresult | exact (Htwice eq_refl)].
Defined.

Lemma finalize_stops_only_if_check_raises_witness :
  let cancelled :=
    patched_app_finalize Examples.check_status Examples.denied_at_third
      "https://banking.dkb.de/api" "c-1" VNone None in
  let rejected :=
    patched_app_finalize Examples.check_status Examples.always_rejected
      "https://banking.dkb.de/api" "c-1" VNone None in
  (result_of cancelled = Done (Raise (Exn DKBRoboError "2fa chanceled by user"))
   /\ count is_http_get (trace_of cancelled) = 3
   /\ slept (trace_of cancelled) = 10)
  /\ (5 <= slept (trace_of rejected)
      /\ 2 <= count is_http_get (trace_of rejected)).
Proof.
  intros cancelled rejected. split.
  - assert (Hpending : forall cnt, 0 <= cnt < 2 ->
               result_of (poll_once Examples.check_status Examples.denied_at_third
                            ("https://banking.dkb.de/api" ++ "/mfa/mfa/challenges/" ++ "c-1")
                            cnt false)
               = Done (Ret (cnt + 1, false, Continue)))
      by (intros cnt H; assert (cnt = 0 \/ cnt = 1) as [-> | ->] by lia; reflexivity).
    assert (Hjson : JsonRef.loads (Examples.status_body "canceled")
                    = Some (VDict [("data",
                                    VDict [("attributes",
                                            VDict [("verificationStatus",
                                                    VStr "canceled")])])]))
      by (vm_compute; reflexivity).
    destruct (proj1 (finalize_stops_only_if_check_raises
                       Examples.check_status Examples.denied_at_third
                       "https://banking.dkb.de/api" "c-1" VNone None 2
                       {| status_code := 200; text := Examples.status_body "canceled" |}
                       (VDict [("data",
                                VDict [("attributes",
                                        VDict [("verificationStatus", VStr "canceled")])])])
                       ltac:(lia) Hpending eq_refl eq_refl Hjson eq_refl)
                (Exn DKBRoboError "2fa chanceled by user") eq_refl)
      as (Hresult & _ & _ & _ & Hcount & Hslept).
    split; [exact Hresult | split; [exact Hcount | exact Hslept]].
  - assert (Hpending : forall cnt, 0 <= cnt < 0 ->
               result_of (poll_once Examples.check_status Examples.always_rejected
                            ("https://banking.dkb.de/api" ++ "/mfa/mfa/challenges/" ++ "c-1")
                            cnt false)
               = Done (Ret (cnt + 1, false, Continue)))
      by (intros cnt H; lia).
    assert (Hjson : JsonRef.loads (Examples.status_body "rejected")
                    = Some (VDict [("data",
                                    VDict [("attributes",
                                            VDict [("verificationStatus",
                                                    VStr "rejected")])])]))
      by (vm_compute; reflexivity).
    destruct (proj2 (finalize_stops_only_if_check_raises
                       Examples.check_status Examples.always_rejected
                       "https://banking.dkb.de/api" "c-1" VNone None 0
                       {| status_code := 200; text := Examples.status_body "rejected" |}
                       (VDict [("data",
                                VDict [("attributes",
                                        VDict [("verificationStatus", VStr "rejected")])])])
                       ltac:(lia) Hpending eq_refl eq_refl Hjson eq_refl)
                eq_refl)
      as (_ & _ & Hslept & Hcount).
    split; [exact Hslept | exact (Hcount ltac:(lia))].
Defined.

(** C2 as the specification states it fails.  With a [_check] in the
    manner of [dkb_robo]'s, every answer an HTTP 200 with a well-formed
    payload whose verification status is ["rejected"]: the function
    does not stop at the first answer.  It sends its 25 requests,
    sleeps 125 seconds and returns [False], the very result and the
    very calls of a run in which every request fails, so that the
    rejection cannot be told from a timeout. *)
Lemma finalize_polls_on_after_rejected_status :
  let m :=
    patched_app_finalize Examples.check_status Examples.always_rejected
      "https://banking.dkb.de/api" "c-1" VNone None in
  let timed_out :=
    patched_app_finalize Examples.check_status Examples.always_500
      "https://banking.dkb.de/api" "c-1" VNone None in
  Examples.always_rejected 0
  = Ret {| status_code := 200; text := Examples.status_body "rejected" |}
  /\ JsonRef.loads (Examples.status_body "rejected")
     = Some (VDict [("data",
                     VDict [("attributes",
                             VDict [("verificationStatus", VStr "rejected")])])])
  /\ count is_http_get (trace_of m) = 25
  /\ slept (trace_of m) = 125
  /\ result_of m = Done (Ret false)
  /\ result_of m = result_of timed_out
  /\ actions (trace_of m) = actions (trace_of timed_out).
Proof.
  intros m timed_out.
  split; [reflexivity |].
  split; [vm_compute; reflexivity |].
  split; [vm_compute; reflexivity |].
  split; [vm_compute; reflexivity |].
  split; [vm_compute; reflexivity |].
  split; vm_compute; reflexivity.
Qed.
